(** * actiwatch.analysis: per-day sleep statistics from epoch tables

    A shallow embedding of [src/actiwatch/analysis.py].  The input
    [pd.DataFrame] is a list of epoch records; every reducer is a function
    from that list (and its scalar argument) to a [result]: a returned value
    (a table, or Python's [None]) or a raised exception.  The pandas
    operations the reducers call ([unique], [groupby], [pivot_table],
    [pivot], [fillna], [drop], [rolling], [merge], [loc] assignment) are
    written out in [Module Pandas] on association lists whose keys are kept
    sorted, the order pandas gives to group keys and pivot labels.  Numbers
    are the machine's: [int64] sums wrap around, Python's [int / int] is
    the correctly rounded quotient, and rolling sums are the compensated
    float sums pandas computes. *)

From Stdlib Require Import ZArith List String Ascii Bool Lia.
From Stdlib Require Import Floats QArith Qabs.
From Stdlib Require Import Sorting.Sorted Sorting.Permutation.
From Stdlib Require Import Structures.OrdersEx Classes.RelationClasses.
Import ListNotations.

Local Open Scope string_scope.
Local Open Scope Z_scope.

(** ** Results: a value or a raised exception *)

(** The exceptions the module can raise.  [KeyError] carries the labels that
    were not found, as pandas reports them. *)
Inductive exn : Type :=
| KeyError (missing : list string)
| IndexError
| ValueError
| OverflowError
| ZeroDivisionError
| NotImplementedError.

Inductive result (A : Type) : Type :=
| Ok (a : A)
| Raise (e : exn).

Arguments Ok {A} a.
Arguments Raise {A} e.

Definition bind {A B : Type} (m : result A) (k : A -> result B) : result B :=
  match m with
  | Ok a => k a
  | Raise e => Raise e
  end.

Notation "x <- m ;; k" := (bind m (fun x => k))
  (at level 61, m at next level, right associativity).

Fixpoint mapM {A B : Type} (f : A -> result B) (l : list A) : result (list B) :=
  match l with
  | [] => Ok []
  | a :: l' => b <- f a ;; bs <- mapM f l' ;; Ok (b :: bs)
  end.

(** ** Ordered keys *)

(** Group keys and pivot labels are compared with a three-way comparison;
    the laws are those of a strict total order whose [Eq] is equality. *)
Class Ord (K : Type) : Type := {
  cmp : K -> K -> comparison;
  cmp_eq : forall x y, cmp x y = Eq <-> x = y;
  cmp_antisym : forall x y, cmp y x = CompOpp (cmp x y);
  cmp_trans : forall x y z, cmp x y = Lt -> cmp y z = Lt -> cmp x z = Lt
}.

#[export, refine] Instance Ord_Z : Ord Z := {| cmp := Z.compare |}.
Proof.
  - intros x y. apply Z.compare_eq_iff.
  - intros x y. apply Z.compare_antisym.
  - intros x y z H1 H2. rewrite Z.compare_lt_iff in *. lia.
Defined.

#[export, refine] Instance Ord_nat : Ord nat := {| cmp := Nat.compare |}.
Proof.
  - intros x y. apply Nat.compare_eq_iff.
  - intros x y. apply Nat.compare_antisym.
  - intros x y z H1 H2. rewrite Nat.compare_lt_iff in *. lia.
Defined.

Lemma string_lt_irrefl (x : string) : String_as_OT.compare x x <> Lt.
Proof. exact (@StrictOrder_Irreflexive _ _ String_as_OT.lt_strorder x). Qed.

Lemma string_lt_trans (x y z : string) :
  String_as_OT.compare x y = Lt -> String_as_OT.compare y z = Lt ->
  String_as_OT.compare x z = Lt.
Proof. exact (@StrictOrder_Transitive _ _ String_as_OT.lt_strorder x y z). Qed.

Lemma string_compare_eq (x y : string) : String_as_OT.compare x y = Eq <-> x = y.
Proof.
  destruct (String_as_OT.compare_spec x y) as [H|H|H].
  - tauto.
  - split; [discriminate|]. intros ->. destruct (string_lt_irrefl _ H).
  - split; [discriminate|]. intros ->. destruct (string_lt_irrefl _ H).
Qed.

Lemma string_compare_antisym (x y : string) :
  String_as_OT.compare y x = CompOpp (String_as_OT.compare x y).
Proof.
  destruct (String_as_OT.compare_spec x y) as [H|H|H];
    destruct (String_as_OT.compare_spec y x) as [H'|H'|H']; cbn [CompOpp];
    try reflexivity; exfalso;
    unfold String_as_OT.eq, String_as_OT.lt in *; subst;
    try (eapply string_lt_irrefl; eassumption);
    eapply string_lt_irrefl; eapply string_lt_trans; eassumption.
Qed.

(** Strings are ordered by character code, as Python orders [str]. *)
#[export] Instance Ord_string : Ord string :=
  {| cmp := String_as_OT.compare;
     cmp_eq := string_compare_eq;
     cmp_antisym := string_compare_antisym;
     cmp_trans := string_lt_trans |}.

(** Pairs are compared lexicographically, as pandas orders the rows of a
    two-level index. *)
Definition cmp_pair {A B : Type} `{Ord A} `{Ord B} (p q : A * B) : comparison :=
  match cmp (fst p) (fst q) with
  | Eq => cmp (snd p) (snd q)
  | c => c
  end.

#[export, refine] Instance Ord_pair {A B : Type} `{Ord A} `{Ord B} : Ord (A * B) :=
  {| cmp := cmp_pair |}.
Proof.
  - intros [a b] [a' b']. unfold cmp_pair; simpl.
    destruct (cmp a a') eqn:E.
    + apply cmp_eq in E. subst a'. rewrite cmp_eq. split; congruence.
    + split; [discriminate|]. intro Hp. inversion Hp; subst.
      assert (cmp a' a' = Eq) by (apply cmp_eq; reflexivity). congruence.
    + split; [discriminate|]. intro Hp. inversion Hp; subst.
      assert (cmp a' a' = Eq) by (apply cmp_eq; reflexivity). congruence.
  - intros [a b] [a' b']. unfold cmp_pair; simpl.
    rewrite (cmp_antisym a a'). destruct (cmp a a'); simpl; try reflexivity.
    apply cmp_antisym.
  - intros [a b] [a' b'] [a'' b'']. unfold cmp_pair; simpl.
    destruct (cmp a a') eqn:E1; try discriminate.
    + apply cmp_eq in E1. subst a'. destruct (cmp a a'') eqn:E2; try tauto.
      apply cmp_trans.
    + intros _. destruct (cmp a' a'') eqn:E2; try discriminate.
      * apply cmp_eq in E2. subst a''. rewrite E1. reflexivity.
      * rewrite (cmp_trans _ _ _ E1 E2). reflexivity.
Defined.

(** ** Sorted key lists *)

Section Keys.
Context {K : Type} `{Ord K}.

Definition key_eqb (x y : K) : bool :=
  match cmp x y with Eq => true | _ => false end.

Definition lt_key (x y : K) : Prop := cmp x y = Lt.

(** Strictly increasing lists: the shape of every group-key list. *)
Definition StrictSorted (l : list K) : Prop := StronglySorted lt_key l.

(** Insertion into a strictly increasing list; a key already there is not
    inserted again. *)
Fixpoint insert_key (x : K) (l : list K) : list K :=
  match l with
  | [] => [x]
  | y :: l' =>
      match cmp x y with
      | Lt => x :: y :: l'
      | Eq => y :: l'
      | Gt => y :: insert_key x l'
      end
  end.

(** The distinct keys of a column in increasing order: the group keys of a
    [groupby] and the labels of a pivot. *)
Definition group_keys (l : list K) : list K := fold_right insert_key [] l.

(** [Series.unique()]: the distinct values in order of first appearance. *)
Fixpoint unique (l : list K) : list K :=
  match l with
  | [] => []
  | x :: l' => x :: filter (fun y => negb (key_eqb x y)) (unique l')
  end.

(** Python's [x in xs]. *)
Definition contains (x : K) (l : list K) : bool := existsb (key_eqb x) l.

(** Stable insertion sort, duplicates kept: Python's [sorted]. *)
Fixpoint insert_sorted (x : K) (l : list K) : list K :=
  match l with
  | [] => [x]
  | y :: l' =>
      match cmp x y with
      | Gt => y :: insert_sorted x l'
      | _ => x :: y :: l'
      end
  end.

Definition sorted (l : list K) : list K := fold_right insert_sorted [] l.

(** Python's [xs.index(x)]: the first position of [x], [ValueError] when
    [x] is not in the list. *)
Fixpoint index_of (x : K) (l : list K) : option nat :=
  match l with
  | [] => None
  | y :: l' => if key_eqb x y then Some O else option_map S (index_of x l')
  end.

(** Stable insertion sort of rows by a key: [sort_values(by=...)]. *)
Fixpoint insert_by {A : Type} (key : A -> K) (x : A) (l : list A) : list A :=
  match l with
  | [] => [x]
  | y :: l' =>
      match cmp (key x) (key y) with
      | Gt => y :: insert_by key x l'
      | _ => x :: y :: l'
      end
  end.

Definition sort_values {A : Type} (key : A -> K) (l : list A) : list A :=
  fold_right (insert_by key) [] l.

Lemma key_eqb_eq (x y : K) : key_eqb x y = true <-> x = y.
Proof.
  unfold key_eqb. rewrite <- cmp_eq. destruct (cmp x y); split; congruence.
Qed.

Lemma key_eqb_refl (x : K) : key_eqb x x = true.
Proof. apply key_eqb_eq. reflexivity. Qed.

Lemma cmp_refl (x : K) : cmp x x = Eq.
Proof. apply cmp_eq. reflexivity. Qed.

Lemma key_eqb_neq (x y : K) : key_eqb x y = false <-> x <> y.
Proof.
  rewrite <- key_eqb_eq. destruct (key_eqb x y); split; congruence.
Qed.

Lemma cmp_gt_lt (x y : K) : cmp x y = Gt -> cmp y x = Lt.
Proof. intro E. rewrite (cmp_antisym x y), E. reflexivity. Qed.

Lemma lt_key_irrefl (x : K) : ~ lt_key x x.
Proof. unfold lt_key. rewrite cmp_refl. discriminate. Qed.

Lemma contains_In (x : K) (l : list K) : contains x l = true <-> In x l.
Proof.
  unfold contains. rewrite existsb_exists. split.
  - intros [y [Hy E]]. apply key_eqb_eq in E. subst. assumption.
  - intro Hx. exists x. split; [assumption | apply key_eqb_refl].
Qed.

Lemma insert_key_In (x y : K) (l : list K) :
  In y (insert_key x l) <-> y = x \/ In y l.
Proof.
  induction l as [|z l IH]; simpl.
  - intuition.
  - destruct (cmp x z) eqn:E; simpl.
    + apply cmp_eq in E. subst z. intuition.
    + intuition.
    + rewrite IH. intuition.
Qed.

Lemma group_keys_In (x : K) (l : list K) : In x (group_keys l) <-> In x l.
Proof.
  induction l as [|y l IH]; simpl.
  - tauto.
  - rewrite insert_key_In, IH. intuition.
Qed.

Lemma insert_key_sorted (x : K) (l : list K) :
  StrictSorted l -> StrictSorted (insert_key x l).
Proof.
  unfold StrictSorted. induction l as [|y l IH]; simpl; intro Hs.
  - constructor; constructor.
  - inversion Hs as [|? ? Hl Hy]; subst.
    destruct (cmp x y) eqn:E.
    + assumption.
    + constructor; [assumption|]. constructor; [exact E|].
      rewrite Forall_forall in *. intros z Hz.
      exact (cmp_trans _ _ _ E (Hy z Hz)).
    + constructor; [apply IH; assumption|].
      rewrite Forall_forall in *. intros z Hz.
      apply insert_key_In in Hz. destruct Hz as [-> | Hz].
      * apply cmp_gt_lt. exact E.
      * apply Hy. exact Hz.
Qed.

Lemma group_keys_sorted (l : list K) : StrictSorted (group_keys l).
Proof.
  induction l as [|x l IH]; simpl.
  - constructor.
  - apply insert_key_sorted. exact IH.
Qed.

Lemma StrictSorted_NoDup (l : list K) : StrictSorted l -> NoDup l.
Proof.
  induction 1 as [|x l Hl IH Hx]; constructor; [|assumption].
  intro Hin. rewrite Forall_forall in Hx.
  exact (lt_key_irrefl x (Hx x Hin)).
Qed.

Lemma group_keys_NoDup (l : list K) : NoDup (group_keys l).
Proof. apply StrictSorted_NoDup, group_keys_sorted. Qed.

(** A strictly increasing list is determined by its elements. *)
Lemma StrictSorted_ext (l1 l2 : list K) :
  StrictSorted l1 -> StrictSorted l2 ->
  (forall x, In x l1 <-> In x l2) -> l1 = l2.
Proof.
  intro H1. revert l2.
  induction H1 as [|x l1 Hl1 IH Hx]; intros l2 H2 Hin.
  - destruct l2 as [|y l2]; [reflexivity|].
    exfalso. apply (Hin y). left. reflexivity.
  - destruct H2 as [|y l2 Hl2 Hy].
    + exfalso. apply (Hin x). left. reflexivity.
    + rewrite Forall_forall in Hx, Hy.
      assert (x = y) as ->.
      { destruct (proj1 (Hin x) (or_introl eq_refl)) as [E|Hx2];
          [congruence|].
        destruct (proj2 (Hin y) (or_introl eq_refl)) as [E|Hy1];
          [congruence|].
        exfalso. apply (lt_key_irrefl x).
        exact (cmp_trans _ _ _ (Hx y Hy1) (Hy x Hx2)). }
      f_equal. apply IH; [assumption|].
      intro z. split; intro Hz.
      * destruct (proj1 (Hin z) (or_intror Hz)) as [E|Hz2]; [|assumption].
        subst z. exfalso. exact (lt_key_irrefl y (Hx y Hz)).
      * destruct (proj2 (Hin z) (or_intror Hz)) as [E|Hz1]; [|assumption].
        subst z. exfalso. exact (lt_key_irrefl y (Hy y Hz)).
Qed.

Lemma group_keys_of_sorted (l : list K) : StrictSorted l -> group_keys l = l.
Proof.
  intro Hs. apply StrictSorted_ext.
  - apply group_keys_sorted.
  - exact Hs.
  - intro x. apply group_keys_In.
Qed.

Lemma unique_In (x : K) (l : list K) : In x (unique l) <-> In x l.
Proof.
  induction l as [|y l IH]; simpl; [tauto|].
  rewrite filter_In, IH, negb_true_iff, key_eqb_neq.
  split.
  - intros [E | [Hx _]]; auto.
  - intros [E | Hx]; auto.
    destruct (key_eqb y x) eqn:E.
    + left. apply key_eqb_eq. exact E.
    + right. split; [assumption|]. apply key_eqb_neq. exact E.
Qed.

Lemma unique_NoDup (l : list K) : NoDup (unique l).
Proof.
  induction l as [|y l IH]; simpl; constructor.
  - rewrite filter_In, negb_true_iff, key_eqb_neq. intros [_ Hn].
    apply Hn. reflexivity.
  - apply NoDup_filter. exact IH.
Qed.

Lemma unique_hd (l : list K) : hd_error (unique l) = hd_error l.
Proof. destruct l; reflexivity. Qed.

Lemma insert_sorted_In (x y : K) (l : list K) :
  In y (insert_sorted x l) <-> y = x \/ In y l.
Proof.
  induction l as [|z l IH]; simpl.
  - intuition.
  - destruct (cmp x z) eqn:E; simpl; try rewrite IH; intuition.
Qed.

Lemma sorted_In (x : K) (l : list K) : In x (sorted l) <-> In x l.
Proof.
  induction l as [|y l IH]; simpl.
  - tauto.
  - rewrite insert_sorted_In, IH. intuition.
Qed.

Lemma insert_sorted_key (x : K) (l : list K) :
  ~ In x l -> insert_sorted x l = insert_key x l.
Proof.
  induction l as [|y l IH]; simpl; intro Hn; [reflexivity|].
  destruct (cmp x y) eqn:E.
  - apply cmp_eq in E. subst y. exfalso. apply Hn. left. reflexivity.
  - reflexivity.
  - f_equal. apply IH. intro Hx. apply Hn. right. exact Hx.
Qed.

(** Sorting the distinct values of a column gives its group keys. *)
Lemma sorted_unique (l : list K) : sorted (unique l) = group_keys l.
Proof.
  assert (Hgen : forall m, NoDup m -> sorted m = group_keys m).
  { induction m as [|x m IH]; intro Hnd; [reflexivity|].
    inversion Hnd as [|? ? Hx Hm]; subst. simpl.
    rewrite (IH Hm). apply insert_sorted_key.
    rewrite group_keys_In. exact Hx. }
  rewrite (Hgen _ (unique_NoDup l)).
  apply StrictSorted_ext; try apply group_keys_sorted.
  intro x. rewrite !group_keys_In. apply unique_In.
Qed.

End Keys.

(** ** Numbers *)

(** Columns of counts are 64-bit integers and every derived metric is a
    binary64 float; [Z2F] is the conversion numpy applies when an integer
    column meets a float (round to nearest, exact below 2^53). *)
Definition Z2F (z : Z) : float := SF2Prim (binary_normalize prec emax z 0 false).

(** The sum of a list of integers, without bound. *)
Definition sumZ (l : list Z) : Z := fold_right Z.add 0 l.

(** The value a 64-bit signed integer holds once [z] has been stored in
    it: [z] reduced modulo 2^64 into [-2^63, 2^63). *)
Definition wrap64 (z : Z) : Z := (z + 2 ^ 63) mod 2 ^ 64 - 2 ^ 63.

(** The sum of an [int64] column: the accumulator is a 64-bit integer and
    wraps around at every addition. *)
Definition sum_int64 (l : list Z) : Z :=
  fold_left (fun acc x => wrap64 (acc + x)) l 0.

(** The quotient of two positive integers as a binary64 float, rounded to
    nearest, ties to even: the division of IEEE 754 carried out on the
    integers themselves, however large. *)
Definition round_quotient (n d : Z) : spec_float :=
  let '(q, e, l) := SFdiv_core_binary prec emax n 0 d 0 in
  binary_round_aux prec emax false q e l.

(** Python's [a / b] on two [int]s.  Integers below 2^53 are converted to
    floats and divided; larger ones are divided as integers and the
    quotient is rounded once.  [ZeroDivisionError] when [b] is 0,
    [OverflowError] when the quotient is too large for a float. *)
Definition py_truediv (a b : Z) : result float :=
  if b =? 0 then Raise ZeroDivisionError
  else
    let negate := xorb (a <? 0) (b <? 0) in
    let signed (f : float) := if negate then (- f)%float else f in
    if a =? 0 then Ok (signed 0%float)
    else if (Z.abs a <? 2 ^ 53) && (Z.abs b <? 2 ^ 53)
    then Ok (signed (Z2F (Z.abs a) / Z2F (Z.abs b))%float)
    else
      match round_quotient (Z.abs a) (Z.abs b) with
      | S754_infinity _ => Raise OverflowError
      | q => Ok (signed (SF2Prim q))
      end.

(** ** The epoch table *)

(** One row of the input table.  [DateTime] is the timestamp in nanoseconds
    since the epoch, the value a pandas [Timestamp] holds; the labels are
    the strings the code compares them with; [Activity] and [Light] are
    counts, held in [int64] columns. *)
Record Epoch : Type := mkEpoch {
  watch_ID : string;
  DateTime : Z;
  Hour : Z;
  Split_Day : Z;
  Interval : string;
  Sleep_Acti : string;
  Activity : Z;
  Light : Z
}.

Definition DataFrame : Type := list Epoch.

(** [Timestamp.hour] and [Timestamp.minute]. *)
Definition ts_hour (ts : Z) : Z := (ts / 3600000000000) mod 24.
Definition ts_minute (ts : Z) : Z := (ts / 60000000000) mod 60.

(** ** The pandas operations the reducers use *)

(** pandas is a library the module imports; the operations below are
    written out from its documented behaviour, each named after the call it
    stands for.  Group keys and pivot labels come out in increasing order,
    and a label gets a column only if it occurs in the column that is
    pivoted. *)
Module Pandas.

(** A table with an index and labelled columns, held column by column.
    Every column is as long as the index. *)
Record Frame (K V : Type) : Type := mkFrame {
  index : list K;
  columns : list (string * list V)
}.

Arguments mkFrame {K V} index columns.
Arguments index {K V} f.
Arguments columns {K V} f.

Definition column_names {K V : Type} (fr : Frame K V) : list string :=
  map fst (columns fr).

Fixpoint assoc {A : Type} (c : string) (l : list (string * A)) : option A :=
  match l with
  | [] => None
  | (c', v) :: l' => if key_eqb c c' then Some v else assoc c l'
  end.

(** [fr.loc[:, c]]: the column labelled [c], [KeyError] without one. *)
Definition loc {K V : Type} (fr : Frame K V) (c : string) : result (list V) :=
  match assoc c (columns fr) with
  | Some vs => Ok vs
  | None => Raise (KeyError [c])
  end.

(** Boolean indexing: the entries whose mask bit is set. *)
Fixpoint select {A : Type} (mask : list bool) (l : list A) : list A :=
  match mask, l with
  | b :: mask', x :: l' => if b then x :: select mask' l' else select mask' l'
  | _, _ => []
  end.

(** [fr[mask]] for a mask computed from the index columns. *)
Definition filter_rows {K V : Type} (p : K -> bool) (fr : Frame K V) : Frame K V :=
  let mask := map p (index fr) in
  {| index := select mask (index fr);
     columns := map (fun cv => (fst cv, select mask (snd cv))) (columns fr) |}.

(** [fr.drop(columns=labels)]: [KeyError] naming the labels that are not
    columns of the frame, as pandas does with its default [errors="raise"]. *)
Definition drop {K V : Type} (labels : list string) (fr : Frame K V)
  : result (Frame K V) :=
  match filter (fun c => negb (contains c (column_names fr))) labels with
  | [] => Ok {| index := index fr;
                columns := filter (fun cv => negb (contains (fst cv) labels))
                                  (columns fr) |}
  | missing => Raise (KeyError missing)
  end.

Definition frame_map {K V W : Type} (f : V -> W) (fr : Frame K V) : Frame K W :=
  {| index := index fr;
     columns := map (fun cv => (fst cv, map f (snd cv))) (columns fr) |}.

(** A missing cell becomes the fill value. *)
Definition fill {V : Type} (fill_value : V) (cell : option V) : V :=
  match cell with
  | Some v => v
  | None => fill_value
  end.

(** [fillna] on a float column: NaN is how pandas marks a missing float. *)
Definition fillna (fill_value : float) (cell : option float) : float :=
  match cell with
  | Some v => if PrimFloat.is_nan v then fill_value else v
  | None => fill_value
  end.

Section Grouping.
Context {K : Type} `{Ord K}.

(** [groupby(key)]: the groups in increasing key order, each with its
    rows in table order. *)
Definition groupby {A : Type} (key : A -> K) (df : list A) : list (K * list A) :=
  map (fun k => (k, filter (fun r => key_eqb (key r) k) df))
      (group_keys (map key df)).

Fixpoint lookup {V : Type} (k : K) (l : list (K * V)) : option V :=
  match l with
  | [] => None
  | (k', v) :: l' => if key_eqb k k' then Some v else lookup k l'
  end.

Fixpoint has_duplicates (l : list K) : bool :=
  match l with
  | [] => false
  | x :: l' => contains x l' || has_duplicates l'
  end.
End Grouping.

(** [unstack] of the last index level: one row per first-level key, one
    column per label, both in increasing order; a combination without an
    entry is a missing cell. *)
Definition unstack {K V : Type} `{Ord K} (s : list ((K * string) * V))
  : Frame K (option V) :=
  let idx := group_keys (map (fun e => fst (fst e)) s) in
  let cols := group_keys (map (fun e => snd (fst e)) s) in
  {| index := idx;
     columns := map (fun c => (c, map (fun k => lookup (k, c) s) idx)) cols |}.

(** [DataFrame.pivot(index, columns, values)]: [ValueError] when two rows
    share their index and column entries. *)
Definition pivot {K V : Type} `{Ord K} (s : list ((K * string) * V))
  : result (Frame K (option V)) :=
  if has_duplicates (map fst s) then Raise ValueError else Ok (unstack s).

(** [fr.loc[:, c] = v] for a scalar [v] and a new column [c]: one entry
    per row; on a frame without rows pandas raises [ValueError] ("cannot
    set a frame with no defined index and a scalar"). *)
Definition assign_scalar {K A : Type} (idx : list K) (v : A) : result (list A) :=
  match idx with
  | [] => Raise ValueError
  | _ => Ok (map (fun _ => v) idx)
  end.

(** *** rolling(w).sum() *)

(** The running state of [roll_sum]: the number of values in the window,
    their compensated (Kahan) sum with one compensation term for additions
    and one for removals, and the run length of the value added last. *)
Record RollSum : Type := mkRollSum {
  nobs : Z;
  sum_x : float;
  compensation_add : float;
  compensation_remove : float;
  num_consecutive_same_value : Z;
  prev_value : float
}.

(** A value enters the window; NaN is skipped. *)
Definition add_sum (val : float) (st : RollSum) : RollSum :=
  if PrimFloat.eqb val val then
    let y := (val - compensation_add st)%float in
    let t := (sum_x st + y)%float in
    {| nobs := nobs st + 1;
       sum_x := t;
       compensation_add := (t - sum_x st - y)%float;
       compensation_remove := compensation_remove st;
       num_consecutive_same_value :=
         if PrimFloat.eqb val (prev_value st)
         then num_consecutive_same_value st + 1 else 1;
       prev_value := val |}
  else st.

(** A value leaves the window. *)
Definition remove_sum (val : float) (st : RollSum) : RollSum :=
  if PrimFloat.eqb val val then
    let y := (- val - compensation_remove st)%float in
    let t := (sum_x st + y)%float in
    {| nobs := nobs st - 1;
       sum_x := t;
       compensation_add := compensation_add st;
       compensation_remove := (t - sum_x st - y)%float;
       num_consecutive_same_value := num_consecutive_same_value st;
       prev_value := prev_value st |}
  else st.

(** The sum reported for a window: NaN while fewer than [minp] values are
    in it; the value times the count when the window holds one value
    repeated. *)
Definition calc_sum (minp : Z) (st : RollSum) : float :=
  if (nobs st =? 0) && (minp =? 0) then 0%float
  else if minp <=? nobs st then
    if nobs st <=? num_consecutive_same_value st
    then (prev_value st * Z2F (nobs st))%float
    else sum_x st
  else nan.

(** The window of each position of a column of [n] values, as the half-open
    range [start, end) of positions: the [w] values that end at the
    position, fewer at the beginning of the column. *)
Definition window_bounds (w n : nat) : list (nat * nat) :=
  map (fun i => ((S i - w)%nat, S i)) (seq 0 n).

(** [values[lo:hi]]. *)
Definition values_between (values : list float) (lo hi : nat) : list float :=
  firstn (hi - lo) (skipn lo values).

(** The state for a window computed from scratch. *)
Definition setup_sum (values : list float) (s e : nat) : RollSum :=
  fold_left (fun st v => add_sum v st) (values_between values s e)
            {| nobs := 0; sum_x := 0; compensation_add := 0;
               compensation_remove := 0; num_consecutive_same_value := 0;
               prev_value := nth s values nan |}.

(** The loop of [roll_sum] over the windows: the first window, and a window
    that starts at or after the end of the previous one, is summed from
    scratch; any other is obtained from the previous one by removing the
    values that left and adding those that entered. *)
Fixpoint roll_sum_from (values : list float) (minp : Z)
         (prev : option (nat * nat)) (st : RollSum) (bounds : list (nat * nat))
  : list float :=
  match bounds with
  | [] => []
  | (s, e) :: bounds' =>
      let st' :=
        match prev with
        | None => setup_sum values s e
        | Some (s0, e0) =>
            if (e0 <=? s)%nat then setup_sum values s e
            else
              fold_left (fun st v => add_sum v st) (values_between values e0 e)
                (fold_left (fun st v => remove_sum v st)
                           (values_between values s0 s) st)
        end in
      calc_sum minp st' :: roll_sum_from values minp (Some (s, e)) st' bounds'
  end.

Definition roll_sum (values : list float) (bounds : list (nat * nat)) (minp : Z)
  : list float :=
  roll_sum_from values minp None
                {| nobs := 0; sum_x := 0; compensation_add := 0;
                   compensation_remove := 0; num_consecutive_same_value := 0;
                   prev_value := 0 |}
                bounds.

(** [rolling(w).sum()] on an integer column, with the default
    [min_periods = w]: the values are converted to floats, and the sum of
    each window is the compensated running sum of [roll_sum], NaN until [w]
    values have been seen. *)
Definition rolling_sum (w : nat) (l : list Z) : list float :=
  roll_sum (map Z2F l) (window_bounds w (List.length l)) (Z.of_nat w).

(** Maximum and minimum of a float column, NaN skipped; NaN when nothing
    is left. *)
Definition fmax (a b : float) : float :=
  if PrimFloat.is_nan a then b
  else if PrimFloat.is_nan b then a
  else if PrimFloat.ltb a b then b else a.

Definition fmin (a b : float) : float :=
  if PrimFloat.is_nan a then b
  else if PrimFloat.is_nan b then a
  else if PrimFloat.ltb b a then b else a.

Definition series_max (l : list float) : float := fold_right fmax nan l.
Definition series_min (l : list float) : float := fold_right fmin nan l.

(** [left.merge(right, on=key)], an inner join: for each left row, in
    order, the right rows with the same key. *)
Definition merge {K A B : Type} `{Ord K} (left : list (K * A)) (right : list (K * B))
  : list (K * (A * B)) :=
  flat_map (fun l =>
              map (fun r => (fst l, (snd l, snd r)))
                  (filter (fun r => key_eqb (fst l) (fst r)) right))
           left.

End Pandas.

(** Python's [xs[i:]] and [xs[:i]]: a negative bound counts from the end and
    a bound outside the list is clamped. *)
Definition slice_bound {A : Type} (i : Z) (l : list A) : nat :=
  let n := Z.of_nat (List.length l) in
  Z.to_nat (if i <? 0 then Z.max (i + n) 0 else Z.min i n).

Definition slice_from {A : Type} (i : Z) (l : list A) : list A :=
  skipn (slice_bound i l) l.

Definition slice_to {A : Type} (i : Z) (l : list A) : list A :=
  firstn (slice_bound i l) l.

Fixpoint map2 {A B C : Type} (f : A -> B -> C) (l : list A) (m : list B) : list C :=
  match l, m with
  | a :: l', b :: m' => f a b :: map2 f l' m'
  | _, _ => []
  end.

(** ** The reducers of [actiwatch.analysis] *)

Import Pandas.

(** [df.loc[:, "watch_ID"].unique().tolist()[0]]: the first watch
    identifier of the table, [IndexError] on a table without rows. *)
Definition first_watch_ID (df : DataFrame) : result string :=
  match unique (map watch_ID df) with
  | [] => Raise IndexError
  | w :: _ => Ok w
  end.

(** The grouped counts behind [pd.pivot_table(df, values="watch_ID",
    columns=["Sleep_Acti"], index=["Split_Day", "Interval"],
    aggfunc="count")]: one entry per (Split_Day, Interval, Sleep_Acti)
    combination that occurs, with its number of epochs. *)
Definition sleep_wake_counts (df : DataFrame) : list (((Z * string) * string) * Z) :=
  map (fun g => (fst g, Z.of_nat (List.length (snd g))))
      (groupby (fun r => ((Split_Day r, Interval r), Sleep_Acti r)) df).

(** The pivot table both [sleep_metrics] and [sleep_latency] build: the
    counts unstacked by [Sleep_Acti], then [fill_value=0]. *)
Definition sleep_wake_pivot (df : DataFrame) : Frame (Z * string) Z :=
  frame_map (fill 0) (unstack (sleep_wake_counts df)).

(** *** sleep_metrics *)

(** The table [sleep_metrics] returns: the index columns (Split_Day,
    Interval), the count columns of the pivot, and the columns it adds. *)
Record SleepMetrics : Type := mkSleepMetrics {
  sm_index : list (Z * string);
  sm_counts : list (string * list Z);
  TST_Min : list float;
  WASO_Min : list float;
  SE : list float;
  sm_watch_ID : list string
}.

Definition sleep_metrics (df : DataFrame) (rec_freq : Z) : result SleepMetrics :=
  let pivot := sleep_wake_pivot df in
  let metrics_filter := filter_rows (fun k => key_eqb (snd k) "Rest") pivot in
  sleep <- loc metrics_filter "Sleep" ;;
  minutes <- py_truediv rec_freq 60 ;;
  let tst := map (fun s => (Z2F s * minutes)%float) sleep in
  wake <- loc metrics_filter "Wake" ;;
  minutes <- py_truediv rec_freq 60 ;;
  let waso := map (fun w => (Z2F w * minutes)%float) wake in
  let se := map2 (fun s w => (100 * (Z2F s / Z2F (s + w)))%float) sleep wake in
  wid <- first_watch_ID df ;;
  ids <- assign_scalar (index metrics_filter) wid ;;
  Ok {| sm_index := index metrics_filter;
        sm_counts := columns metrics_filter;
        TST_Min := tst;
        WASO_Min := waso;
        SE := se;
        sm_watch_ID := ids |}.

(** *** sleep_latency *)

Record SleepLatency : Type := mkSleepLatency {
  sl_Split_Day : list Z;
  sl_columns : list (string * list float);
  sl_watch_ID : list string
}.

(** [replace({"Interval": {...}})]. *)
Definition latency_label (interval : string) : string :=
  if key_eqb interval "Falling_Asleep" then "Sleep_Latency_Min"
  else if key_eqb interval "Waking_Up" then "Wake_Latency_Min"
  else interval.

Definition sleep_latency (df : DataFrame) (rec_freq : Z)
  : result (option SleepLatency) :=
  if negb (contains "Falling_Asleep" (unique (map Interval df))) then Ok None
  else
    let pivot := sleep_wake_pivot df in
    let latency_filter :=
      filter_rows (fun k => contains (snd k) ["Falling_Asleep"; "Waking_Up"]) pivot in
    sleep <- loc latency_filter "Sleep" ;;
    wake <- loc latency_filter "Wake" ;;
    minutes <- py_truediv rec_freq 60 ;;
    let latency := map2 (fun s w => (Z2F (s + w) * minutes)%float) sleep wake in
    _ <- drop ["Sleep"; "Wake"] latency_filter ;;
    let interval := map (fun k => latency_label (snd k)) (index latency_filter) in
    let split_day := map fst (index latency_filter) in
    latency_pivot <- Pandas.pivot (combine (combine split_day interval) latency) ;;
    let latency_pivot := frame_map (fillna 0) latency_pivot in
    wid <- first_watch_ID df ;;
    ids <- assign_scalar (index latency_pivot) wid ;;
    Ok (Some {| sl_Split_Day := index latency_pivot;
                sl_columns := columns latency_pivot;
                sl_watch_ID := ids |}).

(** *** bedtime *)

Record Bedtime : Type := mkBedtime {
  bt_Split_Day : list Z;
  bt_columns : list (string * list (option Z));
  Time_Bed : list float;
  Time_Wake : list float;
  bt_watch_ID : list string
}.

(** [.min()] of the DateTime column of a group. *)
Definition min_DateTime (g : list Epoch) : option Z :=
  match g with
  | [] => None
  | r :: g' => Some (fold_left (fun m r' => Z.min m (DateTime r')) g' (DateTime r))
  end.

(** [df[[...]].groupby(["Split_Day", "Interval"]).min().reset_index()]. *)
Definition earliest_times (df : DataFrame) : list ((Z * string) * Z) :=
  flat_map (fun g => match min_DateTime (snd g) with
                     | Some m => [(fst g, m)]
                     | None => []
                     end)
           (groupby (fun r => (Split_Day r, Interval r)) df).

(** [lambda x: x.hour + x.minute / 60]; on a missing timestamp (NaT) both
    fields are NaN. *)
Definition hour_fraction (x : option Z) : float :=
  match x with
  | Some ts => (Z2F (ts_hour ts) + Z2F (ts_minute ts) / 60)%float
  | None => nan
  end.

Definition bedtime (df : DataFrame) : result (option Bedtime) :=
  if negb (contains "Waking_Up" (unique (map Interval df))) then Ok None
  else
    bedtime_pivot <- Pandas.pivot (earliest_times df) ;;
    bedtime_pivot <- drop ["Falling_Asleep"; "Active"] bedtime_pivot ;;
    rest <- loc bedtime_pivot "Rest" ;;
    let time_bed := map hour_fraction rest in
    waking_up <- loc bedtime_pivot "Waking_Up" ;;
    let time_wake := map hour_fraction waking_up in
    wid <- first_watch_ID df ;;
    ids <- assign_scalar (index bedtime_pivot) wid ;;
    Ok (Some {| bt_Split_Day := index bedtime_pivot;
                bt_columns := columns bedtime_pivot;
                Time_Bed := time_bed;
                Time_Wake := time_wake;
                bt_watch_ID := ids |}).

(** *** rhythm_stability *)

Definition rhythm_stability (df : DataFrame) (rec_freq : Z) : result float :=
  Raise NotImplementedError.

(** *** relative_amplitude *)

(** [hours = sorted(df["Hour"].unique())] followed by
    [hours = hours[start_hour::] + hours[:start_hour]]. *)
Definition cyclic_hours (df : DataFrame) (start_hour : Z) : list Z :=
  let hours := sorted (unique (map Hour df)) in
  slice_from start_hour hours ++ slice_to start_hour hours.

(** [df[["Split_Day", "Hour", "Activity"]].groupby(["Split_Day",
    "Hour"]).sum().reset_index()]. *)
Definition hourly_activity (df : DataFrame) : list ((Z * Z) * Z) :=
  map (fun g => (fst g, sum_int64 (map Activity (snd g))))
      (groupby (fun r => (Split_Day r, Hour r)) df).

Record RestPhaseRow : Type := mkRestPhaseRow {
  rp_Split_Day : Z;
  rp_Hour : Z;
  rp_Activity : Z;
  rp_Order : nat
}.

(** The [rest_phase] table once its [Order] column is set and its rows are
    sorted by (Split_Day, Order). *)
Definition rest_phase (df : DataFrame) (start_hour : Z) : result (list RestPhaseRow) :=
  let hours := cyclic_hours df start_hour in
  rows <- mapM (fun e =>
                  match index_of (snd (fst e)) hours with
                  | Some o => Ok {| rp_Split_Day := fst (fst e);
                                    rp_Hour := snd (fst e);
                                    rp_Activity := snd e;
                                    rp_Order := o |}
                  | None => Raise ValueError
                  end)
               (hourly_activity df) ;;
  Ok (sort_values (fun r => (rp_Split_Day r, rp_Order r)) rows).

(** [rest_phase.groupby(["Split_Day"])["Activity"].rolling(w).sum().tolist()]:
    the rolling sums of each day, the days in increasing order. *)
Definition rolling_by_day (w : nat) (rows : list RestPhaseRow) : list float :=
  flat_map (fun g => rolling_sum w (map rp_Activity (snd g)))
           (groupby rp_Split_Day rows).

(** The column is assigned by position, then reduced per day. *)
Definition M10 (rows : list RestPhaseRow) : list (Z * float) :=
  map (fun g => (fst g, series_max (map snd (snd g))))
      (groupby (fun x => rp_Split_Day (fst x))
               (combine rows (rolling_by_day 10 rows))).

Definition L5 (rows : list RestPhaseRow) : list (Z * float) :=
  map (fun g => (fst g, series_min (map snd (snd g))))
      (groupby (fun x => rp_Split_Day (fst x))
               (combine rows (rolling_by_day 5 rows))).

Record RelativeAmplitude : Type := mkRelativeAmplitude {
  ra_Split_Day : list Z;
  RA : list float;
  ra_watch_ID : list string
}.

Definition relative_amplitude (df : DataFrame) (start_hour : Z)
  : result RelativeAmplitude :=
  rows <- rest_phase df start_hour ;;
  let m10 := M10 rows in
  let l5 := L5 rows in
  let ra := merge m10 l5 in
  let ra_col := map (fun row => ((fst (snd row) - snd (snd row))
                                 / (fst (snd row) + snd (snd row)))%float) ra in
  wid <- first_watch_ID df ;;
  ids <- assign_scalar ra wid ;;
  Ok {| ra_Split_Day := map fst ra;
        RA := ra_col;
        ra_watch_ID := ids |}.

(** *** total_values *)

Record TotalValues : Type := mkTotalValues {
  tv_Split_Day : list Z;
  tv_Activity : list Z;
  tv_Light : list Z;
  tv_watch_ID : list string
}.

Definition total_values (df : DataFrame) (rec_freq : Z) : result TotalValues :=
  let groups := groupby Split_Day df in
  let totals :=
    {| index := map fst groups;
       columns := [("Activity", map (fun g => sum_int64 (map Activity (snd g))) groups);
                   ("Light", map (fun g => sum_int64 (map Light (snd g))) groups)] |} in
  activity <- loc totals "Activity" ;;
  light <- loc totals "Light" ;;
  wid <- first_watch_ID df ;;
  ids <- assign_scalar (index totals) wid ;;
  Ok {| tv_Split_Day := index totals;
        tv_Activity := activity;
        tv_Light := light;
        tv_watch_ID := ids |}.

(** ** Sample tables *)

Definition epoch (w : string) (day hour : Z) (interval acti : string) (act : Z)
  : Epoch :=
  {| watch_ID := w; DateTime := (day * 24 + hour) * 3600000000000; Hour := hour;
     Split_Day := day; Interval := interval; Sleep_Acti := acti;
     Activity := act; Light := 0 |}.

(** Scenario A: one day, 480 Rest epochs, 440 of them Sleep and 40 Wake. *)
Definition scenario_A : DataFrame :=
  (repeat (epoch "w1" 1 23 "Rest" "Sleep" 0) 440
   ++ repeat (epoch "w1" 1 23 "Rest" "Wake" 5) 40)%list.

(** Scenario C: one day, two epochs in each of the 24 hours, activity 4 and 6. *)
Definition scenario_C : DataFrame :=
  flat_map (fun h => [epoch "w1" 1 (Z.of_nat h) "Active" "Wake" 4;
                      epoch "w1" 1 (Z.of_nat h) "Active" "Wake" 6])
           (seq 0 24).

(** ** Facts about the pandas operations *)

Section PandasFacts.
Context {K : Type} `{Ord K}.

Lemma lookup_map {V : Type} (f : K -> V) (k : K) (keys : list K) :
  lookup k (map (fun k' => (k', f k')) keys)
  = if contains k keys then Some (f k) else None.
Proof.
  induction keys as [|k' keys IH]; simpl; [reflexivity|].
  destruct (key_eqb k k') eqn:E; simpl.
  - apply key_eqb_eq in E. subst k'. reflexivity.
  - exact IH.
Qed.

Lemma select_map {A B : Type} (p : A -> bool) (g : A -> B) (l : list A) :
  select (map p l) (map g l) = map g (filter p l).
Proof.
  induction l as [|x l IH]; simpl; [reflexivity|].
  destruct (p x); simpl; rewrite IH; reflexivity.
Qed.

Lemma select_filter {A : Type} (p : A -> bool) (l : list A) :
  select (map p l) l = filter p l.
Proof.
  rewrite <- (map_id l) at 2. rewrite select_map. apply map_id.
Qed.

Lemma has_duplicates_NoDup (l : list K) : NoDup l -> has_duplicates l = false.
Proof.
  induction 1 as [|x l Hx Hl IH]; simpl; [reflexivity|].
  rewrite IH, orb_false_r.
  destruct (contains x l) eqn:E; [|reflexivity].
  apply contains_In in E. contradiction.
Qed.

Lemma groupby_keys {A : Type} (key : A -> K) (df : list A) :
  map fst (groupby key df) = group_keys (map key df).
Proof.
  unfold groupby. rewrite map_map. simpl. apply map_id.
Qed.

(** Every group of a [groupby] has a row. *)
Lemma groupby_nonempty {A : Type} (key : A -> K) (df : list A) (g : K * list A) :
  In g (groupby key df) -> snd g <> [].
Proof.
  unfold groupby. rewrite in_map_iff. intros [k [<- Hk]]. simpl.
  apply (proj1 (group_keys_In _ _)) in Hk. apply (proj1 (in_map_iff _ _ _)) in Hk.
  destruct Hk as [r [<- Hr]]. intro E.
  assert (Hin : In r (filter (fun r0 => key_eqb (key r0) (key r)) df)).
  { apply filter_In. split; [assumption | apply key_eqb_refl]. }
  rewrite E in Hin. exact Hin.
Qed.

End PandasFacts.

Lemma map2_map {A B C D : Type} (f : B -> C -> D) (g : A -> B) (h : A -> C)
      (l : list A) :
  map2 f (map g l) (map h l) = map (fun a => f (g a) (h a)) l.
Proof. induction l as [|a l IH]; cbn [map map2]; [|rewrite IH]; reflexivity. Qed.

Lemma combine_map {A B C : Type} (g : A -> B) (h : A -> C) (l : list A) :
  combine (map g l) (map h l) = map (fun a => (g a, h a)) l.
Proof. induction l as [|a l IH]; cbn [map combine]; [|rewrite IH]; reflexivity. Qed.

Lemma assoc_map {V : Type} (g : string -> V) (c : string) (cols : list string) :
  assoc c (map (fun c' => (c', g c')) cols)
  = if contains c cols then Some (g c) else None.
Proof.
  induction cols as [|c' cols IH]; simpl; [reflexivity|].
  destruct (key_eqb c c') eqn:E; simpl.
  - apply key_eqb_eq in E. subst c'. reflexivity.
  - exact IH.
Qed.

Lemma assoc_map_snd {V W : Type} (f : list V -> list W) (c : string)
      (cols : list (string * list V)) :
  assoc c (map (fun cv => (fst cv, f (snd cv))) cols) = option_map f (assoc c cols).
Proof.
  induction cols as [|[c' v] cols IH]; simpl; [reflexivity|].
  destruct (key_eqb c c'); [reflexivity | exact IH].
Qed.

Lemma contains_false {K : Type} `{Ord K} (x : K) (l : list K) :
  contains x l = false <-> ~ In x l.
Proof.
  rewrite <- contains_In. destruct (contains x l); split; congruence.
Qed.

(** ** Facts about the numbers *)

Lemma wrap64_range (z : Z) : - 2 ^ 63 <= wrap64 z < 2 ^ 63.
Proof.
  unfold wrap64. pose proof (Z.mod_pos_bound (z + 2 ^ 63) (2 ^ 64)). lia.
Qed.

Lemma wrap64_small (z : Z) : - 2 ^ 63 <= z < 2 ^ 63 -> wrap64 z = z.
Proof. intro Hz. unfold wrap64. rewrite Z.mod_small by lia. lia. Qed.

(** Storing a number in 64 bits changes it by a multiple of 2^64. *)
Lemma wrap64_congruent (z : Z) : (wrap64 z - z) mod 2 ^ 64 = 0.
Proof.
  unfold wrap64.
  replace ((z + 2 ^ 63) mod 2 ^ 64 - 2 ^ 63 - z)
    with ((z + 2 ^ 63) mod 2 ^ 64 - (z + 2 ^ 63)) by lia.
  rewrite Zminus_mod, Z.mod_mod, Z.sub_diag by lia. reflexivity.
Qed.

Lemma wrap64_add_l (a y : Z) : wrap64 (wrap64 a + y) = wrap64 (a + y).
Proof.
  unfold wrap64. f_equal.
  replace ((a + 2 ^ 63) mod 2 ^ 64 - 2 ^ 63 + y + 2 ^ 63)
    with ((a + 2 ^ 63) mod 2 ^ 64 + y) by lia.
  rewrite Z.add_mod_idemp_l by lia. f_equal. lia.
Qed.

(** The wrapped running sum is the exact sum, wrapped once. *)
Lemma sum_int64_eq (l : list Z) : sum_int64 l = wrap64 (sumZ l).
Proof.
  unfold sum_int64.
  assert (Hgen : forall a, fold_left (fun acc x => wrap64 (acc + x)) l (wrap64 a)
                           = wrap64 (a + sumZ l)).
  { induction l as [|x l IH]; intro a; cbn [fold_left sumZ fold_right].
    - rewrite Z.add_0_r. reflexivity.
    - fold (sumZ l). rewrite wrap64_add_l, IH. f_equal. lia. }
  exact (Hgen 0).
Qed.

Lemma sum_int64_small (l : list Z) :
  - 2 ^ 63 <= sumZ l < 2 ^ 63 -> sum_int64 l = sumZ l.
Proof. intro Hl. rewrite sum_int64_eq. apply wrap64_small. exact Hl. Qed.

(** Dividing by 60 raises nothing but [OverflowError]. *)
Lemma py_truediv_60 (a : Z) :
  (exists minutes, py_truediv a 60 = Ok minutes)
  \/ py_truediv a 60 = Raise OverflowError.
Proof.
  unfold py_truediv. change (60 =? 0) with false. cbv iota.
  destruct (a =? 0); [left; eexists; reflexivity|].
  destruct (_ && _); [left; eexists; reflexivity|].
  destruct (round_quotient _ _);
    first [right; reflexivity | left; eexists; reflexivity].
Qed.

(** Below 2^53 the quotient is the quotient of the two floats. *)
Lemma py_truediv_small (a : Z) :
  0 <= a < 2 ^ 53 -> py_truediv a 60 = Ok (Z2F a / 60)%float.
Proof.
  intro Ha. unfold py_truediv. change (60 =? 0) with false. cbv iota.
  replace (a <? 0) with false by (symmetry; apply Z.ltb_ge; lia).
  change (60 <? 0) with false. cbn [xorb].
  destruct (a =? 0) eqn:E.
  - apply Z.eqb_eq in E. subst a. vm_compute. reflexivity.
  - replace (Z.abs a <? 2 ^ 53) with true by (symmetry; apply Z.ltb_lt; lia).
    cbn [andb]. rewrite (Z.abs_eq a) by lia.
    match goal with
    | |- (if ?c then _ else _) = _ => assert (Hc : c = true) by (vm_compute; reflexivity)
    end.
    rewrite Hc. reflexivity.
Qed.

Lemma py_truediv_30 : py_truediv 30 60 = Ok 0.5%float.
Proof. vm_compute. reflexivity. Qed.

(** The quotient is rounded once, from the integers: [(2^53 + 1) / 60] is
    not the float [2^53 + 1], which is [2^53], divided by 60; and a
    quotient beyond the floats raises. *)
Example py_truediv_large :
  py_truediv (2 ^ 53 + 1) 60 = Ok 0x1.1111111111112p+47%float
  /\ (Z2F (2 ^ 53 + 1) / 60)%float = 0x1.1111111111111p+47%float
  /\ py_truediv (10 ^ 30 + 7) 60 = Ok 0x1.aed2bf933c982p+93%float
  /\ py_truediv (- (2 ^ 70 + 12345)) 60 = Ok (-0x1.1111111111111p+64)%float
  /\ py_truediv 7 60 = Ok 0x1.ddddddddddddep-4%float
  /\ py_truediv (10 ^ 400) 60 = Raise OverflowError
  /\ py_truediv 30 0 = Raise ZeroDivisionError.
Proof. repeat split; vm_compute; reflexivity. Qed.

Lemma assign_scalar_ok {K A : Type} (idx : list K) (v : A) :
  idx <> [] -> assign_scalar idx v = Ok (map (fun _ => v) idx).
Proof. destruct idx; [congruence | reflexivity]. Qed.

(** ** The sleep/wake pivot *)

(** The number of epochs of day-and-phase [k] classified [c]. *)
Definition count_epochs (df : DataFrame) (k : Z * string) (c : string) : Z :=
  Z.of_nat (List.length
              (filter (fun r => key_eqb ((Split_Day r, Interval r), Sleep_Acti r) (k, c))
                      df)).

Lemma sleep_wake_counts_keys (df : DataFrame) :
  map fst (sleep_wake_counts df)
  = group_keys (map (fun r => ((Split_Day r, Interval r), Sleep_Acti r)) df).
Proof.
  unfold sleep_wake_counts. rewrite map_map. simpl.
  apply (groupby_keys (fun r => ((Split_Day r, Interval r), Sleep_Acti r))).
Qed.

Lemma sleep_wake_counts_eq (df : DataFrame) :
  sleep_wake_counts df
  = map (fun kc => (kc, count_epochs df (fst kc) (snd kc)))
        (group_keys (map (fun r => ((Split_Day r, Interval r), Sleep_Acti r)) df)).
Proof.
  unfold sleep_wake_counts, groupby. rewrite map_map. simpl.
  apply map_ext. intros [k c]. reflexivity.
Qed.

Lemma sleep_wake_pivot_index (df : DataFrame) :
  index (sleep_wake_pivot df)
  = group_keys (map (fun r => (Split_Day r, Interval r)) df).
Proof.
  unfold sleep_wake_pivot, frame_map, unstack. simpl.
  apply StrictSorted_ext; try apply group_keys_sorted.
  intro k. rewrite !group_keys_In.
  rewrite <- (map_map fst fst), sleep_wake_counts_keys.
  rewrite !in_map_iff. split.
  - intros [[k' c] [<- Hk]]. apply (proj1 (group_keys_In _ _)) in Hk.
    apply (proj1 (in_map_iff _ _ _)) in Hk. destruct Hk as [r [E Hr]].
    exists r. split; [|assumption]. inversion E. reflexivity.
  - intros [r [<- Hr]]. exists ((Split_Day r, Interval r), Sleep_Acti r).
    split; [reflexivity|]. apply group_keys_In.
    apply (in_map (fun r => ((Split_Day r, Interval r), Sleep_Acti r))). assumption.
Qed.

(** The pivot has one column per classification that occurs in the table. *)
Lemma sleep_wake_pivot_columns (df : DataFrame) :
  column_names (sleep_wake_pivot df) = group_keys (map Sleep_Acti df).
Proof.
  unfold column_names, sleep_wake_pivot, frame_map, unstack. simpl.
  rewrite !map_map. simpl. rewrite map_id.
  apply StrictSorted_ext; try apply group_keys_sorted.
  intro c. rewrite !group_keys_In.
  rewrite <- (map_map fst snd), sleep_wake_counts_keys.
  rewrite !in_map_iff. split.
  - intros [[k c'] [<- Hk]]. apply (proj1 (group_keys_In _ _)) in Hk.
    apply (proj1 (in_map_iff _ _ _)) in Hk. destruct Hk as [r [E Hr]].
    exists r. split; [|assumption]. inversion E. reflexivity.
  - intros [r [<- Hr]]. exists ((Split_Day r, Interval r), Sleep_Acti r).
    split; [reflexivity|]. apply group_keys_In.
    apply (in_map (fun r => ((Split_Day r, Interval r), Sleep_Acti r))). assumption.
Qed.

(** A cell of the pivot is the number of epochs of its combination, zero
    for a combination that does not occur. *)
Lemma sleep_wake_cell (df : DataFrame) (k : Z * string) (c : string) :
  fill 0 (lookup (k, c) (sleep_wake_counts df)) = count_epochs df k c.
Proof.
  rewrite sleep_wake_counts_eq.
  rewrite (lookup_map (fun kc => count_epochs df (fst kc) (snd kc))). simpl.
  destruct (contains _ _) eqn:E; [reflexivity|]. simpl.
  apply contains_false in E. rewrite group_keys_In in E.
  unfold count_epochs.
  destruct (filter _ df) as [|r l] eqn:F; [reflexivity|].
  exfalso. apply E.
  assert (Hr : In r (r :: l)) by (left; reflexivity).
  rewrite <- F in Hr. apply filter_In in Hr. destruct Hr as [Hr Hk].
  apply key_eqb_eq in Hk. rewrite <- Hk.
  apply (in_map (fun r => ((Split_Day r, Interval r), Sleep_Acti r))). assumption.
Qed.

Lemma sleep_wake_pivot_eq (df : DataFrame) :
  sleep_wake_pivot df
  = {| index := group_keys (map (fun r => (Split_Day r, Interval r)) df);
       columns := map (fun c => (c, map (fun k => count_epochs df k c)
                                        (group_keys (map (fun r => (Split_Day r, Interval r)) df))))
                      (group_keys (map Sleep_Acti df)) |}.
Proof.
  pose proof (sleep_wake_pivot_index df) as Hi.
  pose proof (sleep_wake_pivot_columns df) as Hc.
  unfold sleep_wake_pivot, frame_map, unstack, column_names in *. simpl in *.
  rewrite map_map in Hc. simpl in Hc. rewrite map_map in Hc. simpl in Hc.
  rewrite map_id in Hc.
  rewrite Hi. f_equal. rewrite map_map. simpl. rewrite Hc.
  apply map_ext. intro c. f_equal. rewrite map_map.
  apply map_ext. intro k. apply sleep_wake_cell.
Qed.

(** Reading a column of the pivot after a row filter. *)
Lemma loc_filtered_pivot (df : DataFrame) (p : Z * string -> bool) (c : string) :
  loc (filter_rows p (sleep_wake_pivot df)) c
  = if contains c (group_keys (map Sleep_Acti df))
    then Ok (map (fun k => count_epochs df k c)
                 (filter p (group_keys (map (fun r => (Split_Day r, Interval r)) df))))
    else Raise (KeyError [c]).
Proof.
  rewrite sleep_wake_pivot_eq. unfold loc, filter_rows. simpl.
  rewrite (assoc_map_snd (select (map p _))).
  rewrite (assoc_map (fun c => map (fun k => count_epochs df k c) _)).
  destruct (contains c _); simpl; [|reflexivity].
  rewrite select_map. reflexivity.
Qed.

Lemma filtered_pivot_index (df : DataFrame) (p : Z * string -> bool) :
  index (filter_rows p (sleep_wake_pivot df))
  = filter p (group_keys (map (fun r => (Split_Day r, Interval r)) df)).
Proof.
  unfold filter_rows. cbn [index]. rewrite select_filter, sleep_wake_pivot_index.
  reflexivity.
Qed.

Lemma filter_singleton {A : Type} (p : A -> bool) (x : A) (l : list A) :
  NoDup l -> In x l -> p x = true ->
  (forall y, In y l -> p y = true -> y = x) ->
  filter p l = [x].
Proof.
  induction 1 as [|y l Hy Hl IH]; intros Hx Hp Huniq; [destruct Hx|].
  simpl. destruct Hx as [-> | Hx].
  - rewrite Hp. f_equal.
    assert (Hnone : forall z, In z l -> p z = false).
    { intros z Hz. destruct (p z) eqn:E; [|reflexivity].
      exfalso. apply Hy. rewrite <- (Huniq z (or_intror Hz) E). exact Hz. }
    clear -Hnone. induction l as [|z l IH]; simpl; [reflexivity|].
    rewrite (Hnone z (or_introl eq_refl)). apply IH.
    intros w Hw. apply Hnone. right. exact Hw.
  - destruct (p y) eqn:E.
    + exfalso. apply Hy. rewrite (Huniq y (or_introl eq_refl) E). exact Hx.
    + apply IH; auto. intros z Hz. apply Huniq. right. exact Hz.
Qed.

(** A combination that is counted occurs in the table. *)
Lemma count_epochs_pos (df : DataFrame) (k : Z * string) (c : string) :
  0 < count_epochs df k c ->
  exists r, In r df /\ (Split_Day r, Interval r) = k /\ Sleep_Acti r = c.
Proof.
  unfold count_epochs. intro Hpos.
  destruct (filter _ df) as [|r l] eqn:F; [simpl in Hpos; lia|].
  assert (Hr : In r (r :: l)) by (left; reflexivity).
  rewrite <- F in Hr. apply filter_In in Hr. destruct Hr as [Hr Hk].
  apply key_eqb_eq in Hk. inversion Hk. exists r. auto.
Qed.

Lemma first_watch_ID_cons (r : Epoch) (df : DataFrame) :
  first_watch_ID (r :: df) = Ok (watch_ID r).
Proof. reflexivity. Qed.

Lemma first_watch_ID_nil : first_watch_ID [] = Raise IndexError.
Proof. reflexivity. Qed.

(** The Split_Day values of the table, in increasing order. *)
Definition days (df : DataFrame) : list Z := group_keys (map Split_Day df).

Lemma days_cons (r : Epoch) (df : DataFrame) : days (r :: df) <> [].
Proof.
  intro E. assert (Hin : In (Split_Day r) (days (r :: df))).
  { apply group_keys_In. left. reflexivity. }
  rewrite E in Hin. exact Hin.
Qed.

Lemma days_nonempty (df : DataFrame) : df <> [] -> days df <> [].
Proof. destruct df; [congruence | intros _; apply days_cons]. Qed.

(** ** Exact values of floats *)


(** The rational a finite float stands for. *)
Definition float_to_Q (f : float) : option Q :=
  match Prim2SF f with
  | S754_zero _ => Some 0%Q
  | S754_finite s m e =>
      Some (inject_Z (if s then Z.neg m else Z.pos m) * Qpower 2 e)%Q
  | _ => None
  end.

(** [close_to f q eps]: the float [f] is finite and within [eps] of [q]. *)
Definition close_to (f : float) (q eps : Q) : Prop :=
  match float_to_Q f with
  | Some x => (Qabs (x - q) < eps)%Q
  | None => False
  end.

(** ** Scenario A: sleep_metrics *)

(** C4.  A table with a single Split_Day [d] whose Rest phase has 440 epochs
    classified Sleep and 40 classified Wake: [sleep_metrics] at a 30-second
    interval returns one row, for ([d], Rest), with TST_Min = 220.0,
    WASO_Min = 20.0 and SE = 100 * (440 / 480), the float 0x1.6eaaaaaaaaaaap+6
    (91.666666666666657...),
    which is within 10^-13 of 275/3. *)
Theorem sleep_metrics_scenario_A (df : DataFrame) (d : Z) :
  Forall (fun r => Split_Day r = d) df ->
  count_epochs df (d, "Rest") "Sleep" = 440 ->
  count_epochs df (d, "Rest") "Wake" = 40 ->
  exists out,
    sleep_metrics df 30 = Ok out
    /\ sm_index out = [(d, "Rest")]
    /\ TST_Min out = [220%float]
    /\ WASO_Min out = [20%float]
    /\ SE out = [(100 * (440 / 480))%float]
    /\ SE out = [0x1.6eaaaaaaaaaaap+6%float]
    /\ Forall (fun se => close_to se (275 # 3) (1 # 10000000000000)) (SE out).
Proof.
  intros Hday Hs Hw.
  destruct (count_epochs_pos df (d, "Rest") "Sleep") as [r [Hr [Hk Hc]]];
    [lia|].
  destruct (count_epochs_pos df (d, "Rest") "Wake") as [r' [Hr' [Hk' Hc']]];
    [lia|].
  assert (Hsleep : contains "Sleep" (group_keys (map Sleep_Acti df)) = true).
  { apply contains_In, group_keys_In. rewrite <- Hc. apply in_map. exact Hr. }
  assert (Hwake : contains "Wake" (group_keys (map Sleep_Acti df)) = true).
  { apply contains_In, group_keys_In. rewrite <- Hc'. apply in_map. exact Hr'. }
  assert (Hrows :
    filter (fun k : Z * string => key_eqb (snd k) "Rest")
           (group_keys (map (fun r => (Split_Day r, Interval r)) df))
    = [(d, "Rest")]).
  { apply filter_singleton.
    - apply group_keys_NoDup.
    - apply group_keys_In. rewrite <- Hk.
      apply (in_map (fun r => (Split_Day r, Interval r))). exact Hr.
    - reflexivity.
    - intros [d' i] Hin Hrest. apply (proj1 (group_keys_In _ _)) in Hin.
      apply (proj1 (in_map_iff _ _ _)) in Hin. destruct Hin as [q [Eq Hq]].
      inversion Eq; subst. simpl in Hrest. apply key_eqb_eq in Hrest.
      rewrite Forall_forall in Hday. rewrite (Hday q Hq), Hrest. reflexivity. }
  destruct df as [|r0 df0]; [destruct Hr|].
  unfold sleep_metrics.
  rewrite !loc_filtered_pivot, Hsleep, Hwake, filtered_pivot_index, Hrows.
  cbn [map bind]. rewrite py_truediv_30. cbn [bind].
  rewrite Hs, Hw, first_watch_ID_cons. cbn [bind assign_scalar map].
  eexists. split; [reflexivity|].
  cbn [sm_index TST_Min WASO_Min SE map2].
  repeat split; try reflexivity.
  constructor; [|constructor]. vm_compute. reflexivity.
Qed.

Lemma sleep_metrics_scenario_A_witness :
  exists out,
    sleep_metrics scenario_A 30 = Ok out
    /\ sm_index out = [(1, "Rest")]
    /\ TST_Min out = [220%float]
    /\ WASO_Min out = [20%float]
    /\ SE out = [(100 * (440 / 480))%float]
    /\ SE out = [0x1.6eaaaaaaaaaaap+6%float]
    /\ Forall (fun se => close_to se (275 # 3) (1 # 10000000000000)) (SE out).
Proof.
  apply (sleep_metrics_scenario_A scenario_A 1).
  - apply Forall_app. split; apply Forall_forall; intros r Hr;
      apply repeat_spec in Hr; subst r; reflexivity.
  - vm_compute. reflexivity.
  - vm_compute. reflexivity.
Defined.

(** ** The guards of sleep_latency and bedtime *)

Lemma label_absent (label : string) (df : DataFrame) :
  (forall r, In r df -> Interval r <> label) ->
  contains label (unique (map Interval df)) = false.
Proof.
  intro Habs. apply contains_false. rewrite unique_In, in_map_iff.
  intros [r [E Hr]]. exact (Habs r Hr E).
Qed.

Lemma label_present (label : string) (df : DataFrame) :
  (exists r, In r df /\ Interval r = label) ->
  contains label (unique (map Interval df)) = true.
Proof.
  intros [r [Hr E]]. apply contains_In, unique_In. rewrite <- E.
  apply in_map. exact Hr.
Qed.

(** A table with two Active epochs and nothing else. *)
Definition only_active : DataFrame :=
  [epoch "w1" 1 9 "Active" "Wake" 12; epoch "w1" 1 10 "Active" "Sleep" 0].

(** C3.  Without any epoch whose Interval is Falling_Asleep,
    [sleep_latency] returns [None]; without any epoch whose Interval is
    Waking_Up, [bedtime] returns [None].  Neither raises. *)
Theorem not_applicable_returns_None (df : DataFrame) (rec_freq : Z) :
  ((forall r, In r df -> Interval r <> "Falling_Asleep") ->
   sleep_latency df rec_freq = Ok None)
  /\ ((forall r, In r df -> Interval r <> "Waking_Up") ->
      bedtime df = Ok None).
Proof.
  split; intro Habs.
  - unfold sleep_latency. rewrite (label_absent _ _ Habs). reflexivity.
  - unfold bedtime. rewrite (label_absent _ _ Habs). reflexivity.
Qed.

Lemma not_applicable_returns_None_witness :
  sleep_latency only_active 30 = Ok None /\ bedtime only_active = Ok None.
Proof.
  destruct (not_applicable_returns_None only_active 30) as [Hl Hb].
  split; [apply Hl | apply Hb];
    intros r [<- | [<- | []]]; discriminate.
Defined.

(** ** rhythm_stability *)

(** C8.  [rhythm_stability] raises [NotImplementedError] on every input; it
    is a function of its arguments alone, so nothing else is changed. *)
Theorem rhythm_stability_not_implemented (df : DataFrame) (rec_freq : Z) :
  rhythm_stability df rec_freq = Raise NotImplementedError.
Proof. reflexivity. Qed.

(** ** total_values *)

(** [adds_up l t]: the numbers of [l] add up to [t], in the integers. *)
Inductive adds_up : list Z -> Z -> Prop :=
| adds_up_nil : adds_up [] 0
| adds_up_cons (x : Z) (l : list Z) (t : Z) :
    adds_up l t -> adds_up (x :: l) (x + t).

Lemma adds_up_sumZ (l : list Z) (t : Z) : adds_up l t <-> t = sumZ l.
Proof.
  split.
  - induction 1 as [|x l t Hl IH]; [reflexivity|].
    cbn [sumZ fold_right]. fold (sumZ l). rewrite IH. reflexivity.
  - intros ->. induction l as [|x l IH]; [constructor|].
    cbn [sumZ fold_right]. fold (sumZ l). constructor. exact IH.
Qed.

(** [total] is what an [int64] column holds for the sum of [column] over
    the epochs of day [d]: a 64-bit value that differs from the sum by a
    multiple of 2^64, hence the sum itself when the sum fits in 64 bits. *)
Definition day_total (column : Epoch -> Z) (df : DataFrame) (d total : Z) : Prop :=
  forall t,
    adds_up (map column (filter (fun r => Split_Day r =? d) df)) t ->
    - 2 ^ 63 <= total < 2 ^ 63
    /\ (total - t) mod 2 ^ 64 = 0
    /\ (- 2 ^ 63 <= t < 2 ^ 63 -> total = t).

Lemma sum_int64_day_total (column : Epoch -> Z) (df : DataFrame) (d : Z) :
  day_total column df d
            (sum_int64 (map column (filter (fun r => Split_Day r =? d) df))).
Proof.
  intros t Ht. apply adds_up_sumZ in Ht. subst t. rewrite sum_int64_eq.
  split; [apply wrap64_range|]. split; [apply wrap64_congruent|].
  apply wrap64_small.
Qed.

Lemma Forall2_map_r {A B : Type} (P : A -> B -> Prop) (f : A -> B) (l : list A) :
  (forall a, In a l -> P a (f a)) -> Forall2 P l (map f l).
Proof.
  induction l as [|a l IH]; intro Hall; cbn [map]; constructor.
  - apply Hall. left. reflexivity.
  - apply IH. intros b Hb. apply Hall. right. exact Hb.
Qed.

Lemma key_eqb_Z (x y : Z) : key_eqb x y = (x =? y).
Proof. unfold key_eqb. cbn [cmp Ord_Z]. rewrite Z.eqb_compare. reflexivity. Qed.

(** [total_values] on a table with rows: one row per Split_Day, in
    increasing order, with the day's [int64] sums. *)
Lemma total_values_eq (r0 : Epoch) (df0 : DataFrame) (rec_freq : Z) :
  let df := r0 :: df0 in
  let day_sum (column : Epoch -> Z) (d : Z) :=
    sum_int64 (map column (filter (fun r => Split_Day r =? d) df)) in
  total_values df rec_freq
  = Ok {| tv_Split_Day := group_keys (map Split_Day df);
          tv_Activity := map (day_sum Activity) (group_keys (map Split_Day df));
          tv_Light := map (day_sum Light) (group_keys (map Split_Day df));
          tv_watch_ID := map (fun _ => watch_ID r0)
                             (group_keys (map Split_Day df)) |}.
Proof.
  intros df day_sum. subst df. unfold total_values, loc. cbn [assoc columns].
  change (key_eqb "Activity" "Activity") with true.
  change (key_eqb "Light" "Activity") with false.
  change (key_eqb "Light" "Light") with true.
  cbn [bind index]. rewrite first_watch_ID_cons. cbn [bind].
  rewrite (groupby_keys Split_Day), assign_scalar_ok by apply days_cons.
  cbn [bind]. unfold groupby. rewrite !map_map. cbn [fst snd].
  f_equal. f_equal; apply map_ext; intro d; unfold day_sum; do 2 f_equal;
    apply filter_ext; intro r; apply key_eqb_Z.
Qed.

(** Scenario D: one day, Activity 5, 10, 15 and Light 1, 2, 3, in three
    epochs of different phases and classifications. *)
Definition scenario_D : DataFrame :=
  [ {| watch_ID := "w1"; DateTime := 118800000000000; Hour := 9; Split_Day := 1;
       Interval := "Active"; Sleep_Acti := "Wake"; Activity := 5; Light := 1 |};
    {| watch_ID := "w1"; DateTime := 165600000000000; Hour := 22; Split_Day := 1;
       Interval := "Falling_Asleep"; Sleep_Acti := "Wake"; Activity := 10; Light := 2 |};
    {| watch_ID := "w1"; DateTime := 169200000000000; Hour := 23; Split_Day := 1;
       Interval := "Rest"; Sleep_Acti := "Sleep"; Activity := 15; Light := 3 |} ].

(** A day whose Activity does not fit in 64 bits: 2^62 twice on day 1,
    and 7 on day 2. *)
Definition overflowing_day : DataFrame :=
  [epoch "w1" 1 9 "Active" "Wake" (2 ^ 62);
   epoch "w1" 1 10 "Active" "Wake" (2 ^ 62);
   epoch "w1" 2 9 "Active" "Wake" 7].

(** C7.  [total_values] does not depend on its [rec_freq] argument.  On a
    table with rows it returns one row per Split_Day, in increasing order;
    the Activity and the Light of a row are the sums over all the epochs of
    that day, whatever their phase and classification, as an [int64] column
    holds them: the exact sum whenever it fits in 64 bits, and the sum
    reduced modulo 2^64 otherwise.  On a table without rows it raises. *)
Theorem total_values_ignores_rec_freq (df : DataFrame) (rec_freq rec_freq' : Z) :
  total_values df rec_freq = total_values df rec_freq'
  /\ (df <> [] ->
      exists out,
        total_values df rec_freq = Ok out
        /\ tv_Split_Day out = group_keys (map Split_Day df)
        /\ Forall2 (day_total Activity df) (tv_Split_Day out) (tv_Activity out)
        /\ Forall2 (day_total Light df) (tv_Split_Day out) (tv_Light out))
  /\ (df = [] -> exists e, total_values df rec_freq = Raise e).
Proof.
  split; [reflexivity|]. split.
  - intro Hne. destruct df as [|r0 df0]; [congruence|].
    eexists. split; [apply total_values_eq|].
    cbn [tv_Split_Day tv_Activity tv_Light].
    split; [reflexivity|].
    split; apply Forall2_map_r; intros d _; apply sum_int64_day_total.
  - intros ->. eexists. reflexivity.
Qed.

Lemma total_values_ignores_rec_freq_witness :
  total_values scenario_D 30 = total_values scenario_D 3600
  /\ (exists out,
         total_values scenario_D 30 = Ok out
         /\ tv_Split_Day out = [1]
         /\ tv_Activity out = [30]
         /\ tv_Light out = [6])
  /\ (exists out,
         total_values overflowing_day 30 = Ok out
         /\ tv_Split_Day out = [1; 2]
         /\ tv_Activity out = [- 2 ^ 63; 7]).
Proof.
  destruct (total_values_ignores_rec_freq scenario_D 30 3600)
    as [Hsame [Hsums _]].
  split; [exact Hsame|]. split.
  - destruct Hsums as [out [Hout [Hdays [Hact Hlight]]]]; [discriminate|].
    exists out. split; [exact Hout|].
    rewrite Hdays in Hact, Hlight.
    change (group_keys (map Split_Day scenario_D)) with [1] in *.
    split; [exact Hdays|].
    inversion Hact as [|d a ds tl Ha Hnil Ed Ea]. inversion Hnil. subst.
    inversion Hlight as [|d l ds tl Hl Hnil' Ed' El]. inversion Hnil'. subst.
    destruct (Ha (5 + (10 + (15 + 0)))) as [_ [_ Ha']];
      [repeat constructor|].
    destruct (Hl (1 + (2 + (3 + 0)))) as [_ [_ Hl']];
      [repeat constructor|].
    rewrite Ha', Hl' by (vm_compute; split; congruence).
    split; reflexivity.
  - destruct (total_values_ignores_rec_freq overflowing_day 30 30)
      as [_ [Hover _]].
    destruct Hover as [out [Hout [Hdays [Hact _]]]]; [discriminate|].
    exists out. split; [exact Hout|].
    rewrite Hdays in Hact.
    change (group_keys (map Split_Day overflowing_day)) with [1; 2] in *.
    split; [exact Hdays|].
    inversion Hact as [|d a ds tl Ha Htl Ed Ea]. subst.
    inversion Htl as [|d' a' ds' tl' Ha2 Hnil Ed' Ea']. inversion Hnil. subst.
    destruct (Ha (2 ^ 62 + (2 ^ 62 + 0))) as [Hr [Hc _]];
      [repeat constructor|].
    destruct (Ha2 (7 + 0)) as [_ [_ H7]]; [repeat constructor|].
    rewrite H7 by (vm_compute; split; congruence).
    f_equal. change (2 ^ 62 + (2 ^ 62 + 0)) with (2 ^ 63) in Hc.
    apply Z.mod_divide in Hc; [|discriminate]. destruct Hc as [q Hq].
    change (2 ^ 64) with (2 * 2 ^ 63) in Hq. nia.
Defined.

(** ** bedtime *)

(** Some epoch of the table carries the phase label. *)
Definition has_interval (df : DataFrame) (label : string) : Prop :=
  exists r, In r df /\ Interval r = label.

Lemma has_interval_contains (df : DataFrame) (label : string) :
  contains label (group_keys (map Interval df)) = true <-> has_interval df label.
Proof.
  rewrite contains_In, group_keys_In, in_map_iff. unfold has_interval.
  split; intros [r [A B]]; exists r; auto.
Qed.

Lemma flat_map_groups_keys {K A V : Type} (F : list A -> option V)
      (gs : list (K * list A)) :
  (forall g, In g gs -> F (snd g) <> None) ->
  map fst (flat_map (fun g => match F (snd g) with
                              | Some m => [(fst g, m)]
                              | None => []
                              end) gs)
  = map fst gs.
Proof.
  induction gs as [|g gs IH]; intro Hne; [reflexivity|].
  cbn [flat_map]. rewrite map_app, IH.
  - destruct (F (snd g)) eqn:E; [reflexivity|].
    exfalso. exact (Hne g (or_introl eq_refl) E).
  - intros g' Hg'. apply Hne. right. exact Hg'.
Qed.

Lemma earliest_times_keys (df : DataFrame) :
  map fst (earliest_times df)
  = group_keys (map (fun r => (Split_Day r, Interval r)) df).
Proof.
  unfold earliest_times. rewrite flat_map_groups_keys.
  - apply (groupby_keys (fun r => (Split_Day r, Interval r))).
  - intros g Hg. apply groupby_nonempty in Hg.
    destruct (snd g); [congruence | discriminate].
Qed.

(** The grouped minima have one entry per (Split_Day, Interval), so the
    pivot never meets a duplicate. *)
Lemma earliest_times_pivot (df : DataFrame) :
  Pandas.pivot (earliest_times df) = Ok (unstack (earliest_times df)).
Proof.
  unfold Pandas.pivot. rewrite earliest_times_keys.
  rewrite has_duplicates_NoDup; [reflexivity | apply group_keys_NoDup].
Qed.

(** The pivot of [bedtime] has one column per phase label of the table. *)
Lemma earliest_times_columns (df : DataFrame) :
  map (fun e => snd (fst e)) (earliest_times df)
  = map snd (group_keys (map (fun r => (Split_Day r, Interval r)) df)).
Proof.
  rewrite <- earliest_times_keys, map_map. reflexivity.
Qed.

Lemma earliest_times_labels (df : DataFrame) :
  group_keys (map (fun e => snd (fst e)) (earliest_times df))
  = group_keys (map Interval df).
Proof.
  rewrite earliest_times_columns.
  apply StrictSorted_ext; try apply group_keys_sorted.
  intro c. rewrite !group_keys_In, !in_map_iff. split.
  - intros [[d c'] [<- Hk]]. apply (proj1 (group_keys_In _ _)) in Hk.
    apply (proj1 (in_map_iff _ _ _)) in Hk. destruct Hk as [r [E Hr]].
    exists r. split; [|assumption]. inversion E. reflexivity.
  - intros [r [<- Hr]]. exists (Split_Day r, Interval r).
    split; [reflexivity|]. apply group_keys_In.
    apply (in_map (fun r => (Split_Day r, Interval r))). assumption.
Qed.

Lemma earliest_times_days (df : DataFrame) :
  group_keys (map (fun e => fst (fst e)) (earliest_times df)) = days df.
Proof.
  rewrite <- (map_map fst fst), earliest_times_keys.
  apply StrictSorted_ext; try apply group_keys_sorted.
  intro d. unfold days. rewrite !group_keys_In, !in_map_iff. split.
  - intros [[d' i] [<- Hk]]. apply (proj1 (group_keys_In _ _)) in Hk.
    apply (proj1 (in_map_iff _ _ _)) in Hk. destruct Hk as [r [E Hr]].
    exists r. inversion E. auto.
  - intros [r [<- Hr]]. exists (Split_Day r, Interval r). split; [reflexivity|].
    apply group_keys_In. apply (in_map (fun r => (Split_Day r, Interval r))).
    exact Hr.
Qed.

Lemma assoc_filter_map {V : Type} (g : string -> V) (labels : list string)
      (c : string) (cols : list string) :
  assoc c (filter (fun cv => negb (contains (fst cv) labels))
                  (map (fun c' => (c', g c')) cols))
  = if contains c labels then None
    else if contains c cols then Some (g c) else None.
Proof.
  induction cols as [|c' cols IH]; cbn [map filter fst].
  - destruct (contains c labels); reflexivity.
  - destruct (contains c' labels) eqn:El; cbn [negb].
    + rewrite IH. destruct (contains c labels) eqn:Ec; [reflexivity|].
      cbn [contains existsb]. destruct (key_eqb c c') eqn:E; [|reflexivity].
      apply key_eqb_eq in E. subst c'. congruence.
    + cbn [assoc contains existsb]. destruct (key_eqb c c') eqn:E.
      * apply key_eqb_eq in E. subst c'. rewrite El. reflexivity.
      * rewrite IH. reflexivity.
Qed.

(** What [bedtime] does once its guard has passed, by the labels present. *)
Lemma bedtime_after_guard (df : DataFrame) :
  has_interval df "Waking_Up" ->
  let present := group_keys (map Interval df) in
  match filter (fun c => negb (contains c present)) ["Falling_Asleep"; "Active"] with
  | [] =>
      if contains "Rest" present
      then exists out, bedtime df = Ok (Some out)
      else bedtime df = Raise (KeyError ["Rest"])
  | missing => bedtime df = Raise (KeyError missing)
  end.
Proof.
  intros Hwu present.
  assert (Hwu' : contains "Waking_Up" present = true)
    by (apply has_interval_contains; exact Hwu).
  unfold bedtime. rewrite (label_present _ _ Hwu). cbn [negb].
  rewrite earliest_times_pivot. cbn [bind]. unfold drop, column_names, unstack.
  cbn [columns index]. rewrite map_map. cbn [fst]. rewrite map_id.
  rewrite earliest_times_labels. fold present.
  destruct (filter (fun c => negb (contains c present)) ["Falling_Asleep"; "Active"])
    as [|m ms] eqn:Hmiss; [|reflexivity].
  cbn [bind]. unfold loc. cbn [columns index].
  rewrite !(assoc_filter_map
              (fun c => map (fun k => lookup (k, c) (earliest_times df)) _)).
  change (contains "Rest" ["Falling_Asleep"; "Active"]) with false.
  change (contains "Waking_Up" ["Falling_Asleep"; "Active"]) with false.
  cbn iota. rewrite Hwu'.
  destruct (contains "Rest" present); [|reflexivity].
  cbn [bind]. destruct Hwu as [r [Hr _]].
  destruct df as [|r0 df0]; [destruct Hr|].
  rewrite first_watch_ID_cons. cbn [bind].
  rewrite earliest_times_days, assign_scalar_ok by apply days_cons.
  cbn [bind]. eexists. reflexivity.
Qed.

(** A table with Rest and Waking_Up epochs but no Falling_Asleep epoch. *)
Definition no_falling_asleep : DataFrame :=
  [epoch "w1" 1 9 "Active" "Wake" 12;
   epoch "w1" 1 23 "Rest" "Sleep" 0;
   epoch "w1" 2 7 "Waking_Up" "Wake" 3].

(** C9.  Once a Waking_Up epoch is present, a table without any
    Falling_Asleep epoch or without any Active epoch makes [bedtime] raise
    the [KeyError] of the [drop] of those two columns, naming the absent
    ones; and [bedtime] returns a table exactly when all four phase labels
    occur in the input. *)
Theorem bedtime_needs_all_four_labels (df : DataFrame) :
  (has_interval df "Waking_Up" ->
   ~ has_interval df "Falling_Asleep" \/ ~ has_interval df "Active" ->
   exists missing,
     bedtime df = Raise (KeyError missing)
     /\ missing <> []
     /\ missing = filter (fun c => negb (contains c (map Interval df)))
                         ["Falling_Asleep"; "Active"])
  /\ ((exists out, bedtime df = Ok (Some out))
      <-> has_interval df "Waking_Up" /\ has_interval df "Falling_Asleep"
          /\ has_interval df "Active" /\ has_interval df "Rest").
Proof.
  assert (Hlabels : forall c,
             contains c (map Interval df) = contains c (group_keys (map Interval df))).
  { intro c. destruct (contains c (group_keys _)) eqn:E.
    - apply contains_In. apply (proj1 (contains_In _ _)) in E.
      apply (proj1 (group_keys_In _ _)) in E. exact E.
    - apply contains_false. apply contains_false in E.
      rewrite group_keys_In in E. exact E. }
  assert (Hfilter :
            filter (fun c => negb (contains c (map Interval df)))
                   ["Falling_Asleep"; "Active"]
            = filter (fun c => negb (contains c (group_keys (map Interval df))))
                     ["Falling_Asleep"; "Active"]).
  { apply filter_ext. intro c. rewrite Hlabels. reflexivity. }
  split.
  - intros Hwu Habsent. pose proof (bedtime_after_guard df Hwu) as Hb.
    cbv zeta in Hb. rewrite Hfilter. clear Hfilter. revert Hb.
    destruct (filter (fun c => negb (contains c (group_keys (map Interval df))))
                     ["Falling_Asleep"; "Active"]) as [|m ms] eqn:Hmiss;
      intro Hb.
    + exfalso. cbn [filter] in Hmiss.
      destruct (contains "Falling_Asleep" _) eqn:Efa; cbn [negb] in Hmiss;
        [|discriminate].
      destruct (contains "Active" _) eqn:Eac; cbn [negb] in Hmiss;
        [|discriminate].
      apply has_interval_contains in Efa, Eac. tauto.
    + exists (m :: ms). repeat split; [exact Hb | discriminate].
  - split.
    + intros [out Hout].
      destruct (contains "Waking_Up" (unique (map Interval df))) eqn:Ewu.
      2:{ unfold bedtime in Hout. rewrite Ewu in Hout. discriminate. }
      assert (Hwu : has_interval df "Waking_Up").
      { apply (proj1 (contains_In _ _)) in Ewu.
        apply (proj1 (unique_In _ _)) in Ewu.
        apply has_interval_contains, contains_In, group_keys_In. exact Ewu. }
      pose proof (bedtime_after_guard df Hwu) as Hb. cbv zeta in Hb.
      cbn [filter] in Hb.
      destruct (contains "Falling_Asleep" _) eqn:Efa; cbn [negb] in Hb.
      2:{ destruct (contains "Active" _); cbn [negb] in Hb; congruence. }
      destruct (contains "Active" _) eqn:Eac; cbn [negb] in Hb; [|congruence].
      destruct (contains "Rest" _) eqn:Ere; [|congruence].
      apply has_interval_contains in Efa, Eac, Ere. tauto.
    + intros [Hwu [Hfa [Hac Hre]]].
      pose proof (bedtime_after_guard df Hwu) as Hb. cbv zeta in Hb.
      apply has_interval_contains in Hfa, Hac, Hre.
      cbn [filter] in Hb. rewrite Hfa, Hac, Hre in Hb. exact Hb.
Qed.

Lemma bedtime_needs_all_four_labels_witness :
  exists missing,
    bedtime no_falling_asleep = Raise (KeyError missing)
    /\ missing <> []
    /\ missing = filter (fun c => negb (contains c (map Interval no_falling_asleep)))
                        ["Falling_Asleep"; "Active"].
Proof.
  apply (proj1 (bedtime_needs_all_four_labels no_falling_asleep)).
  - exists (epoch "w1" 2 7 "Waking_Up" "Wake" 3). split; [|reflexivity].
    right. right. left. reflexivity.
  - left. intros [r [[<- | [<- | [<- | []]]] E]]; discriminate.
Defined.

(** ** The watch identifier *)

(** The same epoch under another watch identifier. *)
Definition restamp (w : string) (r : Epoch) : Epoch :=
  {| watch_ID := w; DateTime := DateTime r; Hour := Hour r;
     Split_Day := Split_Day r; Interval := Interval r;
     Sleep_Acti := Sleep_Acti r; Activity := Activity r; Light := Light r |}.

Lemma restamp_own (r : Epoch) : restamp (watch_ID r) r = r.
Proof. destruct r. reflexivity. Qed.

Lemma map_const_repeat {A B : Type} (b : B) (l : list A) :
  map (fun _ => b) l = repeat b (List.length l).
Proof. induction l as [|a l IH]; simpl; [reflexivity | rewrite IH; reflexivity]. Qed.

Lemma filter_map_comm {A B : Type} (p : B -> bool) (f : A -> B) (l : list A) :
  filter p (map f l) = map f (filter (fun a => p (f a)) l).
Proof.
  induction l as [|a l IH]; simpl; [reflexivity|].
  destruct (p (f a)); simpl; rewrite IH; reflexivity.
Qed.

Section Restamp.
Context {K : Type} `{Ord K}.
Variable w : string.
Variable key : Epoch -> K.
Hypothesis key_restamp : forall r, key (restamp w r) = key r.

(** Grouping by a key that does not read the watch identifier gives the
    same groups, restamped. *)
Lemma groupby_restamp (df : DataFrame) :
  groupby key (map (restamp w) df)
  = map (fun g => (fst g, map (restamp w) (snd g))) (groupby key df).
Proof.
  unfold groupby. rewrite !map_map. cbn [fst snd].
  rewrite (map_ext (fun r => key (restamp w r)) key key_restamp).
  apply map_ext. intro k. f_equal. rewrite filter_map_comm. f_equal.
  apply filter_ext. intro r. rewrite key_restamp. reflexivity.
Qed.
End Restamp.

Lemma sleep_wake_counts_restamp (w : string) (df : DataFrame) :
  sleep_wake_counts (map (restamp w) df) = sleep_wake_counts df.
Proof.
  unfold sleep_wake_counts.
  rewrite (groupby_restamp w (fun r => ((Split_Day r, Interval r), Sleep_Acti r)))
    by reflexivity.
  rewrite map_map. apply map_ext. intro g. cbn [fst snd].
  rewrite length_map. reflexivity.
Qed.

Lemma min_DateTime_restamp (w : string) (g : list Epoch) :
  min_DateTime (map (restamp w) g) = min_DateTime g.
Proof.
  destruct g as [|r g]; [reflexivity|]. cbn [map min_DateTime]. f_equal.
  change (DateTime (restamp w r)) with (DateTime r).
  generalize (DateTime r). induction g as [|r' g IH]; intro m; [reflexivity|].
  cbn [map fold_left]. apply IH.
Qed.

Lemma earliest_times_restamp (w : string) (df : DataFrame) :
  earliest_times (map (restamp w) df) = earliest_times df.
Proof.
  unfold earliest_times.
  rewrite (groupby_restamp w (fun r => (Split_Day r, Interval r))) by reflexivity.
  rewrite flat_map_concat_map, map_map, <- flat_map_concat_map.
  apply flat_map_ext. intro g. cbn [fst snd].
  rewrite min_DateTime_restamp. reflexivity.
Qed.

Lemma hourly_activity_restamp (w : string) (df : DataFrame) :
  hourly_activity (map (restamp w) df) = hourly_activity df.
Proof.
  unfold hourly_activity.
  rewrite (groupby_restamp w (fun r => (Split_Day r, Hour r))) by reflexivity.
  rewrite map_map. apply map_ext. intro g. cbn [fst snd].
  rewrite map_map. reflexivity.
Qed.

Lemma column_restamp {A : Type} (f : Epoch -> A) (w : string) (df : DataFrame) :
  (forall r, f (restamp w r) = f r) -> map f (map (restamp w) df) = map f df.
Proof. intro Hf. rewrite map_map. apply map_ext. exact Hf. Qed.

Lemma rest_phase_restamp (w : string) (df : DataFrame) (start_hour : Z) :
  rest_phase (map (restamp w) df) start_hour = rest_phase df start_hour.
Proof.
  unfold rest_phase, cyclic_hours.
  rewrite hourly_activity_restamp, (column_restamp Hour) by reflexivity.
  reflexivity.
Qed.

Lemma sum_column_restamp {K : Type} (f : Epoch -> Z) (w : string)
      (gs : list (K * list Epoch)) :
  (forall r, f (restamp w r) = f r) ->
  map (fun g => sum_int64 (map f (map (restamp w) (snd g)))) gs
  = map (fun g => sum_int64 (map f (snd g))) gs.
Proof.
  intro Hf. apply map_ext. intro g. rewrite map_map. f_equal.
  apply map_ext. exact Hf.
Qed.

Lemma first_watch_ID_restamp (r0 : Epoch) (df : DataFrame) :
  first_watch_ID (map (restamp (watch_ID r0)) (r0 :: df)) = first_watch_ID (r0 :: df).
Proof. reflexivity. Qed.

(** Every reducer reads the watch identifiers through [first_watch_ID]
    alone: on a table with rows it gives the result it gives once every row
    carries the identifier of the first row. *)
Lemma reducers_restamp (r0 : Epoch) (df : DataFrame) (rec_freq start_hour : Z) :
  let table := r0 :: df in
  let single := map (restamp (watch_ID r0)) table in
  sleep_metrics table rec_freq = sleep_metrics single rec_freq
  /\ sleep_latency table rec_freq = sleep_latency single rec_freq
  /\ bedtime table = bedtime single
  /\ relative_amplitude table start_hour = relative_amplitude single start_hour
  /\ total_values table rec_freq = total_values single rec_freq.
Proof.
  intros table single. subst single table.
  repeat split.
  - unfold sleep_metrics, sleep_wake_pivot.
    rewrite sleep_wake_counts_restamp, first_watch_ID_restamp. reflexivity.
  - unfold sleep_latency, sleep_wake_pivot.
    rewrite sleep_wake_counts_restamp, first_watch_ID_restamp.
    rewrite (column_restamp Interval) by reflexivity. reflexivity.
  - unfold bedtime.
    rewrite earliest_times_restamp, first_watch_ID_restamp.
    rewrite (column_restamp Interval) by reflexivity. reflexivity.
  - unfold relative_amplitude.
    rewrite rest_phase_restamp, first_watch_ID_restamp. reflexivity.
  - unfold total_values.
    rewrite (groupby_restamp (watch_ID r0) Split_Day) by reflexivity.
    rewrite first_watch_ID_restamp, !map_map. cbn [fst snd].
    rewrite (sum_column_restamp Activity), (sum_column_restamp Light)
      by reflexivity.
    reflexivity.
Qed.

(** The table once every row carries the identifier of the first row. *)
Definition single_subject (df : DataFrame) : DataFrame :=
  match df with
  | [] => []
  | r0 :: _ => map (restamp (watch_ID r0)) df
  end.

(** The [n] entries of a watch_ID column all hold the first distinct
    identifier of the input's watch_ID column. *)
Definition stamped_with_first (df : DataFrame) (ids : list string) (n : nat) : Prop :=
  exists w, hd_error (unique (map watch_ID df)) = Some w
            /\ hd_error (map watch_ID df) = Some w
            /\ ids = repeat w n.

(** A table whose rows come from two watches. *)
Definition two_subjects : DataFrame :=
  [epoch "w1" 1 9 "Active" "Wake" 12;
   epoch "w2" 1 22 "Falling_Asleep" "Wake" 1;
   epoch "w2" 1 23 "Rest" "Sleep" 0;
   epoch "w3" 2 7 "Waking_Up" "Wake" 3].

(** ** Tables of a single day *)

Section SingleGroup.
Context {K : Type} `{Ord K}.

Lemma group_keys_const (d : K) (l : list K) :
  l <> [] -> (forall x, In x l -> x = d) -> group_keys l = [d].
Proof.
  induction l as [|x l IH]; intros Hne Hall; [congruence|].
  rewrite (Hall x (or_introl eq_refl)). cbn [group_keys fold_right].
  destruct l as [|y l]; [reflexivity|].
  fold (group_keys (y :: l)). rewrite IH.
  - cbn [insert_key]. rewrite cmp_refl. reflexivity.
  - discriminate.
  - intros z Hz. apply Hall. right. exact Hz.
Qed.

Lemma filter_all {A : Type} (p : A -> bool) (l : list A) :
  (forall x, In x l -> p x = true) -> filter p l = l.
Proof.
  induction l as [|x l IH]; intro Hall; [reflexivity|].
  cbn [filter]. rewrite (Hall x (or_introl eq_refl)). f_equal.
  apply IH. intros y Hy. apply Hall. right. exact Hy.
Qed.

(** Grouping rows that all share one key gives that one group. *)
Lemma groupby_single {A : Type} (key : A -> K) (d : K) (l : list A) :
  l <> [] -> (forall r, In r l -> key r = d) -> groupby key l = [(d, l)].
Proof.
  intros Hne Hall. unfold groupby. rewrite (group_keys_const d).
  - cbn [map]. rewrite filter_all; [reflexivity|].
    intros r Hr. apply key_eqb_eq. apply Hall. exact Hr.
  - destruct l; [congruence | discriminate].
  - intros x Hx. apply (proj1 (in_map_iff _ _ _)) in Hx.
    destruct Hx as [r [<- Hr]]. apply Hall. exact Hr.
Qed.

Lemma StrictSorted_map_pair {J : Type} `{Ord J} (d : J) (l : list K) :
  StrictSorted l -> StrictSorted (map (pair d) l).
Proof.
  unfold StrictSorted. induction 1 as [|x l Hl IH Hx]; cbn [map]; constructor.
  - exact IH.
  - rewrite Forall_forall in *. intros y Hy.
    apply (proj1 (in_map_iff _ _ _)) in Hy. destruct Hy as [z [<- Hz]].
    unfold lt_key. cbn [cmp Ord_pair]. unfold cmp_pair. cbn [fst snd].
    rewrite cmp_refl. apply Hx. exact Hz.
Qed.

(** Sorting rows of one day by (day, key) is sorting them by the key. *)
Lemma sort_values_same_day {J A : Type} `{Ord J} (day : A -> J) (key : A -> K)
      (d : J) (l : list A) :
  (forall r, In r l -> day r = d) ->
  sort_values (fun r => (day r, key r)) l = sort_values key l.
Proof.
  induction l as [|x l IH]; intro Hall; [reflexivity|].
  cbn [sort_values fold_right].
  fold (sort_values (fun r => (day r, key r)) l). fold (sort_values key l).
  rewrite IH by (intros r Hr; apply Hall; right; exact Hr).
  assert (Hin : forall r, In r (sort_values key l) -> day r = d).
  { assert (Hsub : forall m r, In r (sort_values key m) -> In r m).
    { induction m as [|y m IHm]; intros r Hr; [exact Hr|].
      cbn [sort_values fold_right] in Hr. fold (sort_values key m) in Hr.
      assert (Hins : forall z s, In r (insert_by key z s) -> r = z \/ In r s).
      { intros z s. induction s as [|u s IHs]; cbn [insert_by]; intro Hz.
        - destruct Hz as [<- | []]. left. reflexivity.
        - destruct (cmp (key z) (key u)).
          + destruct Hz as [<- | Hz]; [left; reflexivity | right; exact Hz].
          + destruct Hz as [<- | Hz]; [left; reflexivity | right; exact Hz].
          + destruct Hz as [<- | Hz]; [right; left; reflexivity|].
            destruct (IHs Hz) as [-> | Hs]; [left; reflexivity|].
            right. right. exact Hs. }
      destruct (Hins _ _ Hr) as [-> | Hm]; [left; reflexivity|].
      right. apply IHm. exact Hm. }
    intros r Hr. apply Hall. right. apply Hsub. exact Hr. }
  pose proof (Hall x (or_introl eq_refl)) as Hx.
  revert Hin. generalize (sort_values key l). intros s Hs.
  induction s as [|u s IHs]; [reflexivity|].
  cbn [insert_by cmp Ord_pair]. unfold cmp_pair. cbn [fst snd].
  rewrite Hx, (Hs u (or_introl eq_refl)), cmp_refl.
  destruct (cmp (key x) (key u)); try reflexivity.
  f_equal. apply IHs. intros r Hr. apply Hs. right. exact Hr.
Qed.

End SingleGroup.

(** The 24 hours of the day in increasing order. *)
Definition hours24 : list Z := map Z.of_nat (seq 0 24).

Lemma hours24_In (h : Z) : In h hours24 <-> 0 <= h <= 23.
Proof.
  unfold hours24. rewrite in_map_iff. split.
  - intros [n [<- Hn]]. apply in_seq in Hn. lia.
  - intro Hh. exists (Z.to_nat h). split; [lia|]. apply in_seq. lia.
Qed.

Lemma hours24_sorted : StrictSorted hours24.
Proof.
  assert (E : group_keys hours24 = hours24) by reflexivity.
  rewrite <- E. apply group_keys_sorted.
Qed.

Lemma slice_from_0 {A : Type} (l : list A) : slice_from 0 l = l.
Proof.
  unfold slice_from, slice_bound. cbn [Z.ltb Z.compare].
  rewrite Z.min_l by lia. reflexivity.
Qed.

Lemma slice_to_0 {A : Type} (l : list A) : slice_to 0 l = [].
Proof.
  unfold slice_to, slice_bound. cbn [Z.ltb Z.compare].
  rewrite Z.min_l by lia. reflexivity.
Qed.

(** ** Scenario C: relative_amplitude on a uniformly active day *)

Section UniformDay.
Variable df : DataFrame.
Variable d : Z.
Hypothesis one_day : Forall (fun r => Split_Day r = d) df.
Hypothesis hours_in_range : Forall (fun r => 0 <= Hour r <= 23) df.
Hypothesis ten_per_hour :
  forall h, 0 <= h <= 23 ->
            sumZ (map Activity (filter (fun r => Hour r =? h) df)) = 10.

Lemma uniform_day_hour_occurs (h : Z) :
  0 <= h <= 23 -> exists r, In r df /\ Hour r = h.
Proof.
  intro Hh. pose proof (ten_per_hour h Hh) as Hs.
  destruct (filter (fun r => Hour r =? h) df) as [|r l] eqn:F;
    [discriminate|].
  assert (Hr : In r (r :: l)) by (left; reflexivity).
  rewrite <- F in Hr. apply filter_In in Hr. destruct Hr as [Hr E].
  exists r. split; [exact Hr | apply Z.eqb_eq; exact E].
Qed.

Lemma uniform_day_hours : group_keys (map Hour df) = hours24.
Proof.
  apply StrictSorted_ext;
    [apply group_keys_sorted | apply hours24_sorted |].
  intro h. rewrite group_keys_In, hours24_In, in_map_iff. split.
  - intros [r [<- Hr]]. rewrite Forall_forall in hours_in_range.
    apply hours_in_range. exact Hr.
  - intro Hh. destruct (uniform_day_hour_occurs h Hh) as [r [Hr E]].
    exists r. auto.
Qed.

Lemma uniform_day_cyclic_hours : cyclic_hours df 0 = hours24.
Proof.
  unfold cyclic_hours. rewrite sorted_unique, uniform_day_hours.
  rewrite slice_from_0, slice_to_0. reflexivity.
Qed.

Lemma uniform_day_keys :
  group_keys (map (fun r => (Split_Day r, Hour r)) df) = map (pair d) hours24.
Proof.
  apply StrictSorted_ext;
    [apply group_keys_sorted
    | apply StrictSorted_map_pair, hours24_sorted |].
  intros [d' h]. rewrite group_keys_In, !in_map_iff.
  rewrite Forall_forall in one_day, hours_in_range. split.
  - intros [r [E Hr]]. inversion E; subst. exists (Hour r).
    rewrite (one_day r Hr). split; [reflexivity|].
    apply hours24_In. apply hours_in_range. exact Hr.
  - intros [h' [E Hh]]. inversion E; subst.
    apply (proj1 (hours24_In _)) in Hh.
    destruct (uniform_day_hour_occurs h Hh) as [r [Hr Er]].
    exists r. rewrite (one_day r Hr), Er. auto.
Qed.

Lemma uniform_day_hourly_activity :
  hourly_activity df = map (fun h => ((d, h), 10)) hours24.
Proof.
  unfold hourly_activity, groupby. rewrite uniform_day_keys, !map_map.
  cbn [fst snd]. apply map_ext_in. intros h Hh. f_equal.
  assert (Hten : sum_int64 (map Activity (filter (fun r => Hour r =? h) df)) = 10).
  { rewrite sum_int64_small; rewrite (ten_per_hour h);
      try (apply hours24_In; exact Hh); [reflexivity | vm_compute; split; congruence]. }
  rewrite <- Hten.
  do 2 f_equal. apply filter_ext_in. intros r Hr.
  rewrite Forall_forall in one_day.
  unfold key_eqb. cbn [cmp Ord_pair]. unfold cmp_pair. cbn [fst snd cmp Ord_Z].
  rewrite (one_day r Hr), Z.compare_refl, Z.eqb_compare. reflexivity.
Qed.

(** The rows of [rest_phase]: one per hour, in hour order, activity 10. *)
Definition uniform_rows : list RestPhaseRow :=
  map (fun i => {| rp_Split_Day := d; rp_Hour := Z.of_nat i;
                   rp_Activity := 10; rp_Order := i |})
      (seq 0 24).

Lemma uniform_rows_day (r : RestPhaseRow) :
  In r uniform_rows -> rp_Split_Day r = d.
Proof.
  unfold uniform_rows. rewrite in_map_iff. intros [i [<- _]]. reflexivity.
Qed.

Lemma uniform_day_rest_phase : rest_phase df 0 = Ok uniform_rows.
Proof.
  unfold rest_phase.
  rewrite uniform_day_cyclic_hours, uniform_day_hourly_activity.
  assert (E : mapM (fun e : Z * Z * Z =>
                      match index_of (snd (fst e)) hours24 with
                      | Some o => Ok {| rp_Split_Day := fst (fst e);
                                        rp_Hour := snd (fst e);
                                        rp_Activity := snd e;
                                        rp_Order := o |}
                      | None => Raise ValueError
                      end)
                   (map (fun h => ((d, h), 10)) hours24)
              = Ok uniform_rows) by (vm_compute; reflexivity).
  rewrite E. cbn [bind]. f_equal.
  rewrite (sort_values_same_day rp_Split_Day rp_Order d)
    by exact uniform_rows_day.
  vm_compute. reflexivity.
Qed.

Lemma uniform_day_rolling (w : nat) :
  rolling_by_day w uniform_rows = rolling_sum w (repeat 10 24).
Proof.
  unfold rolling_by_day.
  rewrite (groupby_single rp_Split_Day d uniform_rows);
    [| discriminate | exact uniform_rows_day].
  cbn [flat_map snd]. rewrite app_nil_r. reflexivity.
Qed.

Lemma uniform_day_groups (sums : list float) :
  List.length sums = 24%nat ->
  groupby (fun x : RestPhaseRow * float => rp_Split_Day (fst x))
          (combine uniform_rows sums)
  = [(d, combine uniform_rows sums)].
Proof.
  intro Hlen. apply groupby_single.
  - do 24 (destruct sums as [|? sums]; [discriminate|]). discriminate.
  - intros [r s] Hin. apply in_combine_l in Hin. apply uniform_rows_day.
    exact Hin.
Qed.

Lemma uniform_day_M10 : M10 uniform_rows = [(d, 100%float)].
Proof.
  unfold M10. rewrite uniform_day_rolling, uniform_day_groups by reflexivity.
  cbn [map fst snd]. vm_compute. reflexivity.
Qed.

Lemma uniform_day_L5 : L5 uniform_rows = [(d, 50%float)].
Proof.
  unfold L5. rewrite uniform_day_rolling, uniform_day_groups by reflexivity.
  cbn [map fst snd]. vm_compute. reflexivity.
Qed.

End UniformDay.

(** C6.  A table of a single day [d] whose activity sums to 10 in each of
    the 24 hours, with [start_hour = 0]: the per-hour rows are ordered by
    hour from 0; the 10-hour rolling sum is undefined (NaN) at the first 9
    positions and 100 from the tenth on, the 5-hour rolling sum is undefined
    at the first 4 positions and 50 afterwards; M10 = 100, L5 = 50, and the
    day's RA is the float (100 - 50) / (100 + 50), within 10^-16 of 1/3. *)
Theorem relative_amplitude_scenario_C (df : DataFrame) (d : Z) :
  Forall (fun r => Split_Day r = d) df ->
  Forall (fun r => 0 <= Hour r <= 23) df ->
  (forall h, 0 <= h <= 23 ->
             sumZ (map Activity (filter (fun r => Hour r =? h) df)) = 10) ->
  exists rows out,
    rest_phase df 0 = Ok rows
    /\ map rp_Hour rows = hours24
    /\ rolling_by_day 10 rows = (repeat nan 9 ++ repeat 100%float 15)%list
    /\ rolling_by_day 5 rows = (repeat nan 4 ++ repeat 50%float 20)%list
    /\ M10 rows = [(d, 100%float)]
    /\ L5 rows = [(d, 50%float)]
    /\ relative_amplitude df 0 = Ok out
    /\ ra_Split_Day out = [d]
    /\ RA out = [((100 - 50) / (100 + 50))%float]
    /\ Forall (fun ra => close_to ra (1 # 3) (1 # 10000000000000000)) (RA out).
Proof.
  intros Hday Hhour Hsum.
  pose proof (uniform_day_rest_phase df d Hday Hhour Hsum) as Hrows.
  destruct (uniform_day_hour_occurs df Hsum 0) as [r0 [Hr0 _]]; [lia|].
  exists (uniform_rows d).
  unfold relative_amplitude. rewrite Hrows. cbn [bind].
  rewrite (uniform_day_M10 d), (uniform_day_L5 d).
  destruct df as [|r1 df1]; [destruct Hr0|].
  rewrite first_watch_ID_cons. cbn [bind].
  unfold merge. cbn [flat_map filter fst snd map app].
  rewrite key_eqb_refl. cbn [map fst snd app assign_scalar bind].
  eexists. split; [reflexivity|].
  split; [reflexivity|].
  split; [rewrite uniform_day_rolling; vm_compute; reflexivity|].
  split; [rewrite uniform_day_rolling; vm_compute; reflexivity|].
  split; [reflexivity|].
  split; [reflexivity|].
  split; [reflexivity|].
  cbn [ra_Split_Day RA].
  split; [reflexivity|]. split; [reflexivity|].
  constructor; [|constructor]. vm_compute. reflexivity.
Qed.

Lemma relative_amplitude_scenario_C_witness :
  exists rows out,
    rest_phase scenario_C 0 = Ok rows
    /\ map rp_Hour rows = hours24
    /\ rolling_by_day 10 rows = (repeat nan 9 ++ repeat 100%float 15)%list
    /\ rolling_by_day 5 rows = (repeat nan 4 ++ repeat 50%float 20)%list
    /\ M10 rows = [(1, 100%float)]
    /\ L5 rows = [(1, 50%float)]
    /\ relative_amplitude scenario_C 0 = Ok out
    /\ ra_Split_Day out = [1]
    /\ RA out = [((100 - 50) / (100 + 50))%float]
    /\ Forall (fun ra => close_to ra (1 # 3) (1 # 10000000000000000)) (RA out).
Proof.
  apply (relative_amplitude_scenario_C scenario_C 1).
  - unfold scenario_C. apply Forall_flat_map, Forall_forall. intros h _.
    repeat constructor.
  - unfold scenario_C. apply Forall_flat_map, Forall_forall. intros h Hh.
    apply in_seq in Hh. repeat constructor; cbn [Hour epoch]; lia.
  - intros h Hh.
    assert (Hcases : In h hours24) by (apply hours24_In; exact Hh).
    vm_compute in Hcases.
    repeat (destruct Hcases as [<- | Hcases]; [vm_compute; reflexivity|]).
    destruct Hcases.
Defined.

(** ** Labels that do not occur in the table *)

(** A night scored without a single Wake epoch. *)
Definition all_sleep : DataFrame :=
  [epoch "w1" 1 23 "Rest" "Sleep" 0;
   epoch "w1" 1 23 "Rest" "Sleep" 0;
   epoch "w1" 2 0 "Rest" "Sleep" 0].

(** C1, at a table without Wake epochs.  The pivot has a column only for a
    classification that occurs somewhere in the table: here it has the one
    column Sleep, and [sleep_metrics] raises [KeyError] on reading Wake
    where a Wake count of zero was to be read. *)
Theorem sleep_metrics_without_wake_epoch :
  column_names (sleep_wake_pivot all_sleep) = ["Sleep"]
  /\ loc (sleep_wake_pivot all_sleep) "Sleep" = Ok [2; 1]
  /\ sleep_metrics all_sleep 30 = Raise (KeyError ["Wake"]).
Proof. repeat split; vm_compute; reflexivity. Qed.

(** A day with a Falling_Asleep phase and no Waking_Up phase anywhere. *)
Definition no_waking_up : DataFrame :=
  [epoch "w1" 1 21 "Active" "Wake" 30;
   epoch "w1" 1 22 "Falling_Asleep" "Wake" 4;
   epoch "w1" 1 22 "Falling_Asleep" "Sleep" 0;
   epoch "w1" 1 23 "Rest" "Sleep" 0].

(** C5, at a table with Falling_Asleep epochs and no Waking_Up epoch.
    [sleep_latency] returns a table, and that table has the column
    Sleep_Latency_Min alone: the day gets no Wake_Latency_Min of 0, the
    column does not exist. *)
Theorem sleep_latency_without_waking_up :
  sleep_latency no_waking_up 30
  = Ok (Some {| sl_Split_Day := [1];
                sl_columns := [("Sleep_Latency_Min", [1%float])];
                sl_watch_ID := ["w1"] |}).
Proof. vm_compute. reflexivity. Qed.

(** One day with an epoch in every hour but hour 0, activity 1 each. *)
Definition no_midnight : DataFrame :=
  map (fun h => epoch "w1" 1 (Z.of_nat h) "Active" "Wake" 1) (seq 1 23).

(** C2, at a table in which hour 0 never occurs, with [start_hour = 12].
    The slice takes [start_hour] as a position in the list of the hours that
    occur, so the sequence starts at hour 13 and hour 12 comes last, after
    the hours before the start hour; the day's rows are ordered that way. *)
Theorem cyclic_hours_without_midnight :
  cyclic_hours no_midnight 12
  = [13; 14; 15; 16; 17; 18; 19; 20; 21; 22; 23;
     1; 2; 3; 4; 5; 6; 7; 8; 9; 10; 11; 12]
  /\ (rows <- rest_phase no_midnight 12 ;; Ok (map rp_Hour rows))
     = Ok [13; 14; 15; 16; 17; 18; 19; 20; 21; 22; 23;
           1; 2; 3; 4; 5; 6; 7; 8; 9; 10; 11; 12].
Proof. split; vm_compute; reflexivity. Qed.

(** ** What holds of the pivot and of the hour order on every table *)

Lemma count_epochs_zero (df : DataFrame) (k : Z * string) (c : string) :
  count_epochs df k c = 0
  <-> ~ exists r, In r df /\ (Split_Day r, Interval r) = k /\ Sleep_Acti r = c.
Proof.
  split.
  - intros Hz [r [Hr [Hk Hc]]]. unfold count_epochs in Hz.
    assert (Hin : In r (filter (fun r => key_eqb ((Split_Day r, Interval r), Sleep_Acti r)
                                                 (k, c)) df)).
    { apply filter_In. split; [exact Hr|]. apply key_eqb_eq. congruence. }
    destruct (filter _ df); [destruct Hin | discriminate].
  - intro Hno. pose proof (count_epochs_pos df k c) as Hpos.
    assert (Hge : 0 <= count_epochs df k c) by (unfold count_epochs; lia).
    destruct (Z.eq_dec (count_epochs df k c) 0) as [E|E]; [exact E|].
    exfalso. apply Hno. apply Hpos. lia.
Qed.

(** The pivot of the reducers: one row per (Split_Day, Interval) pair that
    occurs, one column per Sleep_Acti value that occurs, and in every cell
    the number of epochs of that combination, which is 0 exactly when the
    combination does not occur; no cell is missing. *)
Theorem sleep_wake_pivot_zero_filled (df : DataFrame) :
  index (sleep_wake_pivot df)
  = group_keys (map (fun r => (Split_Day r, Interval r)) df)
  /\ column_names (sleep_wake_pivot df) = group_keys (map Sleep_Acti df)
  /\ Forall (fun c => loc (sleep_wake_pivot df) c
                      = Ok (map (fun k => count_epochs df k c)
                                (index (sleep_wake_pivot df))))
            (column_names (sleep_wake_pivot df))
  /\ Forall (fun c => loc (unstack (sleep_wake_counts df)) c
                      = Ok (map (fun k => if count_epochs df k c =? 0 then None
                                          else Some (count_epochs df k c))
                                (index (sleep_wake_pivot df))))
            (column_names (sleep_wake_pivot df)).
Proof.
  split; [apply sleep_wake_pivot_index|].
  split; [apply sleep_wake_pivot_columns|].
  rewrite sleep_wake_pivot_columns, sleep_wake_pivot_index.
  split; apply Forall_forall; intros c Hc.
  - rewrite sleep_wake_pivot_eq. unfold loc. cbn [columns].
    rewrite (assoc_map (fun c => map (fun k => count_epochs df k c) _)).
    apply contains_In in Hc. rewrite Hc. reflexivity.
  - pose proof (sleep_wake_pivot_index df) as Hi.
    pose proof (sleep_wake_pivot_columns df) as Hn.
    unfold sleep_wake_pivot, frame_map, column_names, unstack in Hi, Hn.
    cbn [index columns] in Hi, Hn. rewrite !map_map in Hn. cbn [fst] in Hn.
    rewrite map_id in Hn.
    unfold loc, unstack. cbn [columns]. rewrite Hi, Hn.
    rewrite (assoc_map (fun c => map (fun k => lookup (k, c) (sleep_wake_counts df)) _)).
    apply contains_In in Hc. rewrite Hc. f_equal.
    apply map_ext. intro k.
    rewrite sleep_wake_counts_eq.
    rewrite (lookup_map (fun kc => count_epochs df (fst kc) (snd kc))).
    cbn [fst snd].
    destruct (contains (k, c) _) eqn:E.
    + destruct (count_epochs df k c =? 0) eqn:Ez; [|reflexivity].
      exfalso. apply Z.eqb_eq in Ez. apply count_epochs_zero in Ez. apply Ez.
      apply (proj1 (contains_In _ _)) in E.
      apply (proj1 (group_keys_In _ _)) in E.
      apply (proj1 (in_map_iff _ _ _)) in E. destruct E as [r [Er Hr]].
      exists r. inversion Er. auto.
    + destruct (count_epochs df k c =? 0) eqn:Ez; [reflexivity|].
      exfalso. apply Z.eqb_neq in Ez. apply Ez. apply count_epochs_zero.
      intros [r [Hr [Hk Hc']]]. apply contains_false in E. apply E.
      apply group_keys_In. rewrite <- Hk, <- Hc'.
      apply (in_map (fun r => ((Split_Day r, Interval r), Sleep_Acti r))). exact Hr.
Qed.

(** The Rest phases of the table, one per day that has one. *)
Lemma rest_rows_nonempty (df : DataFrame) :
  filter (fun k : Z * string => key_eqb (snd k) "Rest")
         (group_keys (map (fun r => (Split_Day r, Interval r)) df)) <> []
  <-> has_interval df "Rest".
Proof.
  split.
  - intro Hne.
    destruct (filter _ _) as [|k ks] eqn:F; [congruence|].
    assert (Hk : In k (k :: ks)) by (left; reflexivity).
    rewrite <- F in Hk. apply filter_In in Hk. destruct Hk as [Hk Hrest].
    apply key_eqb_eq in Hrest. apply (proj1 (group_keys_In _ _)) in Hk.
    apply (proj1 (in_map_iff _ _ _)) in Hk. destruct Hk as [r [E Hr]].
    exists r. split; [exact Hr|]. rewrite <- Hrest, <- E. reflexivity.
  - intros [r [Hr E]] F.
    assert (Hin : In (Split_Day r, Interval r)
                     (filter (fun k : Z * string => key_eqb (snd k) "Rest")
                             (group_keys (map (fun r => (Split_Day r, Interval r)) df)))).
    { apply filter_In. split.
      - apply group_keys_In. apply (in_map (fun r => (Split_Day r, Interval r))).
        exact Hr.
      - cbn [snd]. rewrite E. reflexivity. }
    rewrite F in Hin. exact Hin.
Qed.

Lemma sleep_metrics_cases (df : DataFrame) (rec_freq : Z) :
  let rest_days :=
    filter (fun k : Z * string => key_eqb (snd k) "Rest")
           (group_keys (map (fun r => (Split_Day r, Interval r)) df)) in
  match sleep_metrics df rec_freq with
  | Ok out =>
      In "Sleep" (map Sleep_Acti df) /\ In "Wake" (map Sleep_Acti df)
      /\ has_interval df "Rest"
      /\ sm_index out = rest_days
      /\ (exists minutes,
            py_truediv rec_freq 60 = Ok minutes
            /\ (0 <= rec_freq < 2 ^ 53 -> minutes = (Z2F rec_freq / 60)%float)
            /\ TST_Min out
               = map (fun k => (Z2F (count_epochs df k "Sleep") * minutes)%float)
                     rest_days
            /\ WASO_Min out
               = map (fun k => (Z2F (count_epochs df k "Wake") * minutes)%float)
                     rest_days)
      /\ SE out
         = map (fun k => (100 * (Z2F (count_epochs df k "Sleep")
                                 / Z2F (count_epochs df k "Sleep"
                                        + count_epochs df k "Wake")))%float)
               rest_days
      /\ stamped_with_first df (sm_watch_ID out) (List.length rest_days)
  | Raise e =>
      (e = KeyError ["Sleep"] /\ ~ In "Sleep" (map Sleep_Acti df))
      \/ (e = OverflowError /\ In "Sleep" (map Sleep_Acti df)
          /\ py_truediv rec_freq 60 = Raise OverflowError)
      \/ (e = KeyError ["Wake"] /\ In "Sleep" (map Sleep_Acti df)
          /\ ~ In "Wake" (map Sleep_Acti df))
      \/ (e = ValueError /\ In "Sleep" (map Sleep_Acti df)
          /\ In "Wake" (map Sleep_Acti df) /\ ~ has_interval df "Rest")
  end.
Proof.
  intro rest_days. pose proof (rest_rows_nonempty df) as Hrest.
  fold rest_days in Hrest. unfold sleep_metrics.
  rewrite !loc_filtered_pivot, filtered_pivot_index. fold rest_days.
  destruct (contains "Sleep" _) eqn:Es.
  2:{ cbn [bind]. left. split; [reflexivity|].
      apply contains_false in Es. rewrite group_keys_In in Es. exact Es. }
  cbn [bind].
  apply (proj1 (contains_In _ _)) in Es. apply (proj1 (group_keys_In _ _)) in Es.
  destruct (py_truediv_60 rec_freq) as [[minutes Hm] | Hover].
  2:{ rewrite Hover. cbn [bind]. right. left. auto. }
  rewrite Hm. cbn [bind].
  destruct (contains "Wake" _) eqn:Ew.
  2:{ cbn [bind]. right. right. left. split; [reflexivity|]. split; [exact Es|].
      apply contains_false in Ew. rewrite group_keys_In in Ew. exact Ew. }
  cbn [bind].
  apply (proj1 (contains_In _ _)) in Ew. apply (proj1 (group_keys_In _ _)) in Ew.
  destruct df as [|r0 df0]; [destruct Es|].
  rewrite first_watch_ID_cons. cbn [bind].
  destruct rest_days as [|k ks] eqn:Erd.
  { cbn [assign_scalar bind]. right. right. right.
    split; [reflexivity|]. split; [exact Es|]. split; [exact Ew|].
    intro Hhas. apply Hrest in Hhas. congruence. }
  rewrite assign_scalar_ok by discriminate.
  cbn [bind sm_index TST_Min WASO_Min SE sm_watch_ID].
  split; [exact Es|]. split; [exact Ew|].
  split; [apply Hrest; discriminate|].
  split; [reflexivity|]. split.
  { exists minutes. split; [reflexivity|]. split.
    - intro Hsmall. rewrite (py_truediv_small _ Hsmall) in Hm. congruence.
    - rewrite !map_map. split; reflexivity. }
  split.
  { apply (map2_map (fun s w => (100 * (Z2F s / Z2F (s + w)))%float)). }
  exists (watch_ID r0). repeat split. apply map_const_repeat.
Qed.


(** The cyclic sequence of the 24 hours that starts at [start]. *)
Definition hours_from (start : Z) : list Z :=
  map (fun i => (start + Z.of_nat i) mod 24) (seq 0 24).

(** One day with one epoch in every hour. *)
Definition full_day : DataFrame :=
  map (fun h => epoch "w1" 1 (Z.of_nat h) "Active" "Wake" 1) (seq 0 24).

(** When every hour of the day occurs in the table, the hour order of
    [relative_amplitude] is the cyclic sequence that starts at the start
    hour: the hours from the start hour up to 23, then the hours before the
    start hour. *)
Theorem cyclic_hours_full_table (df : DataFrame) (start_hour : Z) :
  group_keys (map Hour df) = hours24 ->
  0 <= start_hour <= 23 ->
  cyclic_hours df start_hour = hours_from start_hour
  /\ cyclic_hours df start_hour
     = (filter (fun h => start_hour <=? h) hours24
        ++ filter (fun h => h <? start_hour) hours24)%list.
Proof.
  intros Hhours Hstart. unfold cyclic_hours.
  rewrite sorted_unique, Hhours.
  assert (Hcases : In start_hour hours24) by (apply hours24_In; exact Hstart).
  vm_compute in Hcases.
  repeat (destruct Hcases as [<- | Hcases]; [split; vm_compute; reflexivity|]).
  destruct Hcases.
Qed.

Lemma cyclic_hours_full_table_witness :
  cyclic_hours full_day 22 = hours_from 22
  /\ cyclic_hours full_day 22
     = (filter (fun h => 22 <=? h) hours24
        ++ filter (fun h => h <? 22) hours24)%list.
Proof.
  apply (cyclic_hours_full_table full_day 22).
  - vm_compute. reflexivity.
  - lia.
Defined.

(** ** The transition phases of sleep_latency *)

Lemma NoDup_map_on {A B : Type} (g : A -> B) (l : list A) :
  NoDup l -> (forall x y, In x l -> In y l -> g x = g y -> x = y) ->
  NoDup (map g l).
Proof.
  induction 1 as [|x l Hx Hl IH]; intro Hinj; cbn [map]; constructor.
  - intro Hin. apply (proj1 (in_map_iff _ _ _)) in Hin.
    destruct Hin as [y [E Hy]]. apply Hx.
    rewrite <- (Hinj y x (or_intror Hy) (or_introl eq_refl) E). exact Hy.
  - apply IH. intros a b Ha Hb. apply Hinj; right; assumption.
Qed.

Lemma lookup_map_on {K K' V : Type} `{Ord K} `{Ord K'} (g : K -> K') (v : K -> V)
      (k0 : K) (l : list K) :
  (forall k, In k l -> g k = g k0 -> k = k0) ->
  lookup (g k0) (map (fun k => (g k, v k)) l)
  = if contains k0 l then Some (v k0) else None.
Proof.
  induction l as [|k l IH]; intro Hinj; [reflexivity|].
  cbn [map lookup contains existsb].
  destruct (key_eqb (g k0) (g k)) eqn:E.
  - apply key_eqb_eq in E. rewrite (Hinj k (or_introl eq_refl) (eq_sym E)).
    rewrite key_eqb_refl. reflexivity.
  - assert (Hne : key_eqb k0 k = false).
    { apply key_eqb_neq. intro Ek. subst k. rewrite key_eqb_refl in E.
      discriminate. }
    rewrite Hne. cbn [orb]. apply IH.
    intros k' Hk'. apply Hinj. right. exact Hk'.
Qed.

Lemma filter_rows_column_names {K V : Type} (p : K -> bool) (fr : Frame K V) :
  column_names (filter_rows p fr) = column_names fr.
Proof.
  unfold column_names, filter_rows. cbn [columns]. rewrite map_map.
  apply map_ext. reflexivity.
Qed.

(** The (Split_Day, Interval) pairs that occur in the table. *)
Definition day_phases (df : DataFrame) : list (Z * string) :=
  group_keys (map (fun r => (Split_Day r, Interval r)) df).

Definition is_transition (interval : string) : bool :=
  contains interval ["Falling_Asleep"; "Waking_Up"].

(** The latency of a phase on a day, for [minutes] minutes per epoch: the
    number of the phase's epochs that are classified Sleep or Wake, times
    [minutes]; 0 on a day without that phase. *)
Definition phase_latency (df : DataFrame) (minutes : float) (phase : string) (d : Z)
  : float :=
  if contains (d, phase) (day_phases df)
  then fillna 0 (Some (Z2F (count_epochs df (d, phase) "Sleep"
                            + count_epochs df (d, phase) "Wake")
                       * minutes)%float)
  else 0%float.

Lemma is_transition_cases (i : string) :
  is_transition i = true -> i = "Falling_Asleep" \/ i = "Waking_Up".
Proof.
  unfold is_transition. intro Hi. apply (proj1 (contains_In _ _)) in Hi.
  destruct Hi as [<- | [<- | []]]; auto.
Qed.

Lemma latency_label_inj (i j : string) :
  is_transition i = true -> is_transition j = true ->
  latency_label i = latency_label j -> i = j.
Proof.
  intros Hi Hj. apply is_transition_cases in Hi, Hj.
  destruct Hi as [-> | ->], Hj as [-> | ->]; vm_compute; congruence.
Qed.

(** The transition phases (Falling_Asleep, Waking_Up) of each day. *)
Definition transitions (df : DataFrame) : list (Z * string) :=
  filter (fun k => is_transition (snd k)) (day_phases df).

Definition latency_of (df : DataFrame) (minutes : float) (k : Z * string) : float :=
  (Z2F (count_epochs df k "Sleep" + count_epochs df k "Wake") * minutes)%float.

Definition entry_key (k : Z * string) : Z * string :=
  (fst k, latency_label (snd k)).

Lemma first_watch_ID_hd (df : DataFrame) :
  df <> [] -> exists w, hd_error (map watch_ID df) = Some w
                        /\ first_watch_ID df = Ok w.
Proof.
  destruct df as [|r0 df0]; [congruence|]. intros _.
  exists (watch_ID r0). split; reflexivity.
Qed.

Section Transitions.
Variable df : DataFrame.
Variable minutes : float.

Lemma transitions_In (k : Z * string) :
  In k (transitions df)
  <-> is_transition (snd k) = true
      /\ exists r, In r df /\ Split_Day r = fst k /\ Interval r = snd k.
Proof.
  unfold transitions, day_phases. rewrite filter_In, group_keys_In, in_map_iff.
  split.
  - intros [[r [E Hr]] Ht]. split; [exact Ht|]. exists r. subst k. auto.
  - intros [Ht [r [Hr [E1 E2]]]]. split; [|exact Ht]. exists r.
    split; [|exact Hr]. destruct k. cbn [fst snd] in *. congruence.
Qed.

Lemma entry_key_inj (k k' : Z * string) :
  In k (transitions df) -> In k' (transitions df) -> entry_key k = entry_key k' -> k = k'.
Proof.
  intros Hk Hk' E. apply transitions_In in Hk, Hk'.
  destruct k as [d i], k' as [d' i']. unfold entry_key in E.
  cbn [fst snd] in *. inversion E. f_equal.
  apply latency_label_inj; tauto.
Qed.

Lemma transition_days :
  group_keys (map fst (transitions df))
  = group_keys (map Split_Day (filter (fun r => is_transition (Interval r)) df)).
Proof.
  apply StrictSorted_ext; try apply group_keys_sorted.
  intro d. rewrite !group_keys_In, !in_map_iff. split.
  - intros [k [<- Hk]]. apply transitions_In in Hk.
    destruct Hk as [Ht [r [Hr [E1 E2]]]]. exists r. split; [exact E1|].
    apply filter_In. split; [exact Hr|]. rewrite E2. exact Ht.
  - intros [r [<- Hr]]. apply filter_In in Hr. destruct Hr as [Hr Ht].
    exists (Split_Day r, Interval r). split; [reflexivity|].
    apply transitions_In. split; [exact Ht|]. exists r. auto.
Qed.

Lemma transition_cell (d : Z) (phase : string) :
  is_transition phase = true ->
  fillna 0 (lookup (d, latency_label phase)
                   (map (fun k => (entry_key k, latency_of df minutes k)) (transitions df)))
  = phase_latency df minutes phase d.
Proof.
  intro Ht.
  change (d, latency_label phase) with (entry_key (d, phase)).
  rewrite (lookup_map_on entry_key (latency_of df minutes)).
  - unfold phase_latency.
    assert (Hc : contains (d, phase) (transitions df)
                 = contains (d, phase) (day_phases df)).
    { destruct (contains (d, phase) (day_phases df)) eqn:E.
      - apply contains_In. apply (proj1 (contains_In _ _)) in E.
        unfold transitions. apply filter_In. split; [exact E | exact Ht].
      - apply contains_false. apply contains_false in E. intro Hin. apply E.
        unfold transitions in Hin. apply filter_In in Hin. tauto. }
    rewrite Hc. destruct (contains (d, phase) (day_phases df)); reflexivity.
  - intros k Hk E. destruct k as [d' i]. unfold entry_key in E.
    cbn [fst snd] in E. inversion E. f_equal.
    apply transitions_In in Hk. cbn [snd] in Hk.
    apply latency_label_inj; tauto.
Qed.

(** The rows [sleep_latency] keeps, and what it reads from them. *)
Lemma latency_filter_loc (c : string) :
  loc (filter_rows (fun k : Z * string =>
                      contains (snd k) ["Falling_Asleep"; "Waking_Up"])
                   (sleep_wake_pivot df)) c
  = if contains c (group_keys (map Sleep_Acti df))
    then Ok (map (fun k => count_epochs df k c) (transitions df))
    else Raise (KeyError [c]).
Proof. exact (loc_filtered_pivot df _ c). Qed.

Lemma latency_filter_index :
  index (filter_rows (fun k : Z * string =>
                        contains (snd k) ["Falling_Asleep"; "Waking_Up"])
                     (sleep_wake_pivot df))
  = transitions df.
Proof.
  unfold filter_rows. cbn [index]. rewrite select_filter, sleep_wake_pivot_index.
  reflexivity.
Qed.

(** The rows handed to [pivot]: one per transition phase of a day. *)
Definition latency_entries : list ((Z * string) * float) :=
  map (fun k => (entry_key k, latency_of df minutes k)) (transitions df).

Lemma latency_entries_eq :
  combine (combine (map fst (transitions df))
                   (map (fun k => latency_label (snd k)) (transitions df)))
          (map2 (fun s w => (Z2F (s + w) * minutes)%float)
                (map (fun k => count_epochs df k "Sleep") (transitions df))
                (map (fun k => count_epochs df k "Wake") (transitions df)))
  = latency_entries.
Proof.
  rewrite map2_map, (combine_map fst (fun k => latency_label (snd k))).
  rewrite (combine_map (fun k => (fst k, latency_label (snd k)))).
  reflexivity.
Qed.

End Transitions.

(** ** Sorting rows by a key *)

Section SortBy.
Context {K : Type} `{Ord K}.

Lemma insert_by_In {A : Type} (key : A -> K) (x y : A) (s : list A) :
  In y (insert_by key x s) <-> y = x \/ In y s.
Proof.
  induction s as [|u s IH]; cbn [insert_by].
  - cbn [In]. intuition.
  - destruct (cmp (key x) (key u)); cbn [In]; try rewrite IH; intuition.
Qed.

Lemma sort_values_In {A : Type} (key : A -> K) (y : A) (l : list A) :
  In y (sort_values key l) <-> In y l.
Proof.
  induction l as [|x l IH]; [reflexivity|].
  cbn [sort_values fold_right]. fold (sort_values key l).
  rewrite insert_by_In, IH. cbn [In]. intuition.
Qed.

Lemma insert_by_strict {A : Type} (key : A -> K) (x : A) (s : list A) :
  StrictSorted (map key s) -> ~ In (key x) (map key s) ->
  StrictSorted (map key (insert_by key x s)).
Proof.
  unfold StrictSorted. induction s as [|u s IH]; cbn [insert_by map]; intros Hs Hx.
  - constructor; constructor.
  - inversion Hs as [|? ? Hs' Hu]; subst.
    destruct (cmp (key x) (key u)) eqn:E; cbn [map].
    + exfalso. apply Hx. left. symmetry. apply cmp_eq. exact E.
    + constructor; [exact Hs|]. constructor; [exact E|].
      rewrite Forall_forall in *. intros z Hz.
      exact (cmp_trans _ _ _ E (Hu z Hz)).
    + constructor.
      * apply IH; [exact Hs'|]. intro Hin. apply Hx. right. exact Hin.
      * rewrite Forall_forall in *. intros z Hz.
        apply (proj1 (in_map_iff _ _ _)) in Hz. destruct Hz as [a [<- Ha]].
        apply insert_by_In in Ha. destruct Ha as [-> | Ha].
        -- apply cmp_gt_lt. exact E.
        -- apply Hu. apply in_map. exact Ha.
Qed.

(** Rows with pairwise distinct keys come out in strictly increasing key
    order. *)
Lemma sort_values_strict {A : Type} (key : A -> K) (l : list A) :
  NoDup (map key l) -> StrictSorted (map key (sort_values key l)).
Proof.
  induction l as [|x l IH]; cbn [map]; intro Hnd.
  - constructor.
  - inversion Hnd as [|? ? Hx Hl]; subst.
    cbn [sort_values fold_right]. fold (sort_values key l).
    apply insert_by_strict; [apply IH; exact Hl|].
    intro Hin. apply Hx. apply (proj1 (in_map_iff _ _ _)) in Hin.
    destruct Hin as [a [E Ha]]. rewrite <- E. apply in_map.
    apply sort_values_In in Ha. exact Ha.
Qed.

(** Two lists with the same rows, each in strictly increasing key order,
    are the same list. *)
Lemma sorted_by_ext {A : Type} (key : A -> K) (l1 l2 : list A) :
  StrictSorted (map key l1) -> StrictSorted (map key l2) ->
  (forall x, In x l1 <-> In x l2) -> l1 = l2.
Proof.
  unfold StrictSorted. revert l2.
  induction l1 as [|x l1 IH]; intros l2 H1 H2 Hin.
  - destruct l2 as [|y l2]; [reflexivity|].
    exfalso. apply (Hin y). left. reflexivity.
  - destruct l2 as [|y l2].
    + exfalso. apply (Hin x). left. reflexivity.
    + cbn [map] in H1, H2.
      inversion H1 as [|? ? Hs1 Hx]; subst.
      inversion H2 as [|? ? Hs2 Hy]; subst.
      rewrite Forall_forall in Hx, Hy.
      assert (Hlt1 : forall z, In z l1 -> lt_key (key x) (key z))
        by (intros z Hz; apply Hx, in_map, Hz).
      assert (Hlt2 : forall z, In z l2 -> lt_key (key y) (key z))
        by (intros z Hz; apply Hy, in_map, Hz).
      assert (x = y) as ->.
      { destruct (proj1 (Hin x) (or_introl eq_refl)) as [E|Hx2];
          [congruence|].
        destruct (proj2 (Hin y) (or_introl eq_refl)) as [E|Hy1];
          [congruence|].
        exfalso. apply (lt_key_irrefl (key x)).
        exact (cmp_trans _ _ _ (Hlt1 y Hy1) (Hlt2 x Hx2)). }
      f_equal. apply IH; [exact Hs1 | exact Hs2 |].
      intro z. split; intro Hz.
      * destruct (proj1 (Hin z) (or_intror Hz)) as [E|Hz2]; [|exact Hz2].
        subst z. exfalso. exact (lt_key_irrefl _ (Hlt1 y Hz)).
      * destruct (proj2 (Hin z) (or_intror Hz)) as [E|Hz1]; [|exact Hz1].
        subst z. exfalso. exact (lt_key_irrefl _ (Hlt2 y Hz)).
Qed.

Lemma StrictSorted_app (l1 l2 : list K) :
  StrictSorted l1 -> StrictSorted l2 ->
  (forall x y, In x l1 -> In y l2 -> lt_key x y) ->
  StrictSorted (l1 ++ l2).
Proof.
  unfold StrictSorted. induction 1 as [|x l1 Hl1 IH Hx]; intros H2 Hlt.
  - exact H2.
  - cbn [app]. constructor.
    + apply IH; [exact H2|]. intros a b Ha Hb. apply Hlt; [right|]; assumption.
    + apply Forall_app. split; [exact Hx|].
      apply Forall_forall. intros y Hy. apply Hlt; [left; reflexivity | exact Hy].
Qed.

(** The rows of a key among chunks that each hold the rows of one key. *)
Lemma filter_chunks {A : Type} (key : A -> K) (chunk : K -> list A)
      (ks : list K) (k : K) :
  NoDup ks -> In k ks ->
  (forall k', In k' ks -> forall a, In a (chunk k') -> key a = k') ->
  filter (fun a => key_eqb (key a) k) (flat_map chunk ks) = chunk k.
Proof.
  induction 1 as [|k0 ks Hk0 Hnd IH]; intros Hk Hkey; [destruct Hk|].
  cbn [flat_map]. rewrite filter_app.
  assert (Hnone : forall ks', (forall k', In k' ks' -> k' <> k) ->
                              (forall k', In k' ks' -> In k' (k0 :: ks)) ->
                              filter (fun a => key_eqb (key a) k) (flat_map chunk ks') = []).
  { induction ks' as [|k1 ks' IH']; intros Hne Hsub; [reflexivity|].
    cbn [flat_map]. rewrite filter_app, IH'.
    - rewrite app_nil_r.
      assert (Hall : forall a, In a (chunk k1) -> key_eqb (key a) k = false).
      { intros a Ha. apply key_eqb_neq.
        rewrite (Hkey k1 (Hsub k1 (or_introl eq_refl)) a Ha).
        apply Hne. left. reflexivity. }
      induction (chunk k1) as [|a c IHc]; [reflexivity|].
      cbn [filter]. rewrite (Hall a (or_introl eq_refl)).
      apply IHc. intros b Hb. apply Hall. right. exact Hb.
    - intros k' Hk'. apply Hne. right. exact Hk'.
    - intros k' Hk'. apply Hsub. right. exact Hk'. }
  destruct Hk as [-> | Hk].
  - rewrite (Hnone ks).
    + rewrite app_nil_r. apply filter_all. intros a Ha.
      apply key_eqb_eq. apply (Hkey k (or_introl eq_refl)). exact Ha.
    + intros k' Hk' E. subst k'. contradiction.
    + intros k' Hk'. right. exact Hk'.
  - rewrite IH; [|exact Hk|].
    + pose proof (Hnone [k0]) as Hone. cbn [flat_map] in Hone.
      rewrite app_nil_r in Hone. rewrite Hone; [reflexivity | |].
      * intros k' [<- | []] E. apply Hk0. rewrite E. exact Hk.
      * intros k' [<- | []]. left. reflexivity.
    + intros k' Hk'. apply Hkey. right. exact Hk'.
Qed.

(** Grouping a list made of one non-empty chunk per key, the keys in
    increasing order, gives back the chunks. *)
Lemma groupby_chunks {A : Type} (key : A -> K) (chunk : K -> list A) (ks : list K) :
  StrictSorted ks ->
  (forall k, In k ks -> chunk k <> []) ->
  (forall k, In k ks -> forall a, In a (chunk k) -> key a = k) ->
  groupby key (flat_map chunk ks) = map (fun k => (k, chunk k)) ks.
Proof.
  intros Hs Hne Hkey. unfold groupby.
  assert (Hkeys : group_keys (map key (flat_map chunk ks)) = ks).
  { apply StrictSorted_ext; [apply group_keys_sorted | exact Hs |].
    intro k. rewrite group_keys_In, in_map_iff. split.
    - intros [a [<- Ha]]. apply in_flat_map in Ha. destruct Ha as [k' [Hk' Ha]].
      rewrite (Hkey k' Hk' a Ha). exact Hk'.
    - intro Hk. destruct (chunk k) as [|a c] eqn:E; [destruct (Hne k Hk E)|].
      exists a. split.
      + apply (Hkey k Hk). rewrite E. left. reflexivity.
      + apply in_flat_map. exists k. split; [exact Hk|]. rewrite E. left. reflexivity. }
  rewrite Hkeys. apply map_ext_in. intros k Hk. f_equal.
  apply filter_chunks; [apply StrictSorted_NoDup; exact Hs | exact Hk | exact Hkey].
Qed.

End SortBy.

(** ** Positions in a list *)

Section IndexOf.
Context {K : Type} `{Ord K}.

(** The position [xs.index(x)] returns, 0 standing in where Python raises. *)
Definition position (l : list K) (x : K) : nat :=
  match index_of x l with
  | Some o => o
  | None => O
  end.

Lemma index_of_In (x : K) (l : list K) :
  In x l -> index_of x l = Some (position l x).
Proof.
  unfold position. induction l as [|y l IH]; intro Hx; [destruct Hx|].
  cbn [index_of]. destruct (key_eqb x y) eqn:E; [reflexivity|].
  destruct Hx as [-> | Hx]; [rewrite key_eqb_refl in E; discriminate|].
  rewrite (IH Hx). reflexivity.
Qed.

Lemma index_of_app (pre l : list K) (x : K) :
  ~ In x pre ->
  index_of x (pre ++ l) = option_map (Nat.add (List.length pre)) (index_of x l).
Proof.
  induction pre as [|y pre IH]; intro Hx; cbn [app index_of List.length].
  - destruct (index_of x l); reflexivity.
  - destruct (key_eqb x y) eqn:E.
    + apply key_eqb_eq in E. subst y. exfalso. apply Hx. left. reflexivity.
    + rewrite IH by (intro Hin; apply Hx; right; exact Hin).
      destruct (index_of x l); reflexivity.
Qed.

Lemma positions_increase (p : K -> bool) (l pre : list K) :
  NoDup (pre ++ l) ->
  StrictSorted (map (position (pre ++ l)) (filter p l))
  /\ Forall (fun o => (List.length pre <= o)%nat)
            (map (position (pre ++ l)) (filter p l)).
Proof.
  revert pre. induction l as [|x l IH]; intros pre Hnd.
  - split; constructor.
  - assert (Hx : ~ In x pre).
    { intro Hin. apply NoDup_remove_2 in Hnd. apply Hnd.
      apply in_or_app. left. exact Hin. }
    assert (Epos : position (pre ++ x :: l) x = List.length pre).
    { unfold position. rewrite index_of_app by exact Hx.
      cbn [index_of]. rewrite key_eqb_refl. cbn [option_map]. lia. }
    assert (Eapp : (pre ++ x :: l = (pre ++ [x]) ++ l)%list)
      by (rewrite <- app_assoc; reflexivity).
    destruct (IH (pre ++ [x])%list) as [Hs Hge]; [rewrite <- Eapp; exact Hnd|].
    rewrite <- Eapp in Hs, Hge. rewrite length_app in Hge. cbn [List.length] in Hge.
    cbn [filter]. destruct (p x); cbn [map].
    + split.
      * constructor; [exact Hs|]. rewrite Epos.
        rewrite Forall_forall in *. intros o Ho. specialize (Hge o Ho).
        unfold lt_key. cbn [cmp Ord_nat]. apply Nat.compare_lt_iff. lia.
      * constructor; [rewrite Epos; lia|].
        rewrite Forall_forall in *. intros o Ho. specialize (Hge o Ho). lia.
    + split; [exact Hs|].
      rewrite Forall_forall in *. intros o Ho. specialize (Hge o Ho). lia.
Qed.

(** Along a duplicate-free list the positions of its entries increase. *)
Lemma positions_sorted (p : K -> bool) (l : list K) :
  NoDup l -> StrictSorted (map (position l) (filter p l)).
Proof.
  intro Hnd. exact (proj1 (positions_increase p l [] Hnd)).
Qed.

Lemma position_inj (l : list K) (x y : K) :
  In x l -> In y l -> position l x = position l y -> x = y.
Proof.
  intros Hx Hy E.
  assert (Hnth : forall z o, index_of z l = Some o -> nth_error l o = Some z).
  { clear. induction l as [|u l IH]; intros z o Ho; [discriminate|].
    cbn [index_of] in Ho. destruct (key_eqb z u) eqn:Ez.
    - inversion Ho. apply key_eqb_eq in Ez. subst. reflexivity.
    - destruct (index_of z l) as [o'|] eqn:Ei; [|discriminate].
      inversion Ho. cbn [nth_error]. apply IH. exact Ei. }
  pose proof (Hnth x _ (index_of_In x l Hx)) as Nx.
  pose proof (Hnth y _ (index_of_In y l Hy)) as Ny.
  rewrite E in Nx. congruence.
Qed.

End IndexOf.

(** ** The hour order on every table *)

Lemma slices_rotate {A : Type} (i : Z) (l : list A) :
  Permutation (slice_from i l ++ slice_to i l)%list l.
Proof.
  unfold slice_from, slice_to.
  rewrite Permutation_app_comm, firstn_skipn. reflexivity.
Qed.

(** Whatever the start hour, also a negative one or one past the end, the
    hour order lists each hour of the table once. *)
Lemma cyclic_hours_Permutation (df : DataFrame) (start_hour : Z) :
  Permutation (cyclic_hours df start_hour) (group_keys (map Hour df)).
Proof.
  unfold cyclic_hours. rewrite <- sorted_unique. apply slices_rotate.
Qed.

Lemma cyclic_hours_NoDup (df : DataFrame) (start_hour : Z) :
  NoDup (cyclic_hours df start_hour).
Proof.
  apply (Permutation_NoDup (Permutation_sym (cyclic_hours_Permutation df start_hour))).
  apply group_keys_NoDup.
Qed.

Lemma cyclic_hours_In (df : DataFrame) (start_hour h : Z) :
  In h (cyclic_hours df start_hour) <-> In h (map Hour df).
Proof.
  split; intro Hh.
  - apply (proj1 (group_keys_In h (map Hour df))).
    exact (Permutation_in h (cyclic_hours_Permutation df start_hour) Hh).
  - apply (Permutation_in h (Permutation_sym (cyclic_hours_Permutation df start_hour))).
    apply (proj2 (group_keys_In h (map Hour df))). exact Hh.
Qed.

(** ** relative_amplitude on every table *)

Definition on_day_hour (d h : Z) (r : Epoch) : bool :=
  (Split_Day r =? d) && (Hour r =? h).

(** The activity of day [d] in hour [h], summed over its epochs in an
    [int64] column. *)
Definition hour_activity (df : DataFrame) (d h : Z) : Z :=
  sum_int64 (map Activity (filter (on_day_hour d h) df)).

(** The hours that occur on day [d], in the hour order of the call. *)
Definition day_hours (df : DataFrame) (start_hour d : Z) : list Z :=
  filter (fun h => existsb (on_day_hour d h) df) (cyclic_hours df start_hour).

(** The hourly activity sums of day [d], in that order. *)
Definition day_activity (df : DataFrame) (start_hour d : Z) : list Z :=
  map (hour_activity df d) (day_hours df start_hour d).

Definition day_rows (df : DataFrame) (start_hour d : Z) : list RestPhaseRow :=
  map (fun h => {| rp_Split_Day := d; rp_Hour := h;
                   rp_Activity := hour_activity df d h;
                   rp_Order := position (cyclic_hours df start_hour) h |})
      (day_hours df start_hour d).

Lemma key_eqb_day_hour (d h : Z) (r : Epoch) :
  key_eqb (Split_Day r, Hour r) (d, h) = on_day_hour d h r.
Proof.
  unfold key_eqb, on_day_hour. cbn [cmp Ord_pair]. unfold cmp_pair.
  cbn [fst snd cmp Ord_Z]. rewrite !Z.eqb_compare.
  destruct (Split_Day r ?= d); reflexivity.
Qed.

Lemma on_day_hour_exists (df : DataFrame) (d h : Z) :
  existsb (on_day_hour d h) df = true
  <-> In (d, h) (map (fun r => (Split_Day r, Hour r)) df).
Proof.
  rewrite existsb_exists, in_map_iff. unfold on_day_hour.
  split; intros [r Hr]; exists r.
  - destruct Hr as [Hr E]. apply andb_true_iff in E. destruct E as [E1 E2].
    apply Z.eqb_eq in E1, E2. subst. auto.
  - destruct Hr as [E Hr]. inversion E. rewrite !Z.eqb_refl. auto.
Qed.

Lemma mapM_ok {A B : Type} (f : A -> result B) (g : A -> B) (l : list A) :
  (forall a, In a l -> f a = Ok (g a)) -> mapM f l = Ok (map g l).
Proof.
  induction l as [|a l IH]; intro Hf; [reflexivity|].
  cbn [mapM map]. rewrite (Hf a (or_introl eq_refl)). cbn [bind].
  rewrite IH by (intros b Hb; apply Hf; right; exact Hb). reflexivity.
Qed.

Lemma hourly_activity_eq (df : DataFrame) :
  hourly_activity df
  = map (fun k => (k, hour_activity df (fst k) (snd k)))
        (group_keys (map (fun r => (Split_Day r, Hour r)) df)).
Proof.
  unfold hourly_activity, groupby. rewrite map_map. cbn [fst snd].
  apply map_ext. intros [d h]. f_equal. unfold hour_activity. do 2 f_equal.
  apply filter_ext. intro r. apply key_eqb_day_hour.
Qed.

Lemma day_rows_day (df : DataFrame) (start_hour d : Z) (r : RestPhaseRow) :
  In r (day_rows df start_hour d) -> rp_Split_Day r = d.
Proof.
  unfold day_rows. rewrite in_map_iff. intros [h [<- _]]. reflexivity.
Qed.

Lemma day_hours_nonempty (df : DataFrame) (start_hour d : Z) :
  In d (days df) -> day_hours df start_hour d <> [].
Proof.
  unfold days. rewrite group_keys_In, in_map_iff. intros [r [<- Hr]] E.
  assert (Hin : In (Hour r) (day_hours df start_hour (Split_Day r))).
  { unfold day_hours. apply filter_In. split.
    - apply cyclic_hours_In. apply in_map. exact Hr.
    - apply on_day_hour_exists.
      apply (in_map (fun r => (Split_Day r, Hour r))). exact Hr. }
  rewrite E in Hin. exact Hin.
Qed.

Lemma day_rows_sorted (df : DataFrame) (start_hour d : Z) :
  StrictSorted (map (fun r => (rp_Split_Day r, rp_Order r))
                    (day_rows df start_hour d)).
Proof.
  unfold day_rows. rewrite map_map. cbn [rp_Split_Day rp_Order].
  rewrite <- (map_map (position (cyclic_hours df start_hour)) (pair d)).
  apply StrictSorted_map_pair. unfold day_hours.
  apply positions_sorted, cyclic_hours_NoDup.
Qed.

Lemma chunks_sorted (chunk : Z -> list RestPhaseRow) (ks : list Z) :
  StrictSorted ks ->
  (forall k, StrictSorted (map (fun r => (rp_Split_Day r, rp_Order r)) (chunk k))) ->
  (forall k r, In r (chunk k) -> rp_Split_Day r = k) ->
  StrictSorted (map (fun r => (rp_Split_Day r, rp_Order r)) (flat_map chunk ks)).
Proof.
  intros Hs Hchunk Hday. induction Hs as [|k ks Hks IH Hk]; [constructor|].
  cbn [flat_map]. rewrite map_app. apply StrictSorted_app.
  - apply Hchunk.
  - exact IH.
  - intros x y Hx Hy.
    apply (proj1 (in_map_iff _ _ _)) in Hx, Hy.
    destruct Hx as [a [<- Ha]], Hy as [b [<- Hb]].
    apply in_flat_map in Hb. destruct Hb as [k' [Hk' Hb]].
    unfold lt_key. cbn [cmp Ord_pair]. unfold cmp_pair. cbn [fst snd].
    rewrite (Hday k a Ha), (Hday k' b Hb).
    rewrite Forall_forall in Hk. rewrite (Hk k' Hk'). reflexivity.
Qed.

(** The [rest_phase] table of every input: for each day in increasing
    order, one row per hour that occurs on that day, in the hour order of the
    call.  [hours.index] finds every hour, so nothing is raised. *)
Lemma rest_phase_eq (df : DataFrame) (start_hour : Z) :
  rest_phase df start_hour
  = Ok (flat_map (day_rows df start_hour) (days df)).
Proof.
  unfold rest_phase. cbv zeta. rewrite hourly_activity_eq.
  set (hours := cyclic_hours df start_hour).
  set (keys := group_keys (map (fun r => (Split_Day r, Hour r)) df)).
  set (row_of := fun k : Z * Z =>
                   {| rp_Split_Day := fst k; rp_Hour := snd k;
                      rp_Activity := hour_activity df (fst k) (snd k);
                      rp_Order := position hours (snd k) |}).
  assert (Hkeys : forall k, In k keys
                            <-> In k (map (fun r => (Split_Day r, Hour r)) df))
    by (intro k; apply group_keys_In).
  assert (Hhour : forall k, In k keys -> In (snd k) hours).
  { intros k Hk. apply Hkeys in Hk. apply (proj1 (in_map_iff _ _ _)) in Hk.
    destruct Hk as [r [<- Hr]]. cbn [snd]. apply cyclic_hours_In.
    apply in_map. exact Hr. }
  rewrite (mapM_ok _ (fun e : Z * Z * Z =>
                        {| rp_Split_Day := fst (fst e); rp_Hour := snd (fst e);
                           rp_Activity := snd e;
                           rp_Order := position hours (snd (fst e)) |})).
  2:{ intros e He. apply (proj1 (in_map_iff _ _ _)) in He.
      destruct He as [k [<- Hk]]. cbn [fst snd].
      rewrite (index_of_In _ _ (Hhour k Hk)). reflexivity. }
  cbn [bind]. f_equal. rewrite map_map. cbn [fst snd]. fold row_of.
  apply (sorted_by_ext (fun r => (rp_Split_Day r, rp_Order r))).
  - apply sort_values_strict. rewrite map_map. cbn [rp_Split_Day rp_Order fst snd].
    apply NoDup_map_on; [apply group_keys_NoDup|].
    intros [d h] [d' h'] Hk Hk' E. cbn [fst snd] in E. inversion E. f_equal.
    apply (position_inj hours); [exact (Hhour _ Hk) | exact (Hhour _ Hk') | assumption].
  - apply chunks_sorted.
    + apply group_keys_sorted.
    + intro d. apply day_rows_sorted.
    + intros d r. apply day_rows_day.
  - intro r. rewrite sort_values_In, in_map_iff, in_flat_map. split.
    + intros [[d h] [<- Hk]]. cbn [fst snd]. exists d. split.
      * apply Hkeys in Hk. apply (proj1 (in_map_iff _ _ _)) in Hk.
        destruct Hk as [q [E Hq]]. inversion E. subst d.
        apply group_keys_In. apply in_map. exact Hq.
      * unfold day_rows. apply in_map_iff. exists h. split; [reflexivity|].
        unfold day_hours. apply filter_In. split; [exact (Hhour _ Hk)|].
        apply on_day_hour_exists. apply Hkeys. exact Hk.
    + intros [d [Hd Hr]]. unfold day_rows in Hr.
      apply (proj1 (in_map_iff _ _ _)) in Hr. destruct Hr as [h [<- Hh]].
      exists (d, h). split; [reflexivity|].
      unfold day_hours in Hh. apply filter_In in Hh. destruct Hh as [_ Hh].
      apply Hkeys. apply on_day_hour_exists. exact Hh.
Qed.

(** *** The rolling sum *)

Lemma roll_sum_from_length (values : list float) (minp : Z)
      (prev : option (nat * nat)) (st : RollSum) (bounds : list (nat * nat)) :
  List.length (roll_sum_from values minp prev st bounds) = List.length bounds.
Proof.
  revert prev st. induction bounds as [|[s e] bounds IH]; intros prev st;
    cbn [roll_sum_from List.length]; [reflexivity|].
  rewrite IH. reflexivity.
Qed.

Lemma rolling_sum_length (w : nat) (l : list Z) :
  List.length (rolling_sum w l) = List.length l.
Proof.
  unfold rolling_sum, roll_sum, window_bounds.
  rewrite roll_sum_from_length, length_map, length_seq. reflexivity.
Qed.

(** Adding values raises the count by at most their number. *)
Lemma add_sum_nobs (v : float) (st : RollSum) : nobs (add_sum v st) <= nobs st + 1.
Proof. unfold add_sum. destruct (PrimFloat.eqb v v); cbn [nobs]; lia. Qed.

Lemma fold_add_sum_nobs (vs : list float) (st : RollSum) :
  nobs (fold_left (fun st v => add_sum v st) vs st)
  <= nobs st + Z.of_nat (List.length vs).
Proof.
  revert st. induction vs as [|v vs IH]; intro st; cbn [fold_left List.length].
  - lia.
  - specialize (IH (add_sum v st)). pose proof (add_sum_nobs v st). lia.
Qed.

Lemma values_between_length (values : list float) (lo hi : nat) :
  (List.length (values_between values lo hi) <= hi - lo)%nat.
Proof. unfold values_between. apply firstn_le_length. Qed.

(** A window with fewer values than [minp] has no sum. *)
Lemma calc_sum_nan (minp : Z) (st : RollSum) :
  nobs st < minp -> calc_sum minp st = nan.
Proof.
  intro Hlt. unfold calc_sum.
  destruct (nobs st =? 0) eqn:E0, (minp =? 0) eqn:Em; cbn [andb];
    try (apply Z.eqb_eq in E0, Em; lia);
    destruct (Z.leb_spec minp (nobs st)); try lia; reflexivity.
Qed.

(** While the window is filling up, the rolling sum is NaN. *)
Lemma roll_sum_warmup (values : list float) (w : nat) :
  forall (m k : nat) (prev : option (nat * nat)) (st : RollSum) (j : nat),
    match prev with
    | None => k = 0%nat
    | Some (s0, e0) => s0 = 0%nat /\ e0 = k /\ (0 < k)%nat /\ nobs st <= Z.of_nat k
    end ->
    (j < m)%nat -> (S (k + j) < w)%nat ->
    nth_error (roll_sum_from values (Z.of_nat w) prev st
                             (map (fun i => ((S i - w)%nat, S i)) (seq k m))) j
    = Some nan.
Proof.
  induction m as [|m IH]; intros k prev st j Hprev Hj Hw; [lia|].
  cbn [seq map roll_sum_from].
  replace (S k - w)%nat with 0%nat by lia.
  set (st' := match prev with
              | None => setup_sum values 0 (S k)
              | Some (s0, e0) =>
                  if (e0 <=? 0)%nat then setup_sum values 0 (S k)
                  else fold_left (fun st v => add_sum v st)
                                 (values_between values e0 (S k))
                                 (fold_left (fun st v => remove_sum v st)
                                            (values_between values s0 0) st)
              end).
  assert (Hnobs : nobs st' <= Z.of_nat (S k)).
  { subst st'. destruct prev as [[s0 e0]|].
    - destruct Hprev as [-> [-> [Hk Hst]]].
      destruct (Nat.leb_spec k 0); [lia|].
      change (values_between values 0 0) with (@nil float). cbn [fold_left].
      pose proof (fold_add_sum_nobs (values_between values k (S k)) st).
      pose proof (values_between_length values k (S k)). lia.
    - subst k. unfold setup_sum.
      pose proof (fold_add_sum_nobs (values_between values 0 1)
                    {| nobs := 0; sum_x := 0; compensation_add := 0;
                       compensation_remove := 0; num_consecutive_same_value := 0;
                       prev_value := nth 0 values nan |}) as Hn.
      cbn [nobs] in Hn.
      pose proof (values_between_length values 0 1). lia. }
  destruct j as [|j]; cbn [nth_error].
  - f_equal. apply calc_sum_nan. lia.
  - apply IH; [|lia|lia]. repeat split; lia.
Qed.

(** Small integers are summed exactly.  From 2^53 on the values are
    rounded when they are converted, and a window's sum carries the
    rounding of the running sum it was obtained from: below, the windows
    3, 2^53 + 1, 1 and 2^53 + 2, 3, -2^53 get 2^53 + 4 and 7 where the
    integers add up to 2^53 + 5 and 5, and the window 1, 1, 1 of a single
    repeated value gets 3. *)
Example rolling_sum_values :
  rolling_sum 3 [3; 1; 4; 1; 5; 9; 2; 6]
  = [nan; nan; 8%float; 6%float; 10%float; 15%float; 16%float; 17%float]
  /\ rolling_sum 3 [3; 2 ^ 53 + 1; 1; 1; 1; 2 ^ 53 + 2; 3; - 2 ^ 53; 3]
     = [nan; nan; Z2F (2 ^ 53 + 4); Z2F (2 ^ 53 + 2); 3%float; Z2F (2 ^ 53 + 4);
        Z2F (2 ^ 53 + 8); 7%float; Z2F (- (2 ^ 53 - 8))].
Proof. split; vm_compute; reflexivity. Qed.

Lemma rolling_sum_warmup (w : nat) (l : list Z) (j : nat) :
  (j < List.length l)%nat -> (S j < w)%nat ->
  nth_error (rolling_sum w l) j = Some nan.
Proof.
  intros Hj Hw. unfold rolling_sum, roll_sum, window_bounds.
  apply roll_sum_warmup; [reflexivity | exact Hj | exact Hw].
Qed.

Lemma combine_app_same {A B : Type} (a a' : list A) (b b' : list B) :
  List.length a = List.length b ->
  combine (a ++ a') (b ++ b') = (combine a b ++ combine a' b')%list.
Proof.
  revert b. induction a as [|x a IH]; intros [|y b] Hlen; try discriminate.
  - reflexivity.
  - cbn [app combine]. f_equal. apply IH. inversion Hlen. reflexivity.
Qed.

Lemma combine_flat_map {K A B : Type} (f : K -> list A) (g : K -> list B)
      (ks : list K) :
  (forall k, List.length (f k) = List.length (g k)) ->
  combine (flat_map f ks) (flat_map g ks)
  = flat_map (fun k => combine (f k) (g k)) ks.
Proof.
  intro Hlen. induction ks as [|k ks IH]; [reflexivity|].
  cbn [flat_map]. rewrite combine_app_same by apply Hlen. rewrite IH. reflexivity.
Qed.

Lemma map_snd_combine {A B : Type} (a : list A) (b : list B) :
  List.length a = List.length b -> map snd (combine a b) = b.
Proof.
  revert b. induction a as [|x a IH]; intros [|y b] Hlen; try discriminate.
  - reflexivity.
  - cbn [combine map snd]. f_equal. apply IH. inversion Hlen. reflexivity.
Qed.

Lemma flat_map_map {A B C : Type} (f : B -> list C) (g : A -> B) (l : list A) :
  flat_map f (map g l) = flat_map (fun a => f (g a)) l.
Proof.
  induction l as [|a l IH]; [reflexivity|]. cbn [map flat_map].
  rewrite IH. reflexivity.
Qed.

Lemma flat_map_singletons {A B : Type} (f : A -> list B) (g : A -> B) (l : list A) :
  (forall a, In a l -> f a = [g a]) -> flat_map f l = map g l.
Proof.
  induction l as [|a l IH]; intro Hf; [reflexivity|]. cbn [map flat_map].
  rewrite (Hf a (or_introl eq_refl)), IH; [reflexivity|].
  intros b Hb. apply Hf. right. exact Hb.
Qed.

(** Joining two tables that have one row for each of the same keys pairs
    up the rows of each key. *)
Lemma merge_same_keys {K A B : Type} `{Ord K} (f : K -> A) (g : K -> B)
      (ks : list K) :
  NoDup ks ->
  merge (map (fun k => (k, f k)) ks) (map (fun k => (k, g k)) ks)
  = map (fun k => (k, (f k, g k))) ks.
Proof.
  intro Hnd. unfold merge. rewrite flat_map_map. cbn [fst snd].
  apply flat_map_singletons. intros k Hk.
  rewrite (filter_singleton _ (k, g k)); [reflexivity | | | |].
  - apply NoDup_map_on; [exact Hnd|]. intros x y _ _ E. inversion E. reflexivity.
  - apply (in_map (fun k => (k, g k))). exact Hk.
  - apply key_eqb_refl.
  - intros [k' b] Hin E. cbn [fst] in E. apply key_eqb_eq in E. subst k'.
    apply (proj1 (in_map_iff _ _ _)) in Hin. destruct Hin as [k'' [E' _]].
    inversion E'. reflexivity.
Qed.

Section EveryTable.
Variable df : DataFrame.
Variable start_hour : Z.

Lemma day_rows_activity (d : Z) :
  map rp_Activity (day_rows df start_hour d) = day_activity df start_hour d.
Proof. unfold day_rows, day_activity. rewrite map_map. reflexivity. Qed.

Lemma day_rows_nonempty (d : Z) :
  In d (days df) -> day_rows df start_hour d <> [].
Proof.
  intros Hd E. apply (day_hours_nonempty df start_hour d Hd).
  unfold day_rows in E. destruct (day_hours df start_hour d); [reflexivity|].
  discriminate.
Qed.

(** The rolling sums are computed day by day and written back by position;
    the rows being sorted by day, each sum lands on its own row. *)
Lemma rolling_by_day_eq (w : nat) :
  rolling_by_day w (flat_map (day_rows df start_hour) (days df))
  = flat_map (fun d => rolling_sum w (day_activity df start_hour d)) (days df).
Proof.
  unfold rolling_by_day.
  rewrite (groupby_chunks rp_Split_Day (day_rows df start_hour)).
  - rewrite flat_map_map. cbn [snd]. apply flat_map_ext. intro d.
    rewrite day_rows_activity. reflexivity.
  - apply group_keys_sorted.
  - intros d Hd. apply day_rows_nonempty. exact Hd.
  - intros d _ r. apply day_rows_day.
Qed.

Lemma reduce_by_day (w : nat) (reduce : list float -> float) :
  map (fun g : Z * list (RestPhaseRow * float) => (fst g, reduce (map snd (snd g))))
      (groupby (fun x : RestPhaseRow * float => rp_Split_Day (fst x))
               (combine (flat_map (day_rows df start_hour) (days df))
                        (rolling_by_day w (flat_map (day_rows df start_hour) (days df)))))
  = map (fun d => (d, reduce (rolling_sum w (day_activity df start_hour d))))
        (days df).
Proof.
  rewrite rolling_by_day_eq.
  assert (Hlen : forall d,
             List.length (day_rows df start_hour d)
             = List.length (rolling_sum w (day_activity df start_hour d))).
  { intro d. rewrite rolling_sum_length. unfold day_rows, day_activity.
    rewrite !length_map. reflexivity. }
  rewrite combine_flat_map by exact Hlen.
  rewrite (groupby_chunks (fun x : RestPhaseRow * float => rp_Split_Day (fst x))
             (fun d => combine (day_rows df start_hour d)
                               (rolling_sum w (day_activity df start_hour d)))).
  - rewrite map_map. cbn [fst snd]. apply map_ext. intro d.
    rewrite map_snd_combine by apply Hlen. reflexivity.
  - apply group_keys_sorted.
  - intros d Hd E. apply (day_rows_nonempty d Hd).
    specialize (Hlen d).
    destruct (day_rows df start_hour d) as [|r rs]; [reflexivity|].
    destruct (rolling_sum w (day_activity df start_hour d)); discriminate.
  - intros d _ [r x] Hin. apply in_combine_l in Hin. cbn [fst].
    apply (day_rows_day df start_hour). exact Hin.
Qed.

End EveryTable.

(** ** The order of floats *)

(** Where a float stands among the floats: NaN stands nowhere; the others
    are ordered as the triples below are, lexicographically. *)
Definition SFrank (x : spec_float) : option (Z * (Z * Z)) :=
  match x with
  | S754_nan => None
  | S754_infinity true => Some (0, (0, 0))
  | S754_finite true m e => Some (1, (- e, Z.neg m))
  | S754_zero _ => Some (2, (0, 0))
  | S754_finite false m e => Some (3, (e, Z.pos m))
  | S754_infinity false => Some (4, (0, 0))
  end.

Lemma SFcompare_rank (x y : spec_float) :
  SFcompare x y = match SFrank x, SFrank y with
                  | Some a, Some b => Some (cmp a b)
                  | _, _ => None
                  end.
Proof.
  destruct x as [sx|sx| |sx mx ex], y as [sy|sy| |sy my ey];
    try destruct sx; try destruct sy; try reflexivity;
    cbn [SFrank SFcompare];
    repeat (cbn [cmp Ord_pair Ord_Z fst snd]; unfold cmp_pair).
  change (1 ?= 1) with Eq. cbv iota.
  rewrite Z.compare_opp, (Z.compare_antisym ex ey).
  destruct (ex ?= ey); reflexivity.
Qed.

Definition rank (f : float) : option (Z * (Z * Z)) := SFrank (Prim2SF f).

Lemma is_nan_rank (f : float) :
  PrimFloat.is_nan f = match rank f with Some _ => false | None => true end.
Proof.
  unfold PrimFloat.is_nan, rank. rewrite FloatAxioms.eqb_spec. unfold SFeqb.
  rewrite SFcompare_rank. destruct (SFrank (Prim2SF f)) as [a|]; [|reflexivity].
  rewrite cmp_refl. reflexivity.
Qed.

Lemma leb_rank (a b : float) :
  PrimFloat.leb a b
  = match rank a, rank b with
    | Some x, Some y => match cmp x y with Gt => false | _ => true end
    | _, _ => false
    end.
Proof.
  unfold rank. rewrite FloatAxioms.leb_spec. unfold SFleb. rewrite SFcompare_rank.
  destruct (SFrank (Prim2SF a)), (SFrank (Prim2SF b));
    first [reflexivity | destruct (cmp _ _); reflexivity].
Qed.

Lemma ltb_rank (a b : float) :
  PrimFloat.ltb a b
  = match rank a, rank b with
    | Some x, Some y => match cmp x y with Lt => true | _ => false end
    | _, _ => false
    end.
Proof.
  unfold rank. rewrite FloatAxioms.ltb_spec. unfold SFltb. rewrite SFcompare_rank.
  destruct (SFrank (Prim2SF a)), (SFrank (Prim2SF b));
    first [reflexivity | destruct (cmp _ _); reflexivity].
Qed.

Lemma leb_refl (a : float) : PrimFloat.is_nan a = false -> PrimFloat.leb a a = true.
Proof.
  rewrite is_nan_rank, leb_rank. destruct (rank a); [|discriminate].
  rewrite cmp_refl. reflexivity.
Qed.

Lemma ltb_leb (a b : float) : PrimFloat.ltb a b = true -> PrimFloat.leb a b = true.
Proof.
  rewrite ltb_rank, leb_rank. destruct (rank a), (rank b); try discriminate.
  destruct (cmp _ _); congruence.
Qed.

(** Two numbers are comparable: when the first is not below the second,
    the second is at most the first. *)
Lemma leb_total (a b : float) :
  PrimFloat.is_nan a = false -> PrimFloat.is_nan b = false ->
  PrimFloat.ltb a b = false -> PrimFloat.leb b a = true.
Proof.
  rewrite !is_nan_rank, ltb_rank, leb_rank.
  destruct (rank a) as [x|], (rank b) as [y|]; try discriminate.
  intros _ _. rewrite (cmp_antisym x y). destruct (cmp x y); cbn; congruence.
Qed.

Lemma leb_trans (a b c : float) :
  PrimFloat.leb a b = true -> PrimFloat.leb b c = true -> PrimFloat.leb a c = true.
Proof.
  rewrite !leb_rank.
  destruct (rank a) as [x|], (rank b) as [y|], (rank c) as [z|]; try discriminate.
  destruct (cmp x y) eqn:Exy; try discriminate;
    destruct (cmp y z) eqn:Eyz; try discriminate; intros _ _.
  - apply cmp_eq in Exy. subst y. rewrite Eyz. reflexivity.
  - apply cmp_eq in Exy. subst y. rewrite Eyz. reflexivity.
  - apply cmp_eq in Eyz. subst z. rewrite Exy. reflexivity.
  - rewrite (cmp_trans _ _ _ Exy Eyz). reflexivity.
Qed.

(** ** relative_amplitude, day by day *)

(** The most active 10 hours and the least active 5 hours of a day: the
    largest 10-hour and the smallest 5-hour rolling sum over the day's
    hourly activity, NaN when the day has fewer hours than the window. *)
Definition day_M10 (df : DataFrame) (start_hour d : Z) : float :=
  series_max (rolling_sum 10 (day_activity df start_hour d)).

Definition day_L5 (df : DataFrame) (start_hour d : Z) : float :=
  series_min (rolling_sum 5 (day_activity df start_hour d)).

Definition day_RA (df : DataFrame) (start_hour d : Z) : float :=
  ((day_M10 df start_hour d - day_L5 df start_hour d)
   / (day_M10 df start_hour d + day_L5 df start_hour d))%float.

Lemma relative_amplitude_eq (df : DataFrame) (start_hour : Z) :
  match relative_amplitude df start_hour with
  | Ok out =>
      ra_Split_Day out = days df
      /\ RA out = map (day_RA df start_hour) (days df)
      /\ stamped_with_first df (ra_watch_ID out) (List.length (days df))
  | Raise _ => df = []
  end
  /\ (rows <- rest_phase df start_hour ;; Ok (M10 rows, L5 rows))
     = Ok (map (fun d => (d, day_M10 df start_hour d)) (days df),
           map (fun d => (d, day_L5 df start_hour d)) (days df)).
Proof.
  assert (HM : M10 (flat_map (day_rows df start_hour) (days df))
               = map (fun d => (d, day_M10 df start_hour d)) (days df))
    by (apply (reduce_by_day df start_hour 10 series_max)).
  assert (HL : L5 (flat_map (day_rows df start_hour) (days df))
               = map (fun d => (d, day_L5 df start_hour d)) (days df))
    by (apply (reduce_by_day df start_hour 5 series_min)).
  split.
  - unfold relative_amplitude. rewrite rest_phase_eq. cbn [bind].
    rewrite HM, HL.
    rewrite merge_same_keys by (apply group_keys_NoDup).
    destruct df as [|r0 df0] eqn:Edf; [reflexivity|]. rewrite <- Edf.
    replace (first_watch_ID df) with (Ok (A := string) (watch_ID r0))
      by (rewrite Edf; reflexivity).
    cbn [bind]. rewrite assign_scalar_ok.
    2:{ intro E. apply map_eq_nil in E. revert E. apply days_nonempty.
        rewrite Edf. discriminate. }
    cbn [bind ra_Split_Day RA ra_watch_ID]. rewrite !map_map. cbn [fst snd].
    split; [apply map_id|]. split; [reflexivity|].
    exists (watch_ID r0). rewrite Edf. repeat split.
    rewrite <- Edf. apply map_const_repeat.
  - rewrite rest_phase_eq. cbn [bind]. rewrite HM, HL. reflexivity.
Qed.

(** ** Days with too few hours *)

Lemma sub_nan_l (x : float) : (nan - x)%float = nan.
Proof.
  apply Prim2SF_inj. rewrite sub_spec. change (Prim2SF nan) with S754_nan.
  unfold SF64sub, SFsub. destruct (Prim2SF x); reflexivity.
Qed.

Lemma div_nan_l (x : float) : (nan / x)%float = nan.
Proof.
  apply Prim2SF_inj. rewrite div_spec. change (Prim2SF nan) with S754_nan.
  unfold SF64div, SFdiv. destruct (Prim2SF x); reflexivity.
Qed.

Lemma rolling_sum_short (w : nat) (l : list Z) :
  (List.length l < w)%nat -> rolling_sum w l = repeat nan (List.length l).
Proof.
  intro Hlen. apply nth_error_ext. intro j.
  destruct (Nat.lt_ge_cases j (List.length l)) as [Hj | Hj].
  - rewrite rolling_sum_warmup by lia. symmetry. apply nth_error_repeat. exact Hj.
  - rewrite (proj2 (nth_error_None _ _)) by (rewrite rolling_sum_length; exact Hj).
    symmetry. apply nth_error_None. rewrite repeat_length. exact Hj.
Qed.

Lemma series_max_nan (n : nat) : series_max (repeat nan n) = nan.
Proof. induction n as [|n IH]; [reflexivity|]. cbn [repeat series_max fold_right].
       fold (series_max (repeat nan n)). rewrite IH. reflexivity. Qed.

(** The number of hours of day [d] that the table has epochs for. *)
Definition hours_on_day (df : DataFrame) (d : Z) : nat :=
  List.length (group_keys (map Hour (filter (fun r => Split_Day r =? d) df))).

Lemma day_hours_length (df : DataFrame) (start_hour d : Z) :
  List.length (day_hours df start_hour d) = hours_on_day df d.
Proof.
  unfold hours_on_day. apply Permutation_length. apply NoDup_Permutation.
  - unfold day_hours. apply NoDup_filter, cyclic_hours_NoDup.
  - apply group_keys_NoDup.
  - intro h. unfold day_hours.
    rewrite filter_In, cyclic_hours_In, group_keys_In, on_day_hour_exists, !in_map_iff.
    split.
    + intros [_ [r [E Hr]]]. inversion E; subst. exists r. split; [reflexivity|].
      apply filter_In. split; [exact Hr | apply Z.eqb_eq; reflexivity].
    + intros [r [<- Hr]]. apply filter_In in Hr. destruct Hr as [Hr E].
      apply Z.eqb_eq in E. split; exists r; split; congruence.
Qed.

(** A table with two hours of data on its one day. *)
Definition two_hours : DataFrame :=
  [epoch "w1" 1 9 "Active" "Wake" 12; epoch "w1" 1 10 "Active" "Wake" 7].

(** A day for which the table has fewer than 10 hours with epochs never
    fills a 10-hour window: its M10 is NaN, and the RA that
    [relative_amplitude] returns for that day is NaN, whatever the activity
    values are. *)
Theorem relative_amplitude_short_day (df : DataFrame) (start_hour d : Z)
        (out : RelativeAmplitude) (i : nat) :
  relative_amplitude df start_hour = Ok out ->
  nth_error (ra_Split_Day out) i = Some d ->
  (hours_on_day df d < 10)%nat ->
  day_M10 df start_hour d = nan /\ nth_error (RA out) i = Some nan.
Proof.
  intros Hout Hd Hshort.
  assert (HM : day_M10 df start_hour d = nan).
  { unfold day_M10. rewrite rolling_sum_short.
    - apply series_max_nan.
    - unfold day_activity. rewrite length_map, day_hours_length. exact Hshort. }
  split; [exact HM|].
  pose proof (relative_amplitude_eq df start_hour) as [Hspec _].
  rewrite Hout in Hspec. destruct Hspec as [Hdays [HRA _]].
  rewrite HRA, nth_error_map. rewrite Hdays in Hd. rewrite Hd. cbn [option_map].
  f_equal. unfold day_RA. rewrite HM, sub_nan_l, div_nan_l. reflexivity.
Qed.

Lemma relative_amplitude_short_day_witness :
  day_M10 two_hours 0 1 = nan
  /\ nth_error [nan] 0 = Some nan.
Proof.
  apply (relative_amplitude_short_day two_hours 0 1
           {| ra_Split_Day := [1]; RA := [nan]; ra_watch_ID := ["w1"] |} 0).
  - vm_compute. reflexivity.
  - reflexivity.
  - vm_compute. lia.
Defined.

(** ** M10 and L5 are the largest and the smallest rolling sum *)

(** [m] is the largest number of [l]: an entry of [l] that is a number and
    is at least every number of [l]; NaN when [l] holds no number. *)
Definition largest_of (l : list float) (m : float) : Prop :=
  (PrimFloat.is_nan m = true /\ Forall (fun x => PrimFloat.is_nan x = true) l)
  \/ (In m l /\ PrimFloat.is_nan m = false
      /\ Forall (fun x => PrimFloat.is_nan x = false -> PrimFloat.leb x m = true) l).

Definition smallest_of (l : list float) (m : float) : Prop :=
  (PrimFloat.is_nan m = true /\ Forall (fun x => PrimFloat.is_nan x = true) l)
  \/ (In m l /\ PrimFloat.is_nan m = false
      /\ Forall (fun x => PrimFloat.is_nan x = false -> PrimFloat.leb m x = true) l).

Lemma series_max_largest (l : list float) : largest_of l (series_max l).
Proof.
  induction l as [|a l IH]; [left; split; [reflexivity | constructor]|].
  cbn [series_max fold_right]. fold (series_max l).
  set (m := series_max l) in *. unfold fmax.
  destruct (PrimFloat.is_nan a) eqn:Ea.
  { destruct IH as [[Hm Hall] | [Hin [Hm Hall]]].
    - left. split; [exact Hm|]. constructor; assumption.
    - right. split; [right; exact Hin|]. split; [exact Hm|].
      constructor; [congruence | exact Hall]. }
  destruct (PrimFloat.is_nan m) eqn:Em.
  { destruct IH as [[_ Hall] | [_ [Hm _]]]; [|congruence].
    right. split; [left; reflexivity|]. split; [exact Ea|].
    constructor; [intros _; apply leb_refl; exact Ea|].
    apply (Forall_impl _ (P := fun x => PrimFloat.is_nan x = true));
      [intros x Hx Hn; congruence | exact Hall]. }
  destruct IH as [[Hm _] | [Hin [_ Hall]]]; [congruence|].
  destruct (PrimFloat.ltb a m) eqn:Elt.
  - right. split; [right; exact Hin|]. split; [exact Em|].
    constructor; [intros _; apply ltb_leb; exact Elt | exact Hall].
  - right. split; [left; reflexivity|]. split; [exact Ea|].
    constructor; [intros _; apply leb_refl; exact Ea|].
    apply (Forall_impl _ (P := fun x => PrimFloat.is_nan x = false
                                        -> PrimFloat.leb x m = true));
      [|exact Hall].
    intros x Hx Hn. apply (leb_trans x m a); [apply Hx; exact Hn|].
    apply leb_total; assumption.
Qed.

Lemma series_min_smallest (l : list float) : smallest_of l (series_min l).
Proof.
  induction l as [|a l IH]; [left; split; [reflexivity | constructor]|].
  cbn [series_min fold_right]. fold (series_min l).
  set (m := series_min l) in *. unfold fmin.
  destruct (PrimFloat.is_nan a) eqn:Ea.
  { destruct IH as [[Hm Hall] | [Hin [Hm Hall]]].
    - left. split; [exact Hm|]. constructor; assumption.
    - right. split; [right; exact Hin|]. split; [exact Hm|].
      constructor; [congruence | exact Hall]. }
  destruct (PrimFloat.is_nan m) eqn:Em.
  { destruct IH as [[_ Hall] | [_ [Hm _]]]; [|congruence].
    right. split; [left; reflexivity|]. split; [exact Ea|].
    constructor; [intros _; apply leb_refl; exact Ea|].
    apply (Forall_impl _ (P := fun x => PrimFloat.is_nan x = true));
      [intros x Hx Hn; congruence | exact Hall]. }
  destruct IH as [[Hm _] | [Hin [_ Hall]]]; [congruence|].
  destruct (PrimFloat.ltb m a) eqn:Elt.
  - right. split; [right; exact Hin|]. split; [exact Em|].
    constructor; [intros _; apply ltb_leb; exact Elt | exact Hall].
  - right. split; [left; reflexivity|]. split; [exact Ea|].
    constructor; [intros _; apply leb_refl; exact Ea|].
    apply (Forall_impl _ (P := fun x => PrimFloat.is_nan x = false
                                        -> PrimFloat.leb m x = true));
      [|exact Hall].
    intros x Hx Hn. apply (leb_trans a m x); [|apply Hx; exact Hn].
    apply leb_total; assumption.
Qed.

(** The first [w - 1] rolling sums of a column are NaN. *)
Lemma rolling_sum_firstn (w : nat) (l : list Z) :
  firstn (w - 1) (rolling_sum w l) = repeat nan (Nat.min (w - 1) (List.length l)).
Proof.
  apply nth_error_ext. intro j. rewrite nth_error_firstn.
  destruct (Nat.ltb_spec j (w - 1)) as [Hw | Hw].
  - destruct (Nat.lt_ge_cases j (List.length l)) as [Hj | Hj].
    + rewrite rolling_sum_warmup by lia. symmetry. apply nth_error_repeat. lia.
    + rewrite (proj2 (nth_error_None _ _)) by (rewrite rolling_sum_length; exact Hj).
      symmetry. apply nth_error_None. rewrite repeat_length. lia.
  - symmetry. apply nth_error_None. rewrite repeat_length. lia.
Qed.

(** Two epochs in every hour of day 1, the activity of an hour split
    between them, and three hours of day 2. *)
Definition varied_days : DataFrame :=
  (flat_map (fun ha => [epoch "w1" 1 (fst ha) "Active" "Wake" (snd ha / 2);
                        epoch "w1" 1 (fst ha) "Active" "Wake" (snd ha - snd ha / 2)])
            (combine hours24
                     [0; 0; 1; 3; 2; 2; 5; 12; 30; 41; 38; 27;
                      33; 45; 29; 31; 36; 40; 22; 18; 9; 4; 1; 0])
   ++ [epoch "w1" 2 6 "Active" "Wake" 5;
       epoch "w1" 2 7 "Active" "Wake" 7;
       epoch "w1" 2 8 "Active" "Wake" 9])%list.

(** [relative_amplitude] on every table with rows and every start hour: it
    returns one row per Split_Day, in increasing order, whose RA is
    (M10 - L5) / (M10 + L5).  M10 is the largest of the day's 10-hour
    rolling sums and L5 the smallest of its 5-hour rolling sums, NaN when
    the day has none; the rolling sums run over the day's hourly activity,
    one per hour that occurs on the day, in the hour order of the call, and
    the first 9 (respectively 4) of a day are NaN.  On a table without rows
    it raises. *)
Theorem relative_amplitude_spec (df : DataFrame) (start_hour : Z) :
  (df <> [] ->
   exists out,
     relative_amplitude df start_hour = Ok out
     /\ ra_Split_Day out = days df
     /\ RA out = map (fun d => ((day_M10 df start_hour d - day_L5 df start_hour d)
                                / (day_M10 df start_hour d + day_L5 df start_hour d))%float)
                     (days df)
     /\ stamped_with_first df (ra_watch_ID out) (List.length (days df))
     /\ Forall (fun d =>
                  let sums10 := rolling_sum 10 (day_activity df start_hour d) in
                  let sums5 := rolling_sum 5 (day_activity df start_hour d) in
                  largest_of sums10 (day_M10 df start_hour d)
                  /\ smallest_of sums5 (day_L5 df start_hour d)
                  /\ List.length sums10 = hours_on_day df d
                  /\ List.length sums5 = hours_on_day df d
                  /\ firstn 9 sums10 = repeat nan (Nat.min 9 (hours_on_day df d))
                  /\ firstn 4 sums5 = repeat nan (Nat.min 4 (hours_on_day df d)))
               (days df)
     /\ (rows <- rest_phase df start_hour ;; Ok (M10 rows, L5 rows))
        = Ok (map (fun d => (d, day_M10 df start_hour d)) (days df),
              map (fun d => (d, day_L5 df start_hour d)) (days df)))
  /\ (df = [] -> exists e, relative_amplitude df start_hour = Raise e).
Proof.
  split.
  - intro Hne. pose proof (relative_amplitude_eq df start_hour) as [Hcases Hrows].
    destruct (relative_amplitude df start_hour) as [out|e]; [|congruence].
    destruct Hcases as [Hdays [HRA Hstamp]].
    exists out. split; [reflexivity|]. split; [exact Hdays|].
    split; [exact HRA|]. split; [exact Hstamp|]. split; [|exact Hrows].
    apply Forall_forall. intros d _. cbv zeta.
    assert (Hlen : forall w, List.length (rolling_sum w (day_activity df start_hour d))
                             = hours_on_day df d).
    { intro w. rewrite rolling_sum_length. unfold day_activity.
      rewrite length_map. apply day_hours_length. }
    split; [apply series_max_largest|]. split; [apply series_min_smallest|].
    split; [apply Hlen|]. split; [apply Hlen|].
    split.
    + rewrite <- (Hlen 10%nat), rolling_sum_length. exact (rolling_sum_firstn 10 _).
    + rewrite <- (Hlen 5%nat), rolling_sum_length. exact (rolling_sum_firstn 5 _).
  - intros ->. eexists. reflexivity.
Qed.

Lemma relative_amplitude_spec_witness :
  exists out,
    relative_amplitude varied_days 6 = Ok out
    /\ ra_Split_Day out = [1; 2]
    /\ RA out = [((350 - 2) / (350 + 2))%float; nan]
    /\ RA out = [0x1.fa2e8ba2e8ba3p-1%float; nan]
    /\ (rows <- rest_phase varied_days 6 ;; Ok (M10 rows, L5 rows))
       = Ok ([(1, 350%float); (2, nan)], [(1, 2%float); (2, nan)])
    /\ rolling_sum 5 (day_activity varied_days 6 1)
       = (repeat nan 4
          ++ map Z2F [126; 148; 169; 184; 172; 165; 174; 181; 158; 147;
                      125; 93; 54; 32; 14; 5; 2; 4; 6; 8])%list.
Proof.
  destruct (proj1 (relative_amplitude_spec varied_days 6))
    as [out [Hout [Hdays [HRA [_ [_ Hrows]]]]]]; [discriminate|].
  exists out. split; [exact Hout|].
  split; [rewrite Hdays; vm_compute; reflexivity|].
  split; [rewrite HRA; vm_compute; reflexivity|].
  split; [rewrite HRA; vm_compute; reflexivity|].
  split; [rewrite Hrows; vm_compute; reflexivity|].
  vm_compute. reflexivity.
Defined.

(** ** bedtime on a table with all four phases *)

Definition on_day_phase (d : Z) (phase : string) (r : Epoch) : bool :=
  (Split_Day r =? d) && key_eqb (Interval r) phase.

(** The earliest timestamp of a phase on a day, [None] (NaT) when the day
    does not have the phase. *)
Definition earliest (df : DataFrame) (d : Z) (phase : string) : option Z :=
  min_DateTime (filter (on_day_phase d phase) df).

Lemma key_eqb_day_phase (d : Z) (phase : string) (r : Epoch) :
  key_eqb (Split_Day r, Interval r) (d, phase) = on_day_phase d phase r.
Proof.
  unfold key_eqb at 1, on_day_phase. cbn [cmp Ord_pair]. unfold cmp_pair.
  cbn [fst snd]. unfold key_eqb. cbn [cmp Ord_Z]. rewrite Z.eqb_compare.
  destruct (Split_Day r ?= d); reflexivity.
Qed.

Lemma lookup_optional_groups {K V : Type} `{Ord K} (G : K -> option V)
      (k : K) (ks : list K) :
  lookup k (flat_map (fun k' => match G k' with
                                | Some m => [(k', m)]
                                | None => []
                                end) ks)
  = if contains k ks then G k else None.
Proof.
  induction ks as [|k0 ks IH]; [reflexivity|].
  cbn [flat_map contains existsb]. fold (contains k ks).
  destruct (G k0) as [m|] eqn:E0; cbn [app lookup].
  - destruct (key_eqb k k0) eqn:E; cbn [orb].
    + apply key_eqb_eq in E. subst k0. symmetry. exact E0.
    + exact IH.
  - rewrite IH. destruct (key_eqb k k0) eqn:E; cbn [orb]; [|reflexivity].
    apply key_eqb_eq in E. subst k0. rewrite E0.
    destruct (contains k ks); reflexivity.
Qed.

Lemma earliest_times_lookup (df : DataFrame) (d : Z) (phase : string) :
  lookup (d, phase) (earliest_times df) = earliest df d phase.
Proof.
  unfold earliest_times, groupby. rewrite flat_map_map. cbn [fst snd].
  rewrite (lookup_optional_groups
             (fun k => min_DateTime
                         (filter (fun r => key_eqb (Split_Day r, Interval r) k) df))).
  assert (E : filter (fun r => key_eqb (Split_Day r, Interval r) (d, phase)) df
              = filter (on_day_phase d phase) df)
    by (apply filter_ext; intro r; apply key_eqb_day_phase).
  rewrite E. fold (earliest df d phase).
  destruct (contains _ _) eqn:Ec; [reflexivity|].
  apply contains_false in Ec. rewrite group_keys_In in Ec.
  unfold earliest. rewrite <- E.
  destruct (filter _ df) as [|r l] eqn:F; [reflexivity|].
  exfalso. apply Ec.
  assert (Hr : In r (r :: l)) by (left; reflexivity).
  rewrite <- F in Hr. apply filter_In in Hr. destruct Hr as [Hr Hk].
  apply key_eqb_eq in Hk. rewrite <- Hk.
  apply (in_map (fun r => (Split_Day r, Interval r))). exact Hr.
Qed.

Lemma filter_map_columns {V : Type} (p : string -> bool) (g : string -> V)
      (cols : list string) :
  filter (fun cv => p (fst cv)) (map (fun c => (c, g c)) cols)
  = map (fun c => (c, g c)) (filter p cols).
Proof.
  induction cols as [|c cols IH]; [reflexivity|]. cbn [map filter fst].
  destruct (p c); cbn [map]; rewrite IH; reflexivity.
Qed.

(** A table with the four phases on two days. *)
Definition two_nights : DataFrame :=
  [epoch "w1" 1 21 "Active" "Wake" 30;
   epoch "w1" 1 22 "Falling_Asleep" "Wake" 4;
   epoch "w1" 1 23 "Rest" "Sleep" 0;
   epoch "w1" 2 7 "Waking_Up" "Wake" 3;
   epoch "w1" 2 8 "Active" "Wake" 40].

(** An epoch that starts [minute] minutes into its hour. *)
Definition epoch_at (w : string) (day hour minute : Z) (interval acti : string)
  : Epoch :=
  {| watch_ID := w; DateTime := ((day * 24 + hour) * 60 + minute) * 60000000000;
     Hour := hour; Split_Day := day; Interval := interval; Sleep_Acti := acti;
     Activity := 0; Light := 0 |}.

(** Two nights with several epochs in each phase, not in time order: on
    day 1 the Rest phase starts at 23:45 and nobody wakes up; on day 2 it
    starts at 01:20 and the Waking_Up phase at 07:15. *)
Definition timed_nights : DataFrame :=
  [epoch_at "w1" 1 21 5 "Active" "Wake";
   epoch_at "w1" 1 22 41 "Falling_Asleep" "Wake";
   epoch_at "w1" 1 22 40 "Falling_Asleep" "Wake";
   epoch_at "w1" 1 23 50 "Rest" "Sleep";
   epoch_at "w1" 1 23 45 "Rest" "Sleep";
   epoch_at "w1" 1 23 55 "Rest" "Wake";
   epoch_at "w1" 2 1 30 "Rest" "Sleep";
   epoch_at "w1" 2 1 20 "Rest" "Sleep";
   epoch_at "w1" 2 7 20 "Waking_Up" "Wake";
   epoch_at "w1" 2 7 15 "Waking_Up" "Wake";
   epoch_at "w1" 2 8 0 "Active" "Wake"].

(** [bedtime] on a table in which all four phase labels occur: one row per
    Split_Day of the table, in increasing order; the Falling_Asleep and
    Active columns are gone and every other phase keeps its column of
    earliest timestamps; Time_Bed and Time_Wake are the time of day, in
    hours, of the day's earliest Rest and Waking_Up timestamps: the hour of
    the timestamp plus its minute divided by 60, NaN on a day without that
    phase. *)
Theorem bedtime_spec (df : DataFrame) :
  has_interval df "Waking_Up" -> has_interval df "Falling_Asleep" ->
  has_interval df "Active" -> has_interval df "Rest" ->
  let time_of_day (x : option Z) : float :=
    match x with
    | Some ns => (Z2F ((ns / 3600000000000) mod 24)
                  + Z2F ((ns / 60000000000) mod 60) / 60)%float
    | None => nan
    end in
  exists w,
    hd_error (map watch_ID df) = Some w
    /\ bedtime df
       = Ok (Some
               {| bt_Split_Day := days df;
                  bt_columns :=
                    map (fun c => (c, map (fun d => earliest df d c) (days df)))
                        (filter (fun c => negb (contains c ["Falling_Asleep"; "Active"]))
                                (group_keys (map Interval df)));
                  Time_Bed := map (fun d => time_of_day (earliest df d "Rest"))
                                  (days df);
                  Time_Wake := map (fun d => time_of_day (earliest df d "Waking_Up"))
                                   (days df);
                  bt_watch_ID := repeat w (List.length (days df)) |}).
Proof.
  intros Hwu Hfa Hac Hre time_of_day.
  assert (Hne : df <> []).
  { destruct Hwu as [r [Hr _]]. intro E. rewrite E in Hr. destruct Hr. }
  destruct (first_watch_ID_hd df Hne) as [w [Hhd Hfirst]].
  exists w. split; [exact Hhd|].
  apply has_interval_contains in Hfa, Hac, Hre.
  assert (Hwu' : contains "Waking_Up" (group_keys (map Interval df)) = true)
    by (apply has_interval_contains; exact Hwu).
  unfold bedtime. rewrite (label_present _ _ Hwu). cbn [negb].
  rewrite earliest_times_pivot. cbn [bind]. unfold drop, column_names, unstack.
  cbn [columns index]. rewrite map_map. cbn [fst]. rewrite map_id.
  rewrite earliest_times_labels, earliest_times_days.
  cbn [filter]. rewrite Hfa, Hac. cbn [negb bind]. unfold loc. cbn [columns index].
  rewrite !(assoc_filter_map
              (fun c => map (fun k => lookup (k, c) (earliest_times df)) (days df))).
  change (contains "Rest" ["Falling_Asleep"; "Active"]) with false.
  change (contains "Waking_Up" ["Falling_Asleep"; "Active"]) with false.
  cbn iota. rewrite Hre, Hwu'. cbn [bind]. rewrite Hfirst. cbn [bind].
  rewrite assign_scalar_ok by (apply days_nonempty; exact Hne). cbn [bind].
  rewrite (filter_map_columns
             (fun c => negb (contains c ["Falling_Asleep"; "Active"]))
             (fun c => map (fun k => lookup (k, c) (earliest_times df)) (days df))).
  rewrite !map_map, map_const_repeat.
  do 2 f_equal. f_equal.
  - apply map_ext. intro c. f_equal. apply map_ext. intro d.
    apply earliest_times_lookup.
  - apply map_ext. intro d. rewrite earliest_times_lookup. reflexivity.
  - apply map_ext. intro d. rewrite earliest_times_lookup. reflexivity.
Qed.

Lemma bedtime_spec_witness :
  bedtime timed_nights
  = Ok (Some {| bt_Split_Day := [1; 2];
                bt_columns := [("Rest", [Some 171900000000000; Some 177600000000000]);
                               ("Waking_Up", [None; Some 198900000000000])];
                Time_Bed := [23.75%float; 0x1.5555555555555p+0%float];
                Time_Wake := [nan; 7.25%float];
                bt_watch_ID := ["w1"; "w1"] |}).
Proof.
  destruct (bedtime_spec timed_nights) as [w [Hw Hout]].
  - exists (epoch_at "w1" 2 7 20 "Waking_Up" "Wake").
    split; [do 8 right; left|]; reflexivity.
  - exists (epoch_at "w1" 1 22 41 "Falling_Asleep" "Wake").
    split; [right; left|]; reflexivity.
  - exists (epoch_at "w1" 1 21 5 "Active" "Wake").
    split; [left|]; reflexivity.
  - exists (epoch_at "w1" 1 23 50 "Rest" "Sleep").
    split; [do 3 right; left|]; reflexivity.
  - rewrite Hout. inversion Hw. vm_compute. reflexivity.
Defined.

(** The timestamp [bedtime] keeps for a phase of a day is one of that
    phase's timestamps on that day and no later than any of them; there is
    none exactly when the day has no epoch of the phase. *)
Theorem earliest_is_least (df : DataFrame) (d : Z) (phase : string) :
  match earliest df d phase with
  | Some m =>
      (exists r, In r df /\ Split_Day r = d /\ Interval r = phase /\ DateTime r = m)
      /\ forall r, In r df -> Split_Day r = d -> Interval r = phase -> m <= DateTime r
  | None => forall r, In r df -> Split_Day r = d -> Interval r <> phase
  end.
Proof.
  assert (Hmin : forall g m0,
             let m := fold_left (fun m r' => Z.min m (DateTime r')) g m0 in
             (m = m0 \/ exists r, In r g /\ DateTime r = m)
             /\ m <= m0 /\ forall r, In r g -> m <= DateTime r).
  { induction g as [|r g IH]; intro m0; cbn [fold_left].
    - split; [left; reflexivity|]. split; [lia|]. intros r [].
    - specialize (IH (Z.min m0 (DateTime r))). cbv zeta in IH.
      destruct IH as [Hin [Hle Hall]]. cbv zeta. split.
      + destruct Hin as [E | [q [Hq E]]].
        * destruct (Z.min_spec m0 (DateTime r)) as [[_ Em] | [_ Em]].
          -- left. congruence.
          -- right. exists r. split; [left; reflexivity | congruence].
        * right. exists q. split; [right; exact Hq | exact E].
      + split; [lia|]. intros q [<- | Hq]; [lia | apply Hall; exact Hq]. }
  assert (Hphase : forall r, on_day_phase d phase r = true
                             <-> Split_Day r = d /\ Interval r = phase).
  { intro r. unfold on_day_phase.
    rewrite andb_true_iff, Z.eqb_eq, key_eqb_eq. reflexivity. }
  unfold earliest, min_DateTime.
  destruct (filter (on_day_phase d phase) df) as [|r0 g] eqn:F.
  - intros r Hr Hd Hp.
    assert (Hin : In r (filter (on_day_phase d phase) df))
      by (apply filter_In; split; [exact Hr | apply Hphase; auto]).
    rewrite F in Hin. exact Hin.
  - assert (Hmem : forall r, In r (r0 :: g)
                             <-> In r df /\ Split_Day r = d /\ Interval r = phase).
    { intro r. rewrite <- F, filter_In, Hphase. reflexivity. }
    destruct (Hmin g (DateTime r0)) as [Hin [Hle Hall]]. split.
    + destruct Hin as [E | [q [Hq E]]].
      * exists r0. destruct (proj1 (Hmem r0) (or_introl eq_refl)) as [A [B C]].
        repeat split; try assumption. symmetry. exact E.
      * exists q. destruct (proj1 (Hmem q) (or_intror Hq)) as [A [B C]].
        repeat split; assumption.
    + intros r Hr Hd Hp.
      destruct (proj2 (Hmem r) (conj Hr (conj Hd Hp))) as [<- | Hg];
        [exact Hle | apply Hall; exact Hg].
Qed.

(** ** Grouping loses nothing *)

Section GroupSums.
Context {K : Type} `{Ord K}.

Lemma sumZ_map_add {A : Type} (f g : A -> Z) (l : list A) :
  sumZ (map (fun a => f a + g a) l) = sumZ (map f l) + sumZ (map g l).
Proof.
  induction l as [|a l IH]; [reflexivity|]. cbn [map sumZ fold_right].
  fold (sumZ (map (fun a => f a + g a) l)). fold (sumZ (map f l)).
  fold (sumZ (map g l)). lia.
Qed.

Lemma sumZ_indicator (x : K) (v : Z) (ks : list K) :
  NoDup ks -> In x ks ->
  sumZ (map (fun k => if key_eqb x k then v else 0) ks) = v.
Proof.
  induction 1 as [|k ks Hk Hnd IH]; intro Hx; [destruct Hx|].
  cbn [map sumZ fold_right]. fold (sumZ (map (fun k => if key_eqb x k then v else 0) ks)).
  destruct Hx as [-> | Hx].
  - rewrite key_eqb_refl.
    assert (Hz : sumZ (map (fun k => if key_eqb x k then v else 0) ks) = 0).
    { clear IH Hnd. induction ks as [|k ks IH]; [reflexivity|].
      cbn [map sumZ fold_right].
      fold (sumZ (map (fun k => if key_eqb x k then v else 0) ks)).
      destruct (key_eqb x k) eqn:E.
      - apply key_eqb_eq in E. subst k. exfalso. apply Hk. left. reflexivity.
      - rewrite IH; [reflexivity|]. intro Hin. apply Hk. right. exact Hin. }
    lia.
  - destruct (key_eqb x k) eqn:E.
    + apply key_eqb_eq in E. subst k. contradiction.
    + rewrite (IH Hx). reflexivity.
Qed.

(** Summing a column group by group, over any duplicate-free list of keys
    that has the key of every row, gives the sum of the column. *)
Lemma sum_over_groups {A : Type} (key : A -> K) (f : A -> Z) (ks : list K)
      (l : list A) :
  NoDup ks -> (forall a, In a l -> In (key a) ks) ->
  sumZ (map (fun k => sumZ (map f (filter (fun a => key_eqb (key a) k) l))) ks)
  = sumZ (map f l).
Proof.
  intros Hnd. induction l as [|a l IH]; intro Hcov.
  - clear. induction ks as [|k ks IHk]; [reflexivity|].
    simpl in *. exact IHk.
  - cbn [map sumZ fold_right]. fold (sumZ (map f l)).
    rewrite <- IH by (intros b Hb; apply Hcov; right; exact Hb).
    rewrite <- (sumZ_indicator (key a) (f a) ks Hnd (Hcov a (or_introl eq_refl))) at 1.
    rewrite <- sumZ_map_add. f_equal. apply map_ext. intro k. cbn [filter].
    destruct (key_eqb (key a) k); unfold sumZ; cbn [map fold_right]; lia.
Qed.

Lemma length_over_groups {A : Type} (key : A -> K) (ks : list K) (l : list A) :
  NoDup ks -> (forall a, In a l -> In (key a) ks) ->
  sumZ (map (fun k => Z.of_nat (List.length (filter (fun a => key_eqb (key a) k) l))) ks)
  = Z.of_nat (List.length l).
Proof.
  intros Hnd Hcov.
  assert (Hlen : forall m : list A, Z.of_nat (List.length m) = sumZ (map (fun _ => 1) m)).
  { induction m as [|a m IHm]; [reflexivity|].
    cbn [List.length map sumZ fold_right]. fold (sumZ (map (fun _ : A => 1) m)). lia. }
  rewrite Hlen, <- (sum_over_groups key (fun _ => 1) ks l Hnd Hcov).
  f_equal. apply map_ext. intro k. apply Hlen.
Qed.

End GroupSums.

Lemma sumZ_wrap64_congruent {A : Type} (f : A -> Z) (l : list A) :
  (sumZ (map (fun a => wrap64 (f a)) l) - sumZ (map f l)) mod 2 ^ 64 = 0.
Proof.
  induction l as [|a l IH]; [reflexivity|].
  cbn [map sumZ fold_right].
  fold (sumZ (map (fun a => wrap64 (f a)) l)). fold (sumZ (map f l)).
  replace (wrap64 (f a) + sumZ (map (fun a => wrap64 (f a)) l)
           - (f a + sumZ (map f l)))
    with ((wrap64 (f a) - f a)
          + (sumZ (map (fun a => wrap64 (f a)) l) - sumZ (map f l))) by lia.
  rewrite Z.add_mod by (vm_compute; discriminate).
  rewrite wrap64_congruent, IH. reflexivity.
Qed.

(** The [int64] sums of the days of a column add up to the sum of the
    column, modulo 2^64, and exactly when no day's sum overflows. *)
Lemma day_sums_conserve (column : Epoch -> Z) (df : DataFrame) :
  let exact d := sumZ (map column (filter (fun r => Split_Day r =? d) df)) in
  let held :=
    sumZ (map (fun d => sum_int64 (map column
                                       (filter (fun r => Split_Day r =? d) df)))
              (days df)) in
  (held - sumZ (map column df)) mod 2 ^ 64 = 0
  /\ (Forall (fun d => - 2 ^ 63 <= exact d < 2 ^ 63) (days df) ->
      held = sumZ (map column df)).
Proof.
  intros exact held.
  assert (Hsum : sumZ (map exact (days df)) = sumZ (map column df)).
  { rewrite <- (sum_over_groups Split_Day column (days df) df).
    - f_equal. apply map_ext. intro d. unfold exact. do 2 f_equal.
      apply filter_ext. intro r. symmetry. apply key_eqb_Z.
    - apply group_keys_NoDup.
    - intros a Ha. apply group_keys_In. apply in_map. exact Ha. }
  assert (Hheld : held = sumZ (map (fun d => wrap64 (exact d)) (days df))).
  { unfold held. f_equal. apply map_ext. intro d. apply sum_int64_eq. }
  split.
  - rewrite Hheld, <- Hsum. apply sumZ_wrap64_congruent.
  - intro Hfit. rewrite Hheld, <- Hsum. f_equal. apply map_ext_in.
    intros d Hd. rewrite Forall_forall in Hfit. apply wrap64_small, Hfit, Hd.
Qed.

(** [total_values] loses no epoch: the per-day Activity sums it returns add
    up to the Activity of the whole table, and likewise for Light: exactly
    when no day's sum overflows its [int64] cell, and modulo 2^64 in any
    case.  It raises only on a table without rows. *)
Theorem total_values_conserves (df : DataFrame) (rec_freq : Z) :
  match total_values df rec_freq with
  | Ok out =>
      let fits (column : Epoch -> Z) :=
        forall d t, In d (tv_Split_Day out) ->
                    adds_up (map column (filter (fun r => Split_Day r =? d) df)) t ->
                    - 2 ^ 63 <= t < 2 ^ 63 in
      (forall s t, adds_up (tv_Activity out) s -> adds_up (map Activity df) t ->
                   (s - t) mod 2 ^ 64 = 0 /\ (fits Activity -> s = t))
      /\ (forall s t, adds_up (tv_Light out) s -> adds_up (map Light df) t ->
                      (s - t) mod 2 ^ 64 = 0 /\ (fits Light -> s = t))
  | Raise _ => df = []
  end.
Proof.
  destruct df as [|r0 df0] eqn:Edf; [reflexivity|].
  rewrite total_values_eq. rewrite <- Edf.
  cbn [tv_Activity tv_Light tv_Split_Day]. fold (days df).
  split; intros s t Hs Ht; apply adds_up_sumZ in Hs, Ht; subst s t.
  - destruct (day_sums_conserve Activity df) as [Hmod Hfit].
    split; [exact Hmod|]. intro Hfits. apply Hfit. apply Forall_forall.
    intros d Hd. apply (Hfits d _ Hd). apply adds_up_sumZ. reflexivity.
  - destruct (day_sums_conserve Light df) as [Hmod Hfit].
    split; [exact Hmod|]. intro Hfits. apply Hfit. apply Forall_forall.
    intros d Hd. apply (Hfits d _ Hd). apply adds_up_sumZ. reflexivity.
Qed.

(** ** The pivot counts every epoch once *)

Lemma key_eqb_pair {A B : Type} `{Ord A} `{Ord B} (x x' : A) (y y' : B) :
  key_eqb (x, y) (x', y') = key_eqb x x' && key_eqb y y'.
Proof.
  unfold key_eqb. cbn [cmp Ord_pair]. unfold cmp_pair. cbn [fst snd].
  destruct (cmp x x'); reflexivity.
Qed.

Lemma filter_filter_and {A : Type} (p q : A -> bool) (l : list A) :
  filter p (filter q l) = filter (fun a => q a && p a) l.
Proof.
  induction l as [|a l IH]; [reflexivity|]. cbn [filter].
  destruct (q a); cbn [filter andb]; rewrite IH; reflexivity.
Qed.

(** The epochs of a (Split_Day, Interval) pair. *)
Definition phase_rows (df : DataFrame) (k : Z * string) : list Epoch :=
  filter (fun r => key_eqb (Split_Day r, Interval r) k) df.

Lemma count_epochs_split (df : DataFrame) (k : Z * string) (c : string) :
  count_epochs df k c
  = Z.of_nat (List.length (filter (fun r => key_eqb (Sleep_Acti r) c)
                                  (phase_rows df k))).
Proof.
  unfold count_epochs, phase_rows. rewrite filter_filter_and. do 2 f_equal.
  apply filter_ext. intro r. apply key_eqb_pair.
Qed.

Lemma count_epochs_split' (df : DataFrame) (k : Z * string) (c : string) :
  count_epochs df k c
  = Z.of_nat (List.length (filter (fun r => key_eqb (Split_Day r, Interval r) k)
                                  (filter (fun r => key_eqb (Sleep_Acti r) c) df))).
Proof.
  unfold count_epochs. rewrite filter_filter_and. do 2 f_equal.
  apply filter_ext. intro r. rewrite key_eqb_pair. apply andb_comm.
Qed.

(** Along a row of the pivot the counts add up to the epochs of the row. *)
Lemma count_epochs_row_total (df : DataFrame) (k : Z * string) :
  sumZ (map (count_epochs df k) (group_keys (map Sleep_Acti df)))
  = Z.of_nat (List.length (phase_rows df k)).
Proof.
  rewrite (map_ext _ _ (count_epochs_split df k)).
  apply (length_over_groups Sleep_Acti).
  - apply group_keys_NoDup.
  - intros r Hr. apply group_keys_In. apply in_map.
    unfold phase_rows in Hr. apply filter_In in Hr. tauto.
Qed.

(** Every epoch of the table is counted in exactly one cell of the pivot:
    the cells add up to the number of rows of the table. *)
Theorem sleep_wake_pivot_total (df : DataFrame) :
  sumZ (map (fun cv => sumZ (snd cv)) (columns (sleep_wake_pivot df)))
  = Z.of_nat (List.length df).
Proof.
  rewrite sleep_wake_pivot_eq. cbn [columns]. rewrite map_map. cbn [snd].
  rewrite <- (length_over_groups Sleep_Acti (group_keys (map Sleep_Acti df)) df).
  - f_equal. apply map_ext. intro c.
    rewrite (map_ext _ _ (fun k => count_epochs_split' df k c)).
    apply (length_over_groups (fun r => (Split_Day r, Interval r))).
    + apply group_keys_NoDup.
    + intros r Hr. apply group_keys_In.
      apply (in_map (fun r => (Split_Day r, Interval r))).
      apply filter_In in Hr. tauto.
  - apply group_keys_NoDup.
  - intros r Hr. apply group_keys_In. apply in_map. exact Hr.
Qed.

(** When every epoch is classified Sleep or Wake, the Sleep and the Wake
    count of a phase add up to its number of epochs. *)
Lemma counts_cover_phase (df : DataFrame) (k : Z * string) :
  Forall (fun r => Sleep_Acti r = "Sleep" \/ Sleep_Acti r = "Wake") df ->
  In "Sleep" (map Sleep_Acti df) -> In "Wake" (map Sleep_Acti df) ->
  count_epochs df k "Sleep" + count_epochs df k "Wake"
  = Z.of_nat (List.length (phase_rows df k)).
Proof.
  intros Hlab Hs Hw.
  assert (Hcols : group_keys (map Sleep_Acti df) = ["Sleep"; "Wake"]).
  { apply StrictSorted_ext; [apply group_keys_sorted | |].
    - assert (E : group_keys ["Sleep"; "Wake"] = ["Sleep"; "Wake"]) by reflexivity.
      rewrite <- E. apply group_keys_sorted.
    - intro c. rewrite group_keys_In. split.
      + intro Hc. apply (proj1 (in_map_iff _ _ _)) in Hc.
        destruct Hc as [r [<- Hr]]. rewrite Forall_forall in Hlab.
        destruct (Hlab r Hr) as [-> | ->]; [left | right; left]; reflexivity.
      + intros [<- | [<- | []]]; assumption. }
  pose proof (count_epochs_row_total df k) as Htot. rewrite Hcols in Htot.
  cbn [map sumZ fold_right] in Htot. lia.
Qed.

(** When every epoch is classified Sleep or Wake, each row of the table
    [sleep_metrics] returns is a Rest phase whose Sleep and Wake counts add
    up to its number of epochs, which is at least 1: the quotient in SE is
    never 0/0. *)
Theorem sleep_metrics_denominator (df : DataFrame) (rec_freq : Z)
        (out : SleepMetrics) :
  Forall (fun r => Sleep_Acti r = "Sleep" \/ Sleep_Acti r = "Wake") df ->
  sleep_metrics df rec_freq = Ok out ->
  Forall (fun k => snd k = "Rest"
                   /\ count_epochs df k "Sleep" + count_epochs df k "Wake"
                      = Z.of_nat (List.length (phase_rows df k))
                   /\ 1 <= count_epochs df k "Sleep" + count_epochs df k "Wake")
         (sm_index out)
  /\ SE out
     = map (fun k => (100 * (Z2F (count_epochs df k "Sleep")
                             / Z2F (count_epochs df k "Sleep"
                                    + count_epochs df k "Wake")))%float)
           (sm_index out).
Proof.
  intros Hlab Hout. pose proof (sleep_metrics_cases df rec_freq) as Hspec.
  cbv zeta in Hspec. rewrite Hout in Hspec.
  destruct Hspec as [Hs [Hw [_ [Hidx [_ [HSE _]]]]]].
  split; [|rewrite Hidx; exact HSE].
  rewrite Hidx. apply Forall_forall. intros k Hk.
  apply filter_In in Hk. destruct Hk as [Hk Hrest].
  apply key_eqb_eq in Hrest.
  pose proof (counts_cover_phase df k Hlab Hs Hw) as Htot.
  assert (Hpos : (0 < List.length (phase_rows df k))%nat).
  { apply (proj1 (group_keys_In _ _)) in Hk.
    apply (proj1 (in_map_iff _ _ _)) in Hk. destruct Hk as [r [E Hr]].
    assert (Hin : In r (phase_rows df k)).
    { unfold phase_rows. apply filter_In. split; [exact Hr|].
      apply key_eqb_eq. exact E. }
    destruct (phase_rows df k); [destruct Hin | cbn; lia]. }
  repeat split; [exact Hrest | lia | lia].
Qed.

Lemma sleep_metrics_denominator_witness :
  Forall (fun k => snd k = "Rest"
                   /\ count_epochs two_nights k "Sleep" + count_epochs two_nights k "Wake"
                      = Z.of_nat (List.length (phase_rows two_nights k))
                   /\ 1 <= count_epochs two_nights k "Sleep"
                           + count_epochs two_nights k "Wake")
         [(1, "Rest")]
  /\ [100%float]
     = map (fun k => (100 * (Z2F (count_epochs two_nights k "Sleep")
                             / Z2F (count_epochs two_nights k "Sleep"
                                    + count_epochs two_nights k "Wake")))%float)
           [(1, "Rest")].
Proof.
  apply (sleep_metrics_denominator two_nights 30
           {| sm_index := [(1, "Rest")];
              sm_counts := [("Sleep", [1]); ("Wake", [0])];
              TST_Min := [0.5%float]; WASO_Min := [0%float]; SE := [100%float];
              sm_watch_ID := ["w1"] |}).
  - repeat (constructor; [first [left; reflexivity | right; reflexivity]|]).
    constructor.
  - vm_compute. reflexivity.
Defined.

(** ** sleep_latency on every table *)

(** The transition phases that occur in the table. *)
Definition present_transitions (df : DataFrame) : list string :=
  filter (fun phase => contains phase (map Interval df))
         ["Falling_Asleep"; "Waking_Up"].

Definition transition_days_of (df : DataFrame) : list Z :=
  group_keys (map Split_Day (filter (fun r => is_transition (Interval r)) df)).

Lemma transition_labels_present (df : DataFrame) :
  group_keys (map (fun k => latency_label (snd k)) (transitions df))
  = map latency_label (present_transitions df).
Proof.
  apply StrictSorted_ext; [apply group_keys_sorted | |].
  - unfold present_transitions. cbn [filter].
    destruct (contains "Falling_Asleep" _), (contains "Waking_Up" _); cbn [map].
    + assert (E : group_keys ["Sleep_Latency_Min"; "Wake_Latency_Min"]
                  = [latency_label "Falling_Asleep"; latency_label "Waking_Up"])
        by reflexivity.
      rewrite <- E. apply group_keys_sorted.
    + constructor; constructor.
    + constructor; constructor.
    + constructor.
  - intro c. rewrite group_keys_In, !in_map_iff. unfold present_transitions. split.
    + intros [k [<- Hk]]. apply transitions_In in Hk.
      destruct Hk as [Ht [r [Hr [_ E]]]]. exists (snd k). split; [reflexivity|].
      apply filter_In. split.
      * apply is_transition_cases in Ht. destruct Ht as [-> | ->];
          [left | right; left]; reflexivity.
      * apply contains_In. rewrite <- E. apply in_map. exact Hr.
    + intros [phase [<- Hp]]. apply filter_In in Hp. destruct Hp as [Hp Hc].
      apply (proj1 (contains_In _ _)) in Hc.
      apply (proj1 (in_map_iff _ _ _)) in Hc. destruct Hc as [r [E Hr]].
      exists (Split_Day r, Interval r). cbn [snd]. rewrite E.
      split; [reflexivity|]. apply transitions_In. cbn [fst snd].
      split; [|exists r; auto].
      apply contains_In. exact Hp.
Qed.

Lemma latency_pivot_present (df : DataFrame) (minutes : float) :
  Pandas.pivot (latency_entries df minutes)
  = Ok {| index := transition_days_of df;
          columns :=
            map (fun c => (c, map (fun d => lookup (d, c) (latency_entries df minutes))
                                  (transition_days_of df)))
                (map latency_label (present_transitions df)) |}.
Proof.
  unfold Pandas.pivot.
  assert (Hkeys : map fst (latency_entries df minutes)
                  = map entry_key (transitions df)).
  { unfold latency_entries. rewrite map_map. reflexivity. }
  rewrite Hkeys, has_duplicates_NoDup.
  2:{ apply NoDup_map_on.
      - apply NoDup_filter, group_keys_NoDup.
      - exact (entry_key_inj df). }
  assert (E1 : group_keys (map (fun e : Z * string * float => fst (fst e))
                               (latency_entries df minutes))
               = transition_days_of df).
  { unfold latency_entries. rewrite map_map. exact (transition_days df). }
  assert (E2 : group_keys (map (fun e : Z * string * float => snd (fst e))
                               (latency_entries df minutes))
               = map latency_label (present_transitions df)).
  { unfold latency_entries. rewrite map_map. exact (transition_labels_present df). }
  unfold unstack. cbv zeta. rewrite E1, E2. reflexivity.
Qed.

Lemma transition_days_nonempty (df : DataFrame) :
  has_interval df "Falling_Asleep" -> transition_days_of df <> [].
Proof.
  intros [r [Hr E]] Hnil.
  assert (Hin : In (Split_Day r) (transition_days_of df)).
  { apply group_keys_In. apply in_map. apply filter_In. split; [exact Hr|].
    rewrite E. reflexivity. }
  rewrite Hnil in Hin. exact Hin.
Qed.

Lemma sleep_latency_cases (df : DataFrame) (rec_freq : Z) :
  match sleep_latency df rec_freq with
  | Ok None => ~ has_interval df "Falling_Asleep"
  | Ok (Some out) =>
      has_interval df "Falling_Asleep"
      /\ In "Sleep" (map Sleep_Acti df) /\ In "Wake" (map Sleep_Acti df)
      /\ sl_Split_Day out = transition_days_of df
      /\ (exists minutes,
            py_truediv rec_freq 60 = Ok minutes
            /\ (0 <= rec_freq < 2 ^ 53 -> minutes = (Z2F rec_freq / 60)%float)
            /\ sl_columns out
               = map (fun phase => (latency_label phase,
                                    map (phase_latency df minutes phase)
                                        (transition_days_of df)))
                     (present_transitions df))
      /\ map fst (sl_columns out)
         = "Sleep_Latency_Min"
             :: (if contains "Waking_Up" (map Interval df)
                 then ["Wake_Latency_Min"] else [])
      /\ stamped_with_first df (sl_watch_ID out)
                            (List.length (transition_days_of df))
  | Raise e =>
      has_interval df "Falling_Asleep"
      /\ ((e = KeyError ["Sleep"] /\ ~ In "Sleep" (map Sleep_Acti df))
          \/ (e = KeyError ["Wake"] /\ In "Sleep" (map Sleep_Acti df)
              /\ ~ In "Wake" (map Sleep_Acti df))
          \/ (e = OverflowError /\ In "Sleep" (map Sleep_Acti df)
              /\ In "Wake" (map Sleep_Acti df)
              /\ py_truediv rec_freq 60 = Raise OverflowError))
  end.
Proof.
  unfold sleep_latency.
  destruct (contains "Falling_Asleep" (unique (map Interval df))) eqn:Efa; cbn [negb].
  2:{ apply contains_false in Efa. rewrite unique_In in Efa.
      intros [r [Hr E]]. apply Efa. rewrite <- E. apply in_map. exact Hr. }
  assert (Hfa : has_interval df "Falling_Asleep").
  { apply (proj1 (contains_In _ _)) in Efa. apply (proj1 (unique_In _ _)) in Efa.
    apply (proj1 (in_map_iff _ _ _)) in Efa. destruct Efa as [r [E Hr]].
    exists r. auto. }
  rewrite !latency_filter_loc.
  destruct (contains "Sleep" (group_keys (map Sleep_Acti df))) eqn:Es; cbn [bind].
  2:{ split; [exact Hfa|]. left. split; [reflexivity|].
      apply contains_false in Es. rewrite group_keys_In in Es. exact Es. }
  pose proof Es as Hs.
  apply (proj1 (contains_In _ _)) in Hs. apply (proj1 (group_keys_In _ _)) in Hs.
  destruct (contains "Wake" (group_keys (map Sleep_Acti df))) eqn:Ew; cbn [bind].
  2:{ split; [exact Hfa|]. right. left. split; [reflexivity|]. split; [exact Hs|].
      apply contains_false in Ew. rewrite group_keys_In in Ew. exact Ew. }
  pose proof Ew as Hw.
  apply (proj1 (contains_In _ _)) in Hw. apply (proj1 (group_keys_In _ _)) in Hw.
  destruct (py_truediv_60 rec_freq) as [[minutes Hm] | Hover].
  2:{ rewrite Hover. cbn [bind]. split; [exact Hfa|]. right. right. auto. }
  rewrite Hm. cbn [bind].
  unfold drop. rewrite filter_rows_column_names, sleep_wake_pivot_columns.
  cbn [filter]. rewrite Es, Ew. cbn [negb bind].
  rewrite latency_filter_index, latency_entries_eq, latency_pivot_present.
  cbn [bind].
  destruct (first_watch_ID_hd df) as [w [Hhd Hfirst]].
  { destruct Hfa as [r [Hr _]]. intro E. rewrite E in Hr. destruct Hr. }
  rewrite Hfirst. cbn [bind]. unfold frame_map. cbn [index columns].
  rewrite assign_scalar_ok by (apply transition_days_nonempty; exact Hfa).
  cbn [bind sl_Split_Day sl_columns sl_watch_ID].
  split; [exact Hfa|]. split; [exact Hs|]. split; [exact Hw|].
  split; [reflexivity|]. split; [|split].
  - exists minutes. split; [reflexivity|]. split.
    + intro Hsmall. rewrite (py_truediv_small _ Hsmall) in Hm. congruence.
    + rewrite !map_map. cbn [fst snd]. apply map_ext_in. intros phase Hp.
      f_equal. rewrite map_map. apply map_ext. intro d.
      apply (transition_cell df minutes d phase).
      unfold present_transitions in Hp. apply filter_In in Hp.
      apply contains_In. tauto.
  - rewrite !map_map. cbn [fst]. unfold present_transitions. cbn [filter].
    assert (Hc : contains "Falling_Asleep" (map Interval df) = true).
    { destruct Hfa as [r [Hr E]]. apply contains_In. rewrite <- E.
      apply in_map. exact Hr. }
    rewrite Hc. destruct (contains "Waking_Up" (map Interval df)); reflexivity.
  - exists w. split; [|split; [exact Hhd | apply map_const_repeat]].
    rewrite unique_hd. exact Hhd.
Qed.

(** What [sleep_latency] does on every table.  Without a Falling_Asleep
    epoch it returns [None].  With one, it raises [KeyError] when the table
    has no Sleep epoch, or no Wake epoch, and [OverflowError] when
    [rec_freq / 60] does not fit in a float; otherwise it returns one row
    per Split_Day that has a transition phase, with a latency column for
    each transition phase that occurs in the table and for no other: a
    table without Waking_Up epochs gets the Sleep_Latency_Min column
    alone. *)
Theorem sleep_latency_outcome (df : DataFrame) (rec_freq : Z) :
  match sleep_latency df rec_freq with
  | Ok None => ~ has_interval df "Falling_Asleep"
  | Ok (Some out) =>
      has_interval df "Falling_Asleep"
      /\ In "Sleep" (map Sleep_Acti df) /\ In "Wake" (map Sleep_Acti df)
      /\ sl_Split_Day out = transition_days_of df
      /\ (exists minutes,
            py_truediv rec_freq 60 = Ok minutes
            /\ (0 <= rec_freq < 2 ^ 53 -> minutes = (Z2F rec_freq / 60)%float)
            /\ sl_columns out
               = map (fun phase => (latency_label phase,
                                    map (phase_latency df minutes phase)
                                        (transition_days_of df)))
                     (present_transitions df))
      /\ map fst (sl_columns out)
         = "Sleep_Latency_Min"
             :: (if contains "Waking_Up" (map Interval df)
                 then ["Wake_Latency_Min"] else [])
      /\ stamped_with_first df (sl_watch_ID out)
                            (List.length (transition_days_of df))
  | Raise e =>
      has_interval df "Falling_Asleep"
      /\ ((e = KeyError ["Sleep"] /\ ~ In "Sleep" (map Sleep_Acti df))
          \/ (e = KeyError ["Wake"] /\ In "Sleep" (map Sleep_Acti df)
              /\ ~ In "Wake" (map Sleep_Acti df))
          \/ (e = OverflowError /\ In "Sleep" (map Sleep_Acti df)
              /\ In "Wake" (map Sleep_Acti df)
              /\ py_truediv rec_freq 60 = Raise OverflowError))
  end.
Proof. exact (sleep_latency_cases df rec_freq). Qed.

(** The failures that do not come from a missing label: an epoch length
    whose quotient by 60 is beyond the floats, and, for [sleep_metrics], a
    table without any Rest phase, which leaves no row to write the watch
    identifier to. *)
Example reducers_other_failures :
  sleep_latency two_subjects (10 ^ 400) = Raise OverflowError
  /\ sleep_metrics two_subjects (10 ^ 400) = Raise OverflowError
  /\ sleep_metrics only_active 30 = Raise ValueError
  /\ sleep_metrics [] 30 = Raise (KeyError ["Sleep"]).
Proof. repeat split; vm_compute; reflexivity. Qed.

(** ** sleep_latency on a table with both transition phases *)

(** Three days: the first falls asleep over four epochs, one of them
    neither Sleep nor Wake, and does not wake up; the second wakes up over
    two epochs; the third falls asleep in one. *)
Definition latency_sample : DataFrame :=
  [epoch "w1" 1 21 "Active" "Wake" 30;
   epoch "w1" 1 22 "Falling_Asleep" "Wake" 4;
   epoch "w1" 1 22 "Falling_Asleep" "Unscored" 2;
   epoch "w1" 1 22 "Falling_Asleep" "Wake" 2;
   epoch "w1" 1 22 "Falling_Asleep" "Sleep" 0;
   epoch "w1" 1 23 "Rest" "Sleep" 0;
   epoch "w1" 2 7 "Waking_Up" "Sleep" 0;
   epoch "w1" 2 7 "Waking_Up" "Wake" 3;
   epoch "w1" 2 8 "Active" "Wake" 40;
   epoch "w1" 3 22 "Falling_Asleep" "Wake" 1].

(** [sleep_latency] on a table that has a Falling_Asleep epoch, a Waking_Up
    epoch, a Sleep epoch and a Wake epoch, for a [rec_freq] whose quotient
    by 60 is the float [minutes]: the table it returns has one row per
    Split_Day with a transition phase, in increasing order, and the two
    columns Sleep_Latency_Min and Wake_Latency_Min.  A day's entry is the
    number of the phase's epochs that are classified Sleep or Wake, times
    [minutes], and 0 when the day does not have the phase; when every epoch
    of the table is classified Sleep or Wake that number is the number of
    epochs of the phase. *)
Theorem sleep_latency_spec (df : DataFrame) (rec_freq : Z) (minutes : float) :
  has_interval df "Falling_Asleep" -> has_interval df "Waking_Up" ->
  In "Sleep" (map Sleep_Acti df) -> In "Wake" (map Sleep_Acti df) ->
  py_truediv rec_freq 60 = Ok minutes ->
  let days := group_keys (map Split_Day
                              (filter (fun r => is_transition (Interval r)) df)) in
  (exists w,
      hd_error (map watch_ID df) = Some w
      /\ sleep_latency df rec_freq
         = Ok (Some {| sl_Split_Day := days;
                       sl_columns :=
                         [("Sleep_Latency_Min",
                           map (phase_latency df minutes "Falling_Asleep") days);
                          ("Wake_Latency_Min",
                           map (phase_latency df minutes "Waking_Up") days)];
                       sl_watch_ID := repeat w (List.length days) |}))
  /\ (forall d phase,
        (forall r, In r df -> Split_Day r = d -> Interval r <> phase) ->
        phase_latency df minutes phase d = 0%float)
  /\ (forall d phase,
        (exists r, In r df /\ Split_Day r = d /\ Interval r = phase) ->
        phase_latency df minutes phase d
        = fillna 0 (Some (Z2F (count_epochs df (d, phase) "Sleep"
                               + count_epochs df (d, phase) "Wake")
                          * minutes)%float))
  /\ (Forall (fun r => Sleep_Acti r = "Sleep" \/ Sleep_Acti r = "Wake") df ->
      forall d phase,
        count_epochs df (d, phase) "Sleep" + count_epochs df (d, phase) "Wake"
        = Z.of_nat (List.length
                      (filter (fun r => (Split_Day r =? d)
                                        && key_eqb (Interval r) phase) df))).
Proof.
  intros Hfa Hwu Hs Hw Hq days. split; [|split; [|split]].
  - pose proof (sleep_latency_cases df rec_freq) as Hcases.
    destruct (sleep_latency df rec_freq) as [[out|]|e].
    + destruct Hcases as [_ [_ [_ [Hdays [[m [Hm [_ Hcols]]] [_ Hstamp]]]]]].
      rewrite Hq in Hm. inversion Hm. subst m.
      destruct Hstamp as [w [_ [Hhd Hids]]]. exists w. split; [exact Hhd|].
      assert (Hboth : present_transitions df = ["Falling_Asleep"; "Waking_Up"]).
      { unfold present_transitions. cbn [filter].
        assert (Hc : forall label, has_interval df label ->
                                   contains label (map Interval df) = true).
        { intros label [r [Hr E]]. apply contains_In. rewrite <- E.
          apply in_map. exact Hr. }
        rewrite (Hc _ Hfa), (Hc _ Hwu). reflexivity. }
      rewrite Hboth in Hcols. cbn [map] in Hcols.
      destruct out as [od oc oi]. cbn [sl_Split_Day sl_columns sl_watch_ID] in *.
      subst od oc oi. reflexivity.
    + destruct (Hcases Hfa).
    + destruct Hcases as [_ [[_ Hn] | [[_ [_ Hn]] | [_ [_ [_ Hover]]]]]].
      * destruct (Hn Hs).
      * destruct (Hn Hw).
      * rewrite Hq in Hover. discriminate.
  - intros d phase Hno. unfold phase_latency.
    destruct (contains (d, phase) (day_phases df)) eqn:E; [|reflexivity].
    exfalso. apply (proj1 (contains_In _ _)) in E. unfold day_phases in E.
    apply (proj1 (group_keys_In _ _)) in E.
    apply (proj1 (in_map_iff _ _ _)) in E. destruct E as [r [Er Hr]].
    inversion Er. exact (Hno r Hr H0 H1).
  - intros d phase [r [Hr [Hd Hp]]]. unfold phase_latency.
    replace (contains (d, phase) (day_phases df)) with true; [reflexivity|].
    symmetry. apply contains_In. unfold day_phases. apply group_keys_In.
    rewrite <- Hd, <- Hp. apply (in_map (fun r => (Split_Day r, Interval r))).
    exact Hr.
  - intros Hlab d phase. rewrite (counts_cover_phase df (d, phase) Hlab Hs Hw).
    unfold phase_rows. do 2 f_equal. apply filter_ext. intro r.
    rewrite key_eqb_pair, key_eqb_Z. reflexivity.
Qed.

Lemma sleep_latency_spec_witness :
  sleep_latency latency_sample 15
  = Ok (Some {| sl_Split_Day := [1; 2; 3];
                sl_columns :=
                  [("Sleep_Latency_Min", [0.75%float; 0%float; 0.25%float]);
                   ("Wake_Latency_Min", [0%float; 0.5%float; 0%float])];
                sl_watch_ID := ["w1"; "w1"; "w1"] |}).
Proof.
  destruct (sleep_latency_spec latency_sample 15 0.25%float) as [[w [Hw Hout]] _].
  - exists (epoch "w1" 1 22 "Falling_Asleep" "Wake" 4).
    split; [right; left|]; reflexivity.
  - exists (epoch "w1" 2 7 "Waking_Up" "Wake" 3).
    split; [do 7 right; left|]; reflexivity.
  - do 4 right. left. reflexivity.
  - left. reflexivity.
  - vm_compute. reflexivity.
  - rewrite Hout. inversion Hw. vm_compute. reflexivity.
Defined.

(** ** The order of the epochs in the table *)

Section RowOrder.
Context {K : Type} `{Ord K}.

Lemma group_keys_Permutation (l l' : list K) :
  Permutation l l' -> group_keys l = group_keys l'.
Proof.
  intro Hp. apply StrictSorted_ext; try apply group_keys_sorted.
  intro x. rewrite !group_keys_In. split; apply Permutation_in.
  - exact Hp.
  - apply Permutation_sym. exact Hp.
Qed.

Lemma filter_Permutation {A : Type} (p : A -> bool) (l l' : list A) :
  Permutation l l' -> Permutation (filter p l) (filter p l').
Proof.
  induction 1 as [|x l l' Hp IH|x y l|l l' l'' H1 IH1 H2 IH2]; cbn [filter].
  - constructor.
  - destruct (p x); [constructor|]; exact IH.
  - destruct (p x), (p y); try reflexivity. constructor.
  - exact (Permutation_trans IH1 IH2).
Qed.

Lemma sumZ_Permutation (l l' : list Z) : Permutation l l' -> sumZ l = sumZ l'.
Proof.
  induction 1 as [|x l l' Hp IH|x y l|l l' l'' H1 IH1 H2 IH2];
    unfold sumZ in *; cbn [fold_right]; lia.
Qed.

Lemma sum_int64_Permutation (l l' : list Z) :
  Permutation l l' -> sum_int64 l = sum_int64 l'.
Proof. intro Hp. rewrite !sum_int64_eq, (sumZ_Permutation l l' Hp). reflexivity. Qed.

(** A per-group reduction that does not look at the order of the rows of a
    group gives the same table whatever the order of the rows. *)
Lemma groupby_Permutation {A B : Type} (key : A -> K) (reduce : list A -> B)
      (l l' : list A) :
  (forall g g', Permutation g g' -> reduce g = reduce g') ->
  Permutation l l' ->
  map (fun g => (fst g, reduce (snd g))) (groupby key l)
  = map (fun g => (fst g, reduce (snd g))) (groupby key l').
Proof.
  intros Hred Hp. unfold groupby. rewrite !map_map. cbn [fst snd].
  rewrite (group_keys_Permutation (map key l) (map key l'))
    by (apply Permutation_map; exact Hp).
  apply map_ext. intro k. f_equal. apply Hred. apply filter_Permutation. exact Hp.
Qed.

End RowOrder.

Lemma min_DateTime_least (g : list Epoch) :
  match min_DateTime g with
  | Some m => (exists r, In r g /\ DateTime r = m)
              /\ forall r, In r g -> m <= DateTime r
  | None => g = []
  end.
Proof.
  destruct g as [|r0 g]; [reflexivity|]. cbn [min_DateTime].
  assert (Hmin : forall g m0,
             let m := fold_left (fun m r' => Z.min m (DateTime r')) g m0 in
             (m = m0 \/ exists r, In r g /\ DateTime r = m)
             /\ m <= m0 /\ forall r, In r g -> m <= DateTime r).
  { clear. induction g as [|r g IH]; intro m0; cbn [fold_left].
    - split; [left; reflexivity|]. split; [lia|]. intros r [].
    - specialize (IH (Z.min m0 (DateTime r))). cbv zeta in IH.
      destruct IH as [Hin [Hle Hall]]. cbv zeta. split.
      + destruct Hin as [E | [q [Hq E]]].
        * destruct (Z.min_spec m0 (DateTime r)) as [[_ Em] | [_ Em]].
          -- left. congruence.
          -- right. exists r. split; [left; reflexivity | congruence].
        * right. exists q. split; [right; exact Hq | exact E].
      + split; [lia|]. intros q [<- | Hq]; [lia | apply Hall; exact Hq]. }
  destruct (Hmin g (DateTime r0)) as [Hin [Hle Hall]]. split.
  - destruct Hin as [E | [q [Hq E]]].
    + exists r0. split; [left; reflexivity | symmetry; exact E].
    + exists q. split; [right; exact Hq | exact E].
  - intros r [<- | Hr]; [exact Hle | apply Hall; exact Hr].
Qed.

Lemma min_DateTime_Permutation (g g' : list Epoch) :
  Permutation g g' -> min_DateTime g = min_DateTime g'.
Proof.
  intro Hp. pose proof (min_DateTime_least g) as H1.
  pose proof (min_DateTime_least g') as H2.
  destruct (min_DateTime g) as [m|], (min_DateTime g') as [m'|].
  - destruct H1 as [[r [Hr E]] Hall], H2 as [[r' [Hr' E']] Hall'].
    f_equal. apply Z.le_antisymm.
    + rewrite <- E'. apply Hall. apply (Permutation_in r' (Permutation_sym Hp)).
      exact Hr'.
    + rewrite <- E. apply Hall'. apply (Permutation_in r Hp). exact Hr.
  - subst g'. apply Permutation_sym, Permutation_nil in Hp. subst g.
    destruct H1 as [[r [[] _]] _].
  - subst g. apply Permutation_nil in Hp. subst g'.
    destruct H2 as [[r [[] _]] _].
  - reflexivity.
Qed.

Section Reordered.
Variables df df' : DataFrame.
Hypothesis same_rows : Permutation df df'.
Hypothesis same_first : hd_error (map watch_ID df) = hd_error (map watch_ID df').

Lemma first_watch_ID_reordered : first_watch_ID df = first_watch_ID df'.
Proof.
  destruct df as [|r l], df' as [|r' l']; try discriminate; [reflexivity|].
  cbn [map hd_error] in same_first. inversion same_first as [E].
  unfold first_watch_ID. cbn [map unique]. rewrite E. reflexivity.
Qed.

Lemma column_keys_reordered {K : Type} `{Ord K} (f : Epoch -> K) :
  group_keys (map f df) = group_keys (map f df').
Proof. apply group_keys_Permutation, Permutation_map, same_rows. Qed.

Lemma guard_reordered (label : string) :
  contains label (unique (map Interval df))
  = contains label (unique (map Interval df')).
Proof.
  destruct (contains label (unique (map Interval df'))) eqn:E.
  - apply contains_In, unique_In. apply (proj1 (contains_In _ _)) in E.
    apply (proj1 (unique_In _ _)) in E.
    apply (Permutation_in label (Permutation_sym (Permutation_map Interval same_rows))).
    exact E.
  - apply contains_false. apply contains_false in E. intro Hin. apply E.
    apply unique_In. apply (proj1 (unique_In _ _)) in Hin.
    apply (Permutation_in label (Permutation_map Interval same_rows)). exact Hin.
Qed.

Lemma sleep_wake_counts_reordered : sleep_wake_counts df = sleep_wake_counts df'.
Proof.
  unfold sleep_wake_counts.
  apply (groupby_Permutation _ (fun g => Z.of_nat (List.length g)));
    [|exact same_rows].
  intros g g' Hp. f_equal. apply Permutation_length. exact Hp.
Qed.

Lemma hourly_activity_reordered : hourly_activity df = hourly_activity df'.
Proof.
  unfold hourly_activity.
  apply (groupby_Permutation _ (fun g => sum_int64 (map Activity g)));
    [|exact same_rows].
  intros g g' Hp. apply sum_int64_Permutation, Permutation_map. exact Hp.
Qed.

Lemma earliest_times_reordered : earliest_times df = earliest_times df'.
Proof.
  unfold earliest_times, groupby. rewrite !flat_map_map. cbn [fst snd].
  rewrite (column_keys_reordered (fun r => (Split_Day r, Interval r))).
  apply flat_map_ext. intro k.
  rewrite (min_DateTime_Permutation _ (filter (fun r => key_eqb (Split_Day r, Interval r) k) df')).
  - reflexivity.
  - apply filter_Permutation. exact same_rows.
Qed.

Lemma reducers_reordered (rec_freq start_hour : Z) :
  sleep_metrics df rec_freq = sleep_metrics df' rec_freq
  /\ sleep_latency df rec_freq = sleep_latency df' rec_freq
  /\ bedtime df = bedtime df'
  /\ relative_amplitude df start_hour = relative_amplitude df' start_hour
  /\ total_values df rec_freq = total_values df' rec_freq.
Proof.
  repeat split.
  - unfold sleep_metrics, sleep_wake_pivot.
    rewrite sleep_wake_counts_reordered, first_watch_ID_reordered. reflexivity.
  - unfold sleep_latency, sleep_wake_pivot.
    rewrite sleep_wake_counts_reordered, first_watch_ID_reordered.
    rewrite (guard_reordered "Falling_Asleep"). reflexivity.
  - unfold bedtime.
    rewrite earliest_times_reordered, first_watch_ID_reordered.
    rewrite (guard_reordered "Waking_Up"). reflexivity.
  - unfold relative_amplitude, rest_phase, cyclic_hours.
    rewrite !sorted_unique, (column_keys_reordered Hour).
    rewrite hourly_activity_reordered, first_watch_ID_reordered. reflexivity.
  - unfold total_values. rewrite first_watch_ID_reordered.
    pose proof (groupby_Permutation Split_Day (fun g => sum_int64 (map Activity g)) df df') as Ha.
    pose proof (groupby_Permutation Split_Day (fun g => sum_int64 (map Light g)) df df') as Hl.
    assert (Hk : map fst (groupby Split_Day df) = map fst (groupby Split_Day df')).
    { rewrite !(groupby_keys Split_Day). apply (column_keys_reordered Split_Day). }
    assert (Hsa : map (fun g : Z * list Epoch => sum_int64 (map Activity (snd g)))
                      (groupby Split_Day df)
                  = map (fun g : Z * list Epoch => sum_int64 (map Activity (snd g)))
                        (groupby Split_Day df')).
    { apply (f_equal (map snd)) in Ha.
      - rewrite !map_map in Ha. exact Ha.
      - intros g g' Hp. apply sum_int64_Permutation, Permutation_map. exact Hp.
      - exact same_rows. }
    assert (Hsl : map (fun g : Z * list Epoch => sum_int64 (map Light (snd g)))
                      (groupby Split_Day df)
                  = map (fun g : Z * list Epoch => sum_int64 (map Light (snd g)))
                        (groupby Split_Day df')).
    { apply (f_equal (map snd)) in Hl.
      - rewrite !map_map in Hl. exact Hl.
      - intros g g' Hp. apply sum_int64_Permutation, Permutation_map. exact Hp.
      - exact same_rows. }
    rewrite Hk, Hsa, Hsl. reflexivity.
Qed.

End Reordered.

(** The five reducers do not depend on the order of the epochs in the
    table: two tables with the same rows in any order and the same
    watch_ID in their first row give the same result, returned table or
    raised exception. *)
Theorem row_order_irrelevant (df df' : DataFrame) (rec_freq start_hour : Z) :
  Permutation df df' ->
  hd_error (map watch_ID df) = hd_error (map watch_ID df') ->
  sleep_metrics df rec_freq = sleep_metrics df' rec_freq
  /\ sleep_latency df rec_freq = sleep_latency df' rec_freq
  /\ bedtime df = bedtime df'
  /\ relative_amplitude df start_hour = relative_amplitude df' start_hour
  /\ total_values df rec_freq = total_values df' rec_freq.
Proof.
  intros Hp Hw. exact (reducers_reordered df df' Hp Hw rec_freq start_hour).
Qed.

Lemma row_order_irrelevant_witness :
  sleep_metrics two_nights 30 = sleep_metrics (rev two_nights) 30
  /\ sleep_latency two_nights 30 = sleep_latency (rev two_nights) 30
  /\ bedtime two_nights = bedtime (rev two_nights)
  /\ relative_amplitude two_nights 0 = relative_amplitude (rev two_nights) 0
  /\ total_values two_nights 30 = total_values (rev two_nights) 30.
Proof.
  apply (row_order_irrelevant two_nights (rev two_nights) 30 0).
  - apply Permutation_rev.
  - reflexivity.
Defined.

(** The rolling sums are produced day by day and assigned to the rows by
    position.  On every table the list has one entry per row, and the
    entry a row gets is a rolling sum of the row's own day, at the row's own
    place in that day. *)
Theorem rolling_sums_line_up (df : DataFrame) (start_hour : Z) (w : nat) :
  exists rows,
    rest_phase df start_hour = Ok rows
    /\ List.length (rolling_by_day w rows) = List.length rows
    /\ combine rows (rolling_by_day w rows)
       = flat_map (fun d => combine (day_rows df start_hour d)
                                    (rolling_sum w (day_activity df start_hour d)))
                  (days df)
    /\ Forall (fun d => List.length (rolling_sum w (day_activity df start_hour d))
                        = List.length (day_rows df start_hour d))
              (days df).
Proof.
  exists (flat_map (day_rows df start_hour) (days df)).
  assert (Hlen : forall d,
             List.length (day_rows df start_hour d)
             = List.length (rolling_sum w (day_activity df start_hour d))).
  { intro d. rewrite rolling_sum_length. unfold day_rows, day_activity.
    rewrite !length_map. reflexivity. }
  split; [apply rest_phase_eq|]. rewrite rolling_by_day_eq. split; [|split].
  - generalize (days df). intro ds. induction ds as [|d ds IH]; [reflexivity|].
    cbn [flat_map]. rewrite !length_app, IH, Hlen. reflexivity.
  - apply combine_flat_map. exact Hlen.
  - apply Forall_forall. intros d _. symmetry. apply Hlen.
Qed.

(** ** The watch identifier on every table *)

Lemma assign_scalar_inv {K A : Type} (idx : list K) (v : A) (ids : list A) :
  assign_scalar idx v = Ok ids -> ids = map (fun _ => v) idx /\ ids <> [].
Proof.
  destruct idx as [|k idx]; [discriminate|]. intro E. injection E as <-.
  split; [reflexivity | discriminate].
Qed.

(** Whatever table a reducer returns has rows, and each of them carries the
    first identifier of the input. *)
Lemma returned_tables_stamped (df : DataFrame) (rec_freq start_hour : Z) :
  match sleep_metrics df rec_freq with
  | Ok out => stamped_with_first df (sm_watch_ID out) (List.length (sm_index out))
              /\ sm_watch_ID out <> []
  | Raise _ => True
  end
  /\ match sleep_latency df rec_freq with
     | Ok (Some out) =>
         stamped_with_first df (sl_watch_ID out) (List.length (sl_Split_Day out))
         /\ sl_watch_ID out <> []
     | _ => True
     end
  /\ match bedtime df with
     | Ok (Some out) =>
         stamped_with_first df (bt_watch_ID out) (List.length (bt_Split_Day out))
         /\ bt_watch_ID out <> []
     | _ => True
     end
  /\ match relative_amplitude df start_hour with
     | Ok out => stamped_with_first df (ra_watch_ID out) (List.length (ra_Split_Day out))
                 /\ ra_watch_ID out <> []
     | Raise _ => True
     end
  /\ match total_values df rec_freq with
     | Ok out => stamped_with_first df (tv_watch_ID out) (List.length (tv_Split_Day out))
                 /\ tv_watch_ID out <> []
     | Raise _ => True
     end.
Proof.
  destruct df as [|r0 df].
  { split; [exact I|]. split; [exact I|]. split; [exact I|]. split; exact I. }
  assert (Hstamp : forall (K : Type) (idx : list K) (ids : list string),
             assign_scalar idx (watch_ID r0) = Ok ids ->
             stamped_with_first (r0 :: df) ids (List.length idx) /\ ids <> []).
  { intros K idx ids E. apply assign_scalar_inv in E. destruct E as [-> Hne].
    split; [|exact Hne]. exists (watch_ID r0). repeat split.
    apply map_const_repeat. }
  split; [|split; [|split; [|split]]].
  - unfold sleep_metrics.
    destruct (loc _ "Sleep"); cbn [bind]; [|exact I].
    destruct (py_truediv rec_freq 60); cbn [bind]; [|exact I].
    destruct (loc _ "Wake"); cbn [bind]; [|exact I].
    rewrite first_watch_ID_cons. cbn [bind].
    destruct (assign_scalar _ _) as [ids|] eqn:E; cbn [bind]; [|exact I].
    cbn [sm_watch_ID sm_index]. apply Hstamp. exact E.
  - unfold sleep_latency.
    destruct (negb _); [exact I|].
    destruct (loc _ "Sleep"); cbn [bind]; [|exact I].
    destruct (loc _ "Wake"); cbn [bind]; [|exact I].
    destruct (py_truediv rec_freq 60); cbn [bind]; [|exact I].
    destruct (drop _ _); cbn [bind]; [|exact I].
    destruct (Pandas.pivot _); cbn [bind]; [|exact I].
    rewrite first_watch_ID_cons. cbn [bind].
    destruct (assign_scalar _ _) as [ids|] eqn:E; cbn [bind]; [|exact I].
    cbn [sl_watch_ID sl_Split_Day]. apply Hstamp. exact E.
  - unfold bedtime.
    destruct (negb _); [exact I|].
    destruct (Pandas.pivot _); cbn [bind]; [|exact I].
    destruct (drop _ _); cbn [bind]; [|exact I].
    destruct (loc _ "Rest"); cbn [bind]; [|exact I].
    destruct (loc _ "Waking_Up"); cbn [bind]; [|exact I].
    rewrite first_watch_ID_cons. cbn [bind].
    destruct (assign_scalar _ _) as [ids|] eqn:E; cbn [bind]; [|exact I].
    cbn [bt_watch_ID bt_Split_Day]. apply Hstamp. exact E.
  - unfold relative_amplitude.
    destruct (rest_phase _ _); cbn [bind]; [|exact I].
    rewrite first_watch_ID_cons. cbn [bind].
    destruct (assign_scalar _ _) as [ids|] eqn:E; cbn [bind]; [|exact I].
    cbn [ra_watch_ID ra_Split_Day]. rewrite length_map. apply Hstamp. exact E.
  - rewrite total_values_eq. cbn [tv_watch_ID tv_Split_Day].
    apply Hstamp. apply assign_scalar_ok. apply days_cons.
Qed.

(** C10.  No reducer looks at more than the first watch identifier, and
    none rejects a table of several subjects.  On every table, every row of
    every table a reducer returns carries the first distinct value of the
    input's watch_ID column, and the reducer's result is its result on the
    same table with every row restamped with that first identifier.  On a
    table with rows [total_values] and [relative_amplitude] always return
    such a table, with at least one row, and so do [sleep_metrics],
    [sleep_latency] and [bedtime] whenever the labels they read occur in
    the table (and [rec_freq] is an epoch length below 2^53), however many
    subjects the table has. *)
Theorem reducers_stamp_first_watch_ID (df : DataFrame) (rec_freq start_hour : Z) :
  match sleep_metrics df rec_freq with
  | Ok out => stamped_with_first df (sm_watch_ID out) (List.length (sm_index out))
  | Raise _ => True
  end
  /\ match sleep_latency df rec_freq with
     | Ok (Some out) =>
         stamped_with_first df (sl_watch_ID out) (List.length (sl_Split_Day out))
     | _ => True
     end
  /\ match bedtime df with
     | Ok (Some out) =>
         stamped_with_first df (bt_watch_ID out) (List.length (bt_Split_Day out))
     | _ => True
     end
  /\ match relative_amplitude df start_hour with
     | Ok out => stamped_with_first df (ra_watch_ID out) (List.length (ra_Split_Day out))
     | Raise _ => True
     end
  /\ match total_values df rec_freq with
     | Ok out => stamped_with_first df (tv_watch_ID out) (List.length (tv_Split_Day out))
     | Raise _ => True
     end
  /\ sleep_metrics df rec_freq = sleep_metrics (single_subject df) rec_freq
  /\ sleep_latency df rec_freq = sleep_latency (single_subject df) rec_freq
  /\ bedtime df = bedtime (single_subject df)
  /\ relative_amplitude df start_hour = relative_amplitude (single_subject df) start_hour
  /\ total_values df rec_freq = total_values (single_subject df) rec_freq
  /\ (df <> [] ->
      (exists w, hd_error (map watch_ID df) = Some w /\ first_watch_ID df = Ok w)
      /\ (exists out, total_values df rec_freq = Ok out /\ tv_watch_ID out <> [])
      /\ (exists out, relative_amplitude df start_hour = Ok out
                      /\ ra_watch_ID out <> [])
      /\ (In "Sleep" (map Sleep_Acti df) -> In "Wake" (map Sleep_Acti df) ->
          has_interval df "Rest" -> 0 <= rec_freq < 2 ^ 53 ->
          exists out, sleep_metrics df rec_freq = Ok out /\ sm_watch_ID out <> [])
      /\ (has_interval df "Falling_Asleep" ->
          In "Sleep" (map Sleep_Acti df) -> In "Wake" (map Sleep_Acti df) ->
          0 <= rec_freq < 2 ^ 53 ->
          exists out, sleep_latency df rec_freq = Ok (Some out)
                      /\ sl_watch_ID out <> [])
      /\ (has_interval df "Waking_Up" -> has_interval df "Falling_Asleep" ->
          has_interval df "Active" -> has_interval df "Rest" ->
          exists out, bedtime df = Ok (Some out) /\ bt_watch_ID out <> [])).
Proof.
  pose proof (returned_tables_stamped df rec_freq start_hour)
    as [Hsm [Hsl [Hbt [Hra Htv]]]].
  split. { destruct (sleep_metrics df rec_freq); [apply Hsm | exact I]. }
  split. { destruct (sleep_latency df rec_freq) as [[out|]|]; try exact I. apply Hsl. }
  split. { destruct (bedtime df) as [[out|]|]; try exact I. apply Hbt. }
  split. { destruct (relative_amplitude df start_hour); [apply Hra | exact I]. }
  split. { destruct (total_values df rec_freq); [apply Htv | exact I]. }
  assert (Hsingle :
    sleep_metrics df rec_freq = sleep_metrics (single_subject df) rec_freq
    /\ sleep_latency df rec_freq = sleep_latency (single_subject df) rec_freq
    /\ bedtime df = bedtime (single_subject df)
    /\ relative_amplitude df start_hour
       = relative_amplitude (single_subject df) start_hour
    /\ total_values df rec_freq = total_values (single_subject df) rec_freq).
  { destruct df as [|r0 df0]; [repeat split|].
    exact (reducers_restamp r0 df0 rec_freq start_hour). }
  destruct Hsingle as [H1 [H2 [H3 [H4 H5]]]].
  split; [exact H1|]. split; [exact H2|]. split; [exact H3|].
  split; [exact H4|]. split; [exact H5|].
  intro Hne.
  split; [exact (first_watch_ID_hd df Hne)|].
  split.
  { destruct (total_values df rec_freq) as [out|e] eqn:E.
    - exists out. split; [reflexivity | apply Htv].
    - exfalso. destruct df as [|r0 df0]; [congruence|].
      rewrite total_values_eq in E. discriminate. }
  split.
  { pose proof (relative_amplitude_eq df start_hour) as [Hcases _].
    destruct (relative_amplitude df start_hour) as [out|e].
    - exists out. split; [reflexivity | apply Hra].
    - congruence. }
  split.
  { intros Hs Hw Hrest Hfreq.
    pose proof (sleep_metrics_cases df rec_freq) as Hcases. cbv zeta in Hcases.
    destruct (sleep_metrics df rec_freq) as [out|e].
    - exists out. split; [reflexivity | apply Hsm].
    - exfalso.
      destruct Hcases as [[_ Hn] | [[_ [_ Hover]] | [[_ [_ Hn]] | [_ [_ [_ Hn]]]]]].
      + exact (Hn Hs).
      + rewrite (py_truediv_small _ Hfreq) in Hover. discriminate.
      + exact (Hn Hw).
      + exact (Hn Hrest). }
  split.
  { intros Hfa Hs Hw Hfreq.
    pose proof (sleep_latency_cases df rec_freq) as Hcases.
    destruct (sleep_latency df rec_freq) as [[out|]|e].
    - exists out. split; [reflexivity | apply Hsl].
    - destruct (Hcases Hfa).
    - exfalso.
      destruct Hcases as [_ [[_ Hn] | [[_ [_ Hn]] | [_ [_ [_ Hover]]]]]].
      + exact (Hn Hs).
      + exact (Hn Hw).
      + rewrite (py_truediv_small _ Hfreq) in Hover. discriminate. }
  intros Hwu Hfa Hac Hre.
  pose proof (bedtime_after_guard df Hwu) as Hb. cbv zeta in Hb.
  apply has_interval_contains in Hfa, Hac, Hre.
  cbn [filter] in Hb. rewrite Hfa, Hac, Hre in Hb. cbn [negb] in Hb.
  destruct Hb as [out Hout]. exists out. split; [exact Hout|].
  rewrite Hout in Hbt. apply Hbt.
Qed.

Lemma reducers_stamp_first_watch_ID_witness :
  map watch_ID two_subjects = ["w1"; "w2"; "w2"; "w3"]
  /\ first_watch_ID two_subjects = Ok "w1"
  /\ (exists out, sleep_metrics two_subjects 30 = Ok out
                  /\ sm_index out = [(1, "Rest")] /\ sm_watch_ID out = ["w1"])
  /\ (exists out, sleep_latency two_subjects 30 = Ok (Some out)
                  /\ sl_Split_Day out = [1; 2] /\ sl_watch_ID out = ["w1"; "w1"])
  /\ (exists out, bedtime two_subjects = Ok (Some out)
                  /\ bt_Split_Day out = [1; 2] /\ bt_watch_ID out = ["w1"; "w1"])
  /\ (exists out, relative_amplitude two_subjects 0 = Ok out
                  /\ ra_Split_Day out = [1; 2] /\ ra_watch_ID out = ["w1"; "w1"])
  /\ (exists out, total_values two_subjects 30 = Ok out
                  /\ tv_Split_Day out = [1; 2] /\ tv_watch_ID out = ["w1"; "w1"]).
Proof.
  pose proof (reducers_stamp_first_watch_ID two_subjects 30 0)
    as [Hsm [Hsl [Hbt [Hra [Htv [_ [_ [_ [_ [_ Hret]]]]]]]]]].
  assert (Hhas : forall label r, In r two_subjects -> Interval r = label ->
                                 has_interval two_subjects label).
  { intros label r Hr E. exists r. split; assumption. }
  destruct Hret as [[w [Hw Hfirst]] [[tv [Etv _]] [[ra [Era _]] [Hm [Hl Hb]]]]];
    [discriminate|].
  destruct Hm as [sm [Esm _]].
  { do 2 right. left. reflexivity. }
  { left. reflexivity. }
  { apply (Hhas _ (epoch "w2" 1 23 "Rest" "Sleep" 0)); [do 2 right; left|]; reflexivity. }
  { vm_compute. split; [discriminate | reflexivity]. }
  destruct Hl as [sl [Esl _]].
  { apply (Hhas _ (epoch "w2" 1 22 "Falling_Asleep" "Wake" 1)); [right; left|]; reflexivity. }
  { do 2 right. left. reflexivity. }
  { left. reflexivity. }
  { vm_compute. split; [discriminate | reflexivity]. }
  destruct Hb as [bt [Ebt _]].
  { apply (Hhas _ (epoch "w3" 2 7 "Waking_Up" "Wake" 3)); [do 3 right; left|]; reflexivity. }
  { apply (Hhas _ (epoch "w2" 1 22 "Falling_Asleep" "Wake" 1)); [right; left|]; reflexivity. }
  { apply (Hhas _ (epoch "w1" 1 9 "Active" "Wake" 12)); [left|]; reflexivity. }
  { apply (Hhas _ (epoch "w2" 1 23 "Rest" "Sleep" 0)); [do 2 right; left|]; reflexivity. }
  rewrite Esm in Hsm. rewrite Esl in Hsl. rewrite Ebt in Hbt.
  rewrite Era in Hra. rewrite Etv in Htv.
  inversion Hw as [Ew]. subst w.
  assert (Hids : forall ids n, stamped_with_first two_subjects ids n -> ids = repeat "w1" n).
  { intros ids n [w' [_ [Hw' ->]]]. inversion Hw'. reflexivity. }
  apply Hids in Hsm, Hsl, Hbt, Hra, Htv.
  split; [reflexivity|]. split; [exact Hfirst|].
  split.
  { exists sm. split; [exact Esm|]. rewrite Hsm.
    vm_compute in Esm. injection Esm as <-. split; reflexivity. }
  split.
  { exists sl. split; [exact Esl|]. rewrite Hsl.
    vm_compute in Esl. injection Esl as <-. split; reflexivity. }
  split.
  { exists bt. split; [exact Ebt|]. rewrite Hbt.
    vm_compute in Ebt. injection Ebt as <-. split; reflexivity. }
  split.
  { exists ra. split; [exact Era|]. rewrite Hra.
    vm_compute in Era. injection Era as <-. split; reflexivity. }
  exists tv. split; [exact Etv|]. rewrite Htv.
  vm_compute in Etv. injection Etv as <-. split; reflexivity.
Defined.
